(** * Resume maker: photo normalisation and document assembly

    A shallow embedding of [main_file.py]: the passport-photo routine
    [process_passport_photo] and the document assembler [generate_resume],
    followed by the properties of the two that the specification states.

    Conventions of the model.
    - A Python [str] is held as the [string] of the bytes of its UTF-8
      encoding. [upper] and [strip] follow Python on every character
      ([upper_table] and [whitespace] list the characters concerned beyond
      ASCII); [repr] passes the bytes above 127 through unchanged.
    - A profile record (a [dict], iterated in insertion order) is an
      association list; [get] is [dict.get].
    - The file system is a finite map from path names to files: a file is
      known by the one name the program uses for it.
    - Exceptions are the [Err] results of an error monad that also threads
      the file system, so that the state left behind by a raise is visible.
    - What the program consumes as black boxes (grey-scale conversion, the
      face detector, the interpolation of [cv2.resize], and whether the
      operating system lets a file be created) are the fields of
      [capabilities]. *)

From Stdlib Require Import ZArith List String Ascii Bool Lia.
From stdpp Require Import base option list strings gmap.

Local Open Scope Z_scope.

(* ===================================================================== *)
(** ** Python text                                                         *)
(* ===================================================================== *)

Module PyText.

Definition newline : ascii := "010"%char.
Definition tab : ascii := "009"%char.
Definition carriage_return : ascii := "013"%char.
Definition single_quote : ascii := "039"%char.
Definition double_quote : ascii := "034"%char.
Definition backslash : ascii := "092"%char.

(** [c in s] for a one-character needle. *)
Fixpoint contains_char (c : ascii) (s : string) : bool :=
  match s with
  | EmptyString => false
  | String a rest => Ascii.eqb a c || contains_char c rest
  end.

(** The text of the given bytes. *)
Definition of_codes (codes : list nat) : string :=
  List.fold_right (fun n s => String (ascii_of_nat n) s) EmptyString codes.

(** [s.startswith(key)]. *)
Fixpoint starts_with (key s : string) : bool :=
  match key, s with
  | EmptyString, _ => true
  | String k key', String a s' => Ascii.eqb k a && starts_with key' s'
  | String _ _, EmptyString => false
  end.

(** The text turned around, last byte first. *)
Fixpoint reverse_onto (s acc : string) : string :=
  match s with
  | EmptyString => acc
  | String a rest => reverse_onto rest (String a acc)
  end.

Definition reverse (s : string) : string := reverse_onto s EmptyString.

(** [str.upper] on an ASCII character. *)
Definition upper_char (c : ascii) : ascii :=
  let n := nat_of_ascii c in
  if (97 <=? n)%nat && (n <=? 122)%nat then ascii_of_nat (n - 32) else c.

(** The characters beyond ASCII that [str.upper] changes, each with what it
    becomes (one to three characters): the upper-case mapping of the Unicode
    character database, which Python applies character by character. *)
Definition upper_table : list (string * string) :=
  [
   ("µ", "Μ"); ("ß", "SS"); ("à", "À"); ("á", "Á"); ("â", "Â"); ("ã", "Ã");
   ("ä", "Ä"); ("å", "Å"); ("æ", "Æ"); ("ç", "Ç"); ("è", "È"); ("é", "É");
   ("ê", "Ê"); ("ë", "Ë"); ("ì", "Ì"); ("í", "Í"); ("î", "Î"); ("ï", "Ï");
   ("ð", "Ð"); ("ñ", "Ñ"); ("ò", "Ò"); ("ó", "Ó"); ("ô", "Ô"); ("õ", "Õ");
   ("ö", "Ö"); ("ø", "Ø"); ("ù", "Ù"); ("ú", "Ú"); ("û", "Û"); ("ü", "Ü");
   ("ý", "Ý"); ("þ", "Þ"); ("ÿ", "Ÿ"); ("ā", "Ā"); ("ă", "Ă"); ("ą", "Ą");
   ("ć", "Ć"); ("ĉ", "Ĉ"); ("ċ", "Ċ"); ("č", "Č"); ("ď", "Ď"); ("đ", "Đ");
   ("ē", "Ē"); ("ĕ", "Ĕ"); ("ė", "Ė"); ("ę", "Ę"); ("ě", "Ě"); ("ĝ", "Ĝ");
   ("ğ", "Ğ"); ("ġ", "Ġ"); ("ģ", "Ģ"); ("ĥ", "Ĥ"); ("ħ", "Ħ"); ("ĩ", "Ĩ");
   ("ī", "Ī"); ("ĭ", "Ĭ"); ("į", "Į"); ("ı", "I"); ("ĳ", "Ĳ"); ("ĵ", "Ĵ");
   ("ķ", "Ķ"); ("ĺ", "Ĺ"); ("ļ", "Ļ"); ("ľ", "Ľ"); ("ŀ", "Ŀ"); ("ł", "Ł");
   ("ń", "Ń"); ("ņ", "Ņ"); ("ň", "Ň"); ("ŉ", "ʼN"); ("ŋ", "Ŋ"); ("ō", "Ō");
   ("ŏ", "Ŏ"); ("ő", "Ő"); ("œ", "Œ"); ("ŕ", "Ŕ"); ("ŗ", "Ŗ"); ("ř", "Ř");
   ("ś", "Ś"); ("ŝ", "Ŝ"); ("ş", "Ş"); ("š", "Š"); ("ţ", "Ţ"); ("ť", "Ť");
   ("ŧ", "Ŧ"); ("ũ", "Ũ"); ("ū", "Ū"); ("ŭ", "Ŭ"); ("ů", "Ů"); ("ű", "Ű");
   ("ų", "Ų"); ("ŵ", "Ŵ"); ("ŷ", "Ŷ"); ("ź", "Ź"); ("ż", "Ż"); ("ž", "Ž");
   ("ſ", "S"); ("ƀ", "Ƀ"); ("ƃ", "Ƃ"); ("ƅ", "Ƅ"); ("ƈ", "Ƈ"); ("ƌ", "Ƌ");
   ("ƒ", "Ƒ"); ("ƕ", "Ƕ"); ("ƙ", "Ƙ"); ("ƚ", "Ƚ"); ("ƞ", "Ƞ"); ("ơ", "Ơ");
   ("ƣ", "Ƣ"); ("ƥ", "Ƥ"); ("ƨ", "Ƨ"); ("ƭ", "Ƭ"); ("ư", "Ư"); ("ƴ", "Ƴ");
   ("ƶ", "Ƶ"); ("ƹ", "Ƹ"); ("ƽ", "Ƽ"); ("ƿ", "Ƿ"); ("ǅ", "Ǆ"); ("ǆ", "Ǆ");
   ("ǈ", "Ǉ"); ("ǉ", "Ǉ"); ("ǋ", "Ǌ"); ("ǌ", "Ǌ"); ("ǎ", "Ǎ"); ("ǐ", "Ǐ");
   ("ǒ", "Ǒ"); ("ǔ", "Ǔ"); ("ǖ", "Ǖ"); ("ǘ", "Ǘ"); ("ǚ", "Ǚ"); ("ǜ", "Ǜ");
   ("ǝ", "Ǝ"); ("ǟ", "Ǟ"); ("ǡ", "Ǡ"); ("ǣ", "Ǣ"); ("ǥ", "Ǥ"); ("ǧ", "Ǧ");
   ("ǩ", "Ǩ"); ("ǫ", "Ǫ"); ("ǭ", "Ǭ"); ("ǯ", "Ǯ"); ("ǰ", "J̌"); ("ǲ", "Ǳ");
   ("ǳ", "Ǳ"); ("ǵ", "Ǵ"); ("ǹ", "Ǹ"); ("ǻ", "Ǻ"); ("ǽ", "Ǽ"); ("ǿ", "Ǿ");
   ("ȁ", "Ȁ"); ("ȃ", "Ȃ"); ("ȅ", "Ȅ"); ("ȇ", "Ȇ"); ("ȉ", "Ȉ"); ("ȋ", "Ȋ");
   ("ȍ", "Ȍ"); ("ȏ", "Ȏ"); ("ȑ", "Ȑ"); ("ȓ", "Ȓ"); ("ȕ", "Ȕ"); ("ȗ", "Ȗ");
   ("ș", "Ș"); ("ț", "Ț"); ("ȝ", "Ȝ"); ("ȟ", "Ȟ"); ("ȣ", "Ȣ"); ("ȥ", "Ȥ");
   ("ȧ", "Ȧ"); ("ȩ", "Ȩ"); ("ȫ", "Ȫ"); ("ȭ", "Ȭ"); ("ȯ", "Ȯ"); ("ȱ", "Ȱ");
   ("ȳ", "Ȳ"); ("ȼ", "Ȼ"); ("ȿ", "Ȿ"); ("ɀ", "Ɀ"); ("ɂ", "Ɂ"); ("ɇ", "Ɇ");
   ("ɉ", "Ɉ"); ("ɋ", "Ɋ"); ("ɍ", "Ɍ"); ("ɏ", "Ɏ"); ("ɐ", "Ɐ"); ("ɑ", "Ɑ");
   ("ɒ", "Ɒ"); ("ɓ", "Ɓ"); ("ɔ", "Ɔ"); ("ɖ", "Ɖ"); ("ɗ", "Ɗ"); ("ə", "Ə");
   ("ɛ", "Ɛ"); ("ɜ", "Ɜ"); ("ɠ", "Ɠ"); ("ɡ", "Ɡ"); ("ɣ", "Ɣ"); ("ɥ", "Ɥ");
   ("ɦ", "Ɦ"); ("ɨ", "Ɨ"); ("ɩ", "Ɩ"); ("ɪ", "Ɪ"); ("ɫ", "Ɫ"); ("ɬ", "Ɬ");
   ("ɯ", "Ɯ"); ("ɱ", "Ɱ"); ("ɲ", "Ɲ"); ("ɵ", "Ɵ"); ("ɽ", "Ɽ"); ("ʀ", "Ʀ");
   ("ʂ", "Ʂ"); ("ʃ", "Ʃ"); ("ʇ", "Ʇ"); ("ʈ", "Ʈ"); ("ʉ", "Ʉ"); ("ʊ", "Ʊ");
   ("ʋ", "Ʋ"); ("ʌ", "Ʌ"); ("ʒ", "Ʒ"); ("ʝ", "Ʝ"); ("ʞ", "Ʞ"); ("ͅ", "Ι");
   ("ͱ", "Ͱ"); ("ͳ", "Ͳ"); ("ͷ", "Ͷ"); ("ͻ", "Ͻ"); ("ͼ", "Ͼ"); ("ͽ", "Ͽ");
   ("ΐ", "Ϊ́"); ("ά", "Ά"); ("έ", "Έ"); ("ή", "Ή"); ("ί", "Ί"); ("ΰ", "Ϋ́");
   ("α", "Α"); ("β", "Β"); ("γ", "Γ"); ("δ", "Δ"); ("ε", "Ε"); ("ζ", "Ζ");
   ("η", "Η"); ("θ", "Θ"); ("ι", "Ι"); ("κ", "Κ"); ("λ", "Λ"); ("μ", "Μ");
   ("ν", "Ν"); ("ξ", "Ξ"); ("ο", "Ο"); ("π", "Π"); ("ρ", "Ρ"); ("ς", "Σ");
   ("σ", "Σ"); ("τ", "Τ"); ("υ", "Υ"); ("φ", "Φ"); ("χ", "Χ"); ("ψ", "Ψ");
   ("ω", "Ω"); ("ϊ", "Ϊ"); ("ϋ", "Ϋ"); ("ό", "Ό"); ("ύ", "Ύ"); ("ώ", "Ώ");
   ("ϐ", "Β"); ("ϑ", "Θ"); ("ϕ", "Φ"); ("ϖ", "Π"); ("ϗ", "Ϗ"); ("ϙ", "Ϙ");
   ("ϛ", "Ϛ"); ("ϝ", "Ϝ"); ("ϟ", "Ϟ"); ("ϡ", "Ϡ"); ("ϣ", "Ϣ"); ("ϥ", "Ϥ");
   ("ϧ", "Ϧ"); ("ϩ", "Ϩ"); ("ϫ", "Ϫ"); ("ϭ", "Ϭ"); ("ϯ", "Ϯ"); ("ϰ", "Κ");
   ("ϱ", "Ρ"); ("ϲ", "Ϲ"); ("ϳ", "Ϳ"); ("ϵ", "Ε"); ("ϸ", "Ϸ"); ("ϻ", "Ϻ");
   ("а", "А"); ("б", "Б"); ("в", "В"); ("г", "Г"); ("д", "Д"); ("е", "Е");
   ("ж", "Ж"); ("з", "З"); ("и", "И"); ("й", "Й"); ("к", "К"); ("л", "Л");
   ("м", "М"); ("н", "Н"); ("о", "О"); ("п", "П"); ("р", "Р"); ("с", "С");
   ("т", "Т"); ("у", "У"); ("ф", "Ф"); ("х", "Х"); ("ц", "Ц"); ("ч", "Ч");
   ("ш", "Ш"); ("щ", "Щ"); ("ъ", "Ъ"); ("ы", "Ы"); ("ь", "Ь"); ("э", "Э");
   ("ю", "Ю"); ("я", "Я"); ("ѐ", "Ѐ"); ("ё", "Ё"); ("ђ", "Ђ"); ("ѓ", "Ѓ");
   ("є", "Є"); ("ѕ", "Ѕ"); ("і", "І"); ("ї", "Ї"); ("ј", "Ј"); ("љ", "Љ");
   ("њ", "Њ"); ("ћ", "Ћ"); ("ќ", "Ќ"); ("ѝ", "Ѝ"); ("ў", "Ў"); ("џ", "Џ");
   ("ѡ", "Ѡ"); ("ѣ", "Ѣ"); ("ѥ", "Ѥ"); ("ѧ", "Ѧ"); ("ѩ", "Ѩ"); ("ѫ", "Ѫ");
   ("ѭ", "Ѭ"); ("ѯ", "Ѯ"); ("ѱ", "Ѱ"); ("ѳ", "Ѳ"); ("ѵ", "Ѵ"); ("ѷ", "Ѷ");
   ("ѹ", "Ѹ"); ("ѻ", "Ѻ"); ("ѽ", "Ѽ"); ("ѿ", "Ѿ"); ("ҁ", "Ҁ"); ("ҋ", "Ҋ");
   ("ҍ", "Ҍ"); ("ҏ", "Ҏ"); ("ґ", "Ґ"); ("ғ", "Ғ"); ("ҕ", "Ҕ"); ("җ", "Җ");
   ("ҙ", "Ҙ"); ("қ", "Қ"); ("ҝ", "Ҝ"); ("ҟ", "Ҟ"); ("ҡ", "Ҡ"); ("ң", "Ң");
   ("ҥ", "Ҥ"); ("ҧ", "Ҧ"); ("ҩ", "Ҩ"); ("ҫ", "Ҫ"); ("ҭ", "Ҭ"); ("ү", "Ү");
   ("ұ", "Ұ"); ("ҳ", "Ҳ"); ("ҵ", "Ҵ"); ("ҷ", "Ҷ"); ("ҹ", "Ҹ"); ("һ", "Һ");
   ("ҽ", "Ҽ"); ("ҿ", "Ҿ"); ("ӂ", "Ӂ"); ("ӄ", "Ӄ"); ("ӆ", "Ӆ"); ("ӈ", "Ӈ");
   ("ӊ", "Ӊ"); ("ӌ", "Ӌ"); ("ӎ", "Ӎ"); ("ӏ", "Ӏ"); ("ӑ", "Ӑ"); ("ӓ", "Ӓ");
   ("ӕ", "Ӕ"); ("ӗ", "Ӗ"); ("ә", "Ә"); ("ӛ", "Ӛ"); ("ӝ", "Ӝ"); ("ӟ", "Ӟ");
   ("ӡ", "Ӡ"); ("ӣ", "Ӣ"); ("ӥ", "Ӥ"); ("ӧ", "Ӧ"); ("ө", "Ө"); ("ӫ", "Ӫ");
   ("ӭ", "Ӭ"); ("ӯ", "Ӯ"); ("ӱ", "Ӱ"); ("ӳ", "Ӳ"); ("ӵ", "Ӵ"); ("ӷ", "Ӷ");
   ("ӹ", "Ӹ"); ("ӻ", "Ӻ"); ("ӽ", "Ӽ"); ("ӿ", "Ӿ"); ("ԁ", "Ԁ"); ("ԃ", "Ԃ");
   ("ԅ", "Ԅ"); ("ԇ", "Ԇ"); ("ԉ", "Ԉ"); ("ԋ", "Ԋ"); ("ԍ", "Ԍ"); ("ԏ", "Ԏ");
   ("ԑ", "Ԑ"); ("ԓ", "Ԓ"); ("ԕ", "Ԕ"); ("ԗ", "Ԗ"); ("ԙ", "Ԙ"); ("ԛ", "Ԛ");
   ("ԝ", "Ԝ"); ("ԟ", "Ԟ"); ("ԡ", "Ԡ"); ("ԣ", "Ԣ"); ("ԥ", "Ԥ"); ("ԧ", "Ԧ");
   ("ԩ", "Ԩ"); ("ԫ", "Ԫ"); ("ԭ", "Ԭ"); ("ԯ", "Ԯ"); ("ա", "Ա"); ("բ", "Բ");
   ("գ", "Գ"); ("դ", "Դ"); ("ե", "Ե"); ("զ", "Զ"); ("է", "Է"); ("ը", "Ը");
   ("թ", "Թ"); ("ժ", "Ժ"); ("ի", "Ի"); ("լ", "Լ"); ("խ", "Խ"); ("ծ", "Ծ");
   ("կ", "Կ"); ("հ", "Հ"); ("ձ", "Ձ"); ("ղ", "Ղ"); ("ճ", "Ճ"); ("մ", "Մ");
   ("յ", "Յ"); ("ն", "Ն"); ("շ", "Շ"); ("ո", "Ո"); ("չ", "Չ"); ("պ", "Պ");
   ("ջ", "Ջ"); ("ռ", "Ռ"); ("ս", "Ս"); ("վ", "Վ"); ("տ", "Տ"); ("ր", "Ր");
   ("ց", "Ց"); ("ւ", "Ւ"); ("փ", "Փ"); ("ք", "Ք"); ("օ", "Օ"); ("ֆ", "Ֆ");
   ("և", "ԵՒ"); ("ა", "Ა"); ("ბ", "Ბ"); ("გ", "Გ"); ("დ", "Დ"); ("ე", "Ე");
   ("ვ", "Ვ"); ("ზ", "Ზ"); ("თ", "Თ"); ("ი", "Ი"); ("კ", "Კ"); ("ლ", "Ლ");
   ("მ", "Მ"); ("ნ", "Ნ"); ("ო", "Ო"); ("პ", "Პ"); ("ჟ", "Ჟ"); ("რ", "Რ");
   ("ს", "Ს"); ("ტ", "Ტ"); ("უ", "Უ"); ("ფ", "Ფ"); ("ქ", "Ქ"); ("ღ", "Ღ");
   ("ყ", "Ყ"); ("შ", "Შ"); ("ჩ", "Ჩ"); ("ც", "Ც"); ("ძ", "Ძ"); ("წ", "Წ");
   ("ჭ", "Ჭ"); ("ხ", "Ხ"); ("ჯ", "Ჯ"); ("ჰ", "Ჰ"); ("ჱ", "Ჱ"); ("ჲ", "Ჲ");
   ("ჳ", "Ჳ"); ("ჴ", "Ჴ"); ("ჵ", "Ჵ"); ("ჶ", "Ჶ"); ("ჷ", "Ჷ"); ("ჸ", "Ჸ");
   ("ჹ", "Ჹ"); ("ჺ", "Ჺ"); ("ჽ", "Ჽ"); ("ჾ", "Ჾ"); ("ჿ", "Ჿ"); ("ᏸ", "Ᏸ");
   ("ᏹ", "Ᏹ"); ("ᏺ", "Ᏺ"); ("ᏻ", "Ᏻ"); ("ᏼ", "Ᏼ"); ("ᏽ", "Ᏽ"); ("ᲀ", "В");
   ("ᲁ", "Д"); ("ᲂ", "О"); ("ᲃ", "С"); ("ᲄ", "Т"); ("ᲅ", "Т"); ("ᲆ", "Ъ");
   ("ᲇ", "Ѣ"); ("ᲈ", "Ꙋ"); ("ᵹ", "Ᵹ"); ("ᵽ", "Ᵽ"); ("ᶎ", "Ᶎ"); ("ḁ", "Ḁ");
   ("ḃ", "Ḃ"); ("ḅ", "Ḅ"); ("ḇ", "Ḇ"); ("ḉ", "Ḉ"); ("ḋ", "Ḋ"); ("ḍ", "Ḍ");
   ("ḏ", "Ḏ"); ("ḑ", "Ḑ"); ("ḓ", "Ḓ"); ("ḕ", "Ḕ"); ("ḗ", "Ḗ"); ("ḙ", "Ḙ");
   ("ḛ", "Ḛ"); ("ḝ", "Ḝ"); ("ḟ", "Ḟ"); ("ḡ", "Ḡ"); ("ḣ", "Ḣ"); ("ḥ", "Ḥ");
   ("ḧ", "Ḧ"); ("ḩ", "Ḩ"); ("ḫ", "Ḫ"); ("ḭ", "Ḭ"); ("ḯ", "Ḯ"); ("ḱ", "Ḱ");
   ("ḳ", "Ḳ"); ("ḵ", "Ḵ"); ("ḷ", "Ḷ"); ("ḹ", "Ḹ"); ("ḻ", "Ḻ"); ("ḽ", "Ḽ");
   ("ḿ", "Ḿ"); ("ṁ", "Ṁ"); ("ṃ", "Ṃ"); ("ṅ", "Ṅ"); ("ṇ", "Ṇ"); ("ṉ", "Ṉ");
   ("ṋ", "Ṋ"); ("ṍ", "Ṍ"); ("ṏ", "Ṏ"); ("ṑ", "Ṑ"); ("ṓ", "Ṓ"); ("ṕ", "Ṕ");
   ("ṗ", "Ṗ"); ("ṙ", "Ṙ"); ("ṛ", "Ṛ"); ("ṝ", "Ṝ"); ("ṟ", "Ṟ"); ("ṡ", "Ṡ");
   ("ṣ", "Ṣ"); ("ṥ", "Ṥ"); ("ṧ", "Ṧ"); ("ṩ", "Ṩ"); ("ṫ", "Ṫ"); ("ṭ", "Ṭ");
   ("ṯ", "Ṯ"); ("ṱ", "Ṱ"); ("ṳ", "Ṳ"); ("ṵ", "Ṵ"); ("ṷ", "Ṷ"); ("ṹ", "Ṹ");
   ("ṻ", "Ṻ"); ("ṽ", "Ṽ"); ("ṿ", "Ṿ"); ("ẁ", "Ẁ"); ("ẃ", "Ẃ"); ("ẅ", "Ẅ");
   ("ẇ", "Ẇ"); ("ẉ", "Ẉ"); ("ẋ", "Ẋ"); ("ẍ", "Ẍ"); ("ẏ", "Ẏ"); ("ẑ", "Ẑ");
   ("ẓ", "Ẓ"); ("ẕ", "Ẕ"); ("ẖ", "H̱"); ("ẗ", "T̈"); ("ẘ", "W̊"); ("ẙ", "Y̊");
   ("ẚ", "Aʾ"); ("ẛ", "Ṡ"); ("ạ", "Ạ"); ("ả", "Ả"); ("ấ", "Ấ"); ("ầ", "Ầ");
   ("ẩ", "Ẩ"); ("ẫ", "Ẫ"); ("ậ", "Ậ"); ("ắ", "Ắ"); ("ằ", "Ằ"); ("ẳ", "Ẳ");
   ("ẵ", "Ẵ"); ("ặ", "Ặ"); ("ẹ", "Ẹ"); ("ẻ", "Ẻ"); ("ẽ", "Ẽ"); ("ế", "Ế");
   ("ề", "Ề"); ("ể", "Ể"); ("ễ", "Ễ"); ("ệ", "Ệ"); ("ỉ", "Ỉ"); ("ị", "Ị");
   ("ọ", "Ọ"); ("ỏ", "Ỏ"); ("ố", "Ố"); ("ồ", "Ồ"); ("ổ", "Ổ"); ("ỗ", "Ỗ");
   ("ộ", "Ộ"); ("ớ", "Ớ"); ("ờ", "Ờ"); ("ở", "Ở"); ("ỡ", "Ỡ"); ("ợ", "Ợ");
   ("ụ", "Ụ"); ("ủ", "Ủ"); ("ứ", "Ứ"); ("ừ", "Ừ"); ("ử", "Ử"); ("ữ", "Ữ");
   ("ự", "Ự"); ("ỳ", "Ỳ"); ("ỵ", "Ỵ"); ("ỷ", "Ỷ"); ("ỹ", "Ỹ"); ("ỻ", "Ỻ");
   ("ỽ", "Ỽ"); ("ỿ", "Ỿ"); ("ἀ", "Ἀ"); ("ἁ", "Ἁ"); ("ἂ", "Ἂ"); ("ἃ", "Ἃ");
   ("ἄ", "Ἄ"); ("ἅ", "Ἅ"); ("ἆ", "Ἆ"); ("ἇ", "Ἇ"); ("ἐ", "Ἐ"); ("ἑ", "Ἑ");
   ("ἒ", "Ἒ"); ("ἓ", "Ἓ"); ("ἔ", "Ἔ"); ("ἕ", "Ἕ"); ("ἠ", "Ἠ"); ("ἡ", "Ἡ");
   ("ἢ", "Ἢ"); ("ἣ", "Ἣ"); ("ἤ", "Ἤ"); ("ἥ", "Ἥ"); ("ἦ", "Ἦ"); ("ἧ", "Ἧ");
   ("ἰ", "Ἰ"); ("ἱ", "Ἱ"); ("ἲ", "Ἲ"); ("ἳ", "Ἳ"); ("ἴ", "Ἴ"); ("ἵ", "Ἵ");
   ("ἶ", "Ἶ"); ("ἷ", "Ἷ"); ("ὀ", "Ὀ"); ("ὁ", "Ὁ"); ("ὂ", "Ὂ"); ("ὃ", "Ὃ");
   ("ὄ", "Ὄ"); ("ὅ", "Ὅ"); ("ὐ", "Υ̓"); ("ὑ", "Ὑ"); ("ὒ", "Υ̓̀"); ("ὓ", "Ὓ");
   ("ὔ", "Υ̓́"); ("ὕ", "Ὕ"); ("ὖ", "Υ̓͂"); ("ὗ", "Ὗ"); ("ὠ", "Ὠ"); ("ὡ", "Ὡ");
   ("ὢ", "Ὢ"); ("ὣ", "Ὣ"); ("ὤ", "Ὤ"); ("ὥ", "Ὥ"); ("ὦ", "Ὦ"); ("ὧ", "Ὧ");
   ("ὰ", "Ὰ"); ("ά", "Ά"); ("ὲ", "Ὲ"); ("έ", "Έ"); ("ὴ", "Ὴ"); ("ή", "Ή");
   ("ὶ", "Ὶ"); ("ί", "Ί"); ("ὸ", "Ὸ"); ("ό", "Ό"); ("ὺ", "Ὺ"); ("ύ", "Ύ");
   ("ὼ", "Ὼ"); ("ώ", "Ώ"); ("ᾀ", "ἈΙ"); ("ᾁ", "ἉΙ"); ("ᾂ", "ἊΙ"); ("ᾃ", "ἋΙ");
   ("ᾄ", "ἌΙ"); ("ᾅ", "ἍΙ"); ("ᾆ", "ἎΙ"); ("ᾇ", "ἏΙ"); ("ᾈ", "ἈΙ"); ("ᾉ", "ἉΙ");
   ("ᾊ", "ἊΙ"); ("ᾋ", "ἋΙ"); ("ᾌ", "ἌΙ"); ("ᾍ", "ἍΙ"); ("ᾎ", "ἎΙ"); ("ᾏ", "ἏΙ");
   ("ᾐ", "ἨΙ"); ("ᾑ", "ἩΙ"); ("ᾒ", "ἪΙ"); ("ᾓ", "ἫΙ"); ("ᾔ", "ἬΙ"); ("ᾕ", "ἭΙ");
   ("ᾖ", "ἮΙ"); ("ᾗ", "ἯΙ"); ("ᾘ", "ἨΙ"); ("ᾙ", "ἩΙ"); ("ᾚ", "ἪΙ"); ("ᾛ", "ἫΙ");
   ("ᾜ", "ἬΙ"); ("ᾝ", "ἭΙ"); ("ᾞ", "ἮΙ"); ("ᾟ", "ἯΙ"); ("ᾠ", "ὨΙ"); ("ᾡ", "ὩΙ");
   ("ᾢ", "ὪΙ"); ("ᾣ", "ὫΙ"); ("ᾤ", "ὬΙ"); ("ᾥ", "ὭΙ"); ("ᾦ", "ὮΙ"); ("ᾧ", "ὯΙ");
   ("ᾨ", "ὨΙ"); ("ᾩ", "ὩΙ"); ("ᾪ", "ὪΙ"); ("ᾫ", "ὫΙ"); ("ᾬ", "ὬΙ"); ("ᾭ", "ὭΙ");
   ("ᾮ", "ὮΙ"); ("ᾯ", "ὯΙ"); ("ᾰ", "Ᾰ"); ("ᾱ", "Ᾱ"); ("ᾲ", "ᾺΙ"); ("ᾳ", "ΑΙ");
   ("ᾴ", "ΆΙ"); ("ᾶ", "Α͂"); ("ᾷ", "Α͂Ι"); ("ᾼ", "ΑΙ"); ("ι", "Ι"); ("ῂ", "ῊΙ");
   ("ῃ", "ΗΙ"); ("ῄ", "ΉΙ"); ("ῆ", "Η͂"); ("ῇ", "Η͂Ι"); ("ῌ", "ΗΙ"); ("ῐ", "Ῐ");
   ("ῑ", "Ῑ"); ("ῒ", "Ϊ̀"); ("ΐ", "Ϊ́"); ("ῖ", "Ι͂"); ("ῗ", "Ϊ͂"); ("ῠ", "Ῠ");
   ("ῡ", "Ῡ"); ("ῢ", "Ϋ̀"); ("ΰ", "Ϋ́"); ("ῤ", "Ρ̓"); ("ῥ", "Ῥ"); ("ῦ", "Υ͂");
   ("ῧ", "Ϋ͂"); ("ῲ", "ῺΙ"); ("ῳ", "ΩΙ"); ("ῴ", "ΏΙ"); ("ῶ", "Ω͂"); ("ῷ", "Ω͂Ι");
   ("ῼ", "ΩΙ"); ("ⅎ", "Ⅎ"); ("ⅰ", "Ⅰ"); ("ⅱ", "Ⅱ"); ("ⅲ", "Ⅲ"); ("ⅳ", "Ⅳ");
   ("ⅴ", "Ⅴ"); ("ⅵ", "Ⅵ"); ("ⅶ", "Ⅶ"); ("ⅷ", "Ⅷ"); ("ⅸ", "Ⅸ"); ("ⅹ", "Ⅹ");
   ("ⅺ", "Ⅺ"); ("ⅻ", "Ⅻ"); ("ⅼ", "Ⅼ"); ("ⅽ", "Ⅽ"); ("ⅾ", "Ⅾ"); ("ⅿ", "Ⅿ");
   ("ↄ", "Ↄ"); ("ⓐ", "Ⓐ"); ("ⓑ", "Ⓑ"); ("ⓒ", "Ⓒ"); ("ⓓ", "Ⓓ"); ("ⓔ", "Ⓔ");
   ("ⓕ", "Ⓕ"); ("ⓖ", "Ⓖ"); ("ⓗ", "Ⓗ"); ("ⓘ", "Ⓘ"); ("ⓙ", "Ⓙ"); ("ⓚ", "Ⓚ");
   ("ⓛ", "Ⓛ"); ("ⓜ", "Ⓜ"); ("ⓝ", "Ⓝ"); ("ⓞ", "Ⓞ"); ("ⓟ", "Ⓟ"); ("ⓠ", "Ⓠ");
   ("ⓡ", "Ⓡ"); ("ⓢ", "Ⓢ"); ("ⓣ", "Ⓣ"); ("ⓤ", "Ⓤ"); ("ⓥ", "Ⓥ"); ("ⓦ", "Ⓦ");
   ("ⓧ", "Ⓧ"); ("ⓨ", "Ⓨ"); ("ⓩ", "Ⓩ"); ("ⰰ", "Ⰰ"); ("ⰱ", "Ⰱ"); ("ⰲ", "Ⰲ");
   ("ⰳ", "Ⰳ"); ("ⰴ", "Ⰴ"); ("ⰵ", "Ⰵ"); ("ⰶ", "Ⰶ"); ("ⰷ", "Ⰷ"); ("ⰸ", "Ⰸ");
   ("ⰹ", "Ⰹ"); ("ⰺ", "Ⰺ"); ("ⰻ", "Ⰻ"); ("ⰼ", "Ⰼ"); ("ⰽ", "Ⰽ"); ("ⰾ", "Ⰾ");
   ("ⰿ", "Ⰿ"); ("ⱀ", "Ⱀ"); ("ⱁ", "Ⱁ"); ("ⱂ", "Ⱂ"); ("ⱃ", "Ⱃ"); ("ⱄ", "Ⱄ");
   ("ⱅ", "Ⱅ"); ("ⱆ", "Ⱆ"); ("ⱇ", "Ⱇ"); ("ⱈ", "Ⱈ"); ("ⱉ", "Ⱉ"); ("ⱊ", "Ⱊ");
   ("ⱋ", "Ⱋ"); ("ⱌ", "Ⱌ"); ("ⱍ", "Ⱍ"); ("ⱎ", "Ⱎ"); ("ⱏ", "Ⱏ"); ("ⱐ", "Ⱐ");
   ("ⱑ", "Ⱑ"); ("ⱒ", "Ⱒ"); ("ⱓ", "Ⱓ"); ("ⱔ", "Ⱔ"); ("ⱕ", "Ⱕ"); ("ⱖ", "Ⱖ");
   ("ⱗ", "Ⱗ"); ("ⱘ", "Ⱘ"); ("ⱙ", "Ⱙ"); ("ⱚ", "Ⱚ"); ("ⱛ", "Ⱛ"); ("ⱜ", "Ⱜ");
   ("ⱝ", "Ⱝ"); ("ⱞ", "Ⱞ"); ("ⱟ", "Ⱟ"); ("ⱡ", "Ⱡ"); ("ⱥ", "Ⱥ"); ("ⱦ", "Ⱦ");
   ("ⱨ", "Ⱨ"); ("ⱪ", "Ⱪ"); ("ⱬ", "Ⱬ"); ("ⱳ", "Ⱳ"); ("ⱶ", "Ⱶ"); ("ⲁ", "Ⲁ");
   ("ⲃ", "Ⲃ"); ("ⲅ", "Ⲅ"); ("ⲇ", "Ⲇ"); ("ⲉ", "Ⲉ"); ("ⲋ", "Ⲋ"); ("ⲍ", "Ⲍ");
   ("ⲏ", "Ⲏ"); ("ⲑ", "Ⲑ"); ("ⲓ", "Ⲓ"); ("ⲕ", "Ⲕ"); ("ⲗ", "Ⲗ"); ("ⲙ", "Ⲙ");
   ("ⲛ", "Ⲛ"); ("ⲝ", "Ⲝ"); ("ⲟ", "Ⲟ"); ("ⲡ", "Ⲡ"); ("ⲣ", "Ⲣ"); ("ⲥ", "Ⲥ");
   ("ⲧ", "Ⲧ"); ("ⲩ", "Ⲩ"); ("ⲫ", "Ⲫ"); ("ⲭ", "Ⲭ"); ("ⲯ", "Ⲯ"); ("ⲱ", "Ⲱ");
   ("ⲳ", "Ⲳ"); ("ⲵ", "Ⲵ"); ("ⲷ", "Ⲷ"); ("ⲹ", "Ⲹ"); ("ⲻ", "Ⲻ"); ("ⲽ", "Ⲽ");
   ("ⲿ", "Ⲿ"); ("ⳁ", "Ⳁ"); ("ⳃ", "Ⳃ"); ("ⳅ", "Ⳅ"); ("ⳇ", "Ⳇ"); ("ⳉ", "Ⳉ");
   ("ⳋ", "Ⳋ"); ("ⳍ", "Ⳍ"); ("ⳏ", "Ⳏ"); ("ⳑ", "Ⳑ"); ("ⳓ", "Ⳓ"); ("ⳕ", "Ⳕ");
   ("ⳗ", "Ⳗ"); ("ⳙ", "Ⳙ"); ("ⳛ", "Ⳛ"); ("ⳝ", "Ⳝ"); ("ⳟ", "Ⳟ"); ("ⳡ", "Ⳡ");
   ("ⳣ", "Ⳣ"); ("ⳬ", "Ⳬ"); ("ⳮ", "Ⳮ"); ("ⳳ", "Ⳳ"); ("ⴀ", "Ⴀ"); ("ⴁ", "Ⴁ");
   ("ⴂ", "Ⴂ"); ("ⴃ", "Ⴃ"); ("ⴄ", "Ⴄ"); ("ⴅ", "Ⴅ"); ("ⴆ", "Ⴆ"); ("ⴇ", "Ⴇ");
   ("ⴈ", "Ⴈ"); ("ⴉ", "Ⴉ"); ("ⴊ", "Ⴊ"); ("ⴋ", "Ⴋ"); ("ⴌ", "Ⴌ"); ("ⴍ", "Ⴍ");
   ("ⴎ", "Ⴎ"); ("ⴏ", "Ⴏ"); ("ⴐ", "Ⴐ"); ("ⴑ", "Ⴑ"); ("ⴒ", "Ⴒ"); ("ⴓ", "Ⴓ");
   ("ⴔ", "Ⴔ"); ("ⴕ", "Ⴕ"); ("ⴖ", "Ⴖ"); ("ⴗ", "Ⴗ"); ("ⴘ", "Ⴘ"); ("ⴙ", "Ⴙ");
   ("ⴚ", "Ⴚ"); ("ⴛ", "Ⴛ"); ("ⴜ", "Ⴜ"); ("ⴝ", "Ⴝ"); ("ⴞ", "Ⴞ"); ("ⴟ", "Ⴟ");
   ("ⴠ", "Ⴠ"); ("ⴡ", "Ⴡ"); ("ⴢ", "Ⴢ"); ("ⴣ", "Ⴣ"); ("ⴤ", "Ⴤ"); ("ⴥ", "Ⴥ");
   ("ⴧ", "Ⴧ"); ("ⴭ", "Ⴭ"); ("ꙁ", "Ꙁ"); ("ꙃ", "Ꙃ"); ("ꙅ", "Ꙅ"); ("ꙇ", "Ꙇ");
   ("ꙉ", "Ꙉ"); ("ꙋ", "Ꙋ"); ("ꙍ", "Ꙍ"); ("ꙏ", "Ꙏ"); ("ꙑ", "Ꙑ"); ("ꙓ", "Ꙓ");
   ("ꙕ", "Ꙕ"); ("ꙗ", "Ꙗ"); ("ꙙ", "Ꙙ"); ("ꙛ", "Ꙛ"); ("ꙝ", "Ꙝ"); ("ꙟ", "Ꙟ");
   ("ꙡ", "Ꙡ"); ("ꙣ", "Ꙣ"); ("ꙥ", "Ꙥ"); ("ꙧ", "Ꙧ"); ("ꙩ", "Ꙩ"); ("ꙫ", "Ꙫ");
   ("ꙭ", "Ꙭ"); ("ꚁ", "Ꚁ"); ("ꚃ", "Ꚃ"); ("ꚅ", "Ꚅ"); ("ꚇ", "Ꚇ"); ("ꚉ", "Ꚉ");
   ("ꚋ", "Ꚋ"); ("ꚍ", "Ꚍ"); ("ꚏ", "Ꚏ"); ("ꚑ", "Ꚑ"); ("ꚓ", "Ꚓ"); ("ꚕ", "Ꚕ");
   ("ꚗ", "Ꚗ"); ("ꚙ", "Ꚙ"); ("ꚛ", "Ꚛ"); ("ꜣ", "Ꜣ"); ("ꜥ", "Ꜥ"); ("ꜧ", "Ꜧ");
   ("ꜩ", "Ꜩ"); ("ꜫ", "Ꜫ"); ("ꜭ", "Ꜭ"); ("ꜯ", "Ꜯ"); ("ꜳ", "Ꜳ"); ("ꜵ", "Ꜵ");
   ("ꜷ", "Ꜷ"); ("ꜹ", "Ꜹ"); ("ꜻ", "Ꜻ"); ("ꜽ", "Ꜽ"); ("ꜿ", "Ꜿ"); ("ꝁ", "Ꝁ");
   ("ꝃ", "Ꝃ"); ("ꝅ", "Ꝅ"); ("ꝇ", "Ꝇ"); ("ꝉ", "Ꝉ"); ("ꝋ", "Ꝋ"); ("ꝍ", "Ꝍ");
   ("ꝏ", "Ꝏ"); ("ꝑ", "Ꝑ"); ("ꝓ", "Ꝓ"); ("ꝕ", "Ꝕ"); ("ꝗ", "Ꝗ"); ("ꝙ", "Ꝙ");
   ("ꝛ", "Ꝛ"); ("ꝝ", "Ꝝ"); ("ꝟ", "Ꝟ"); ("ꝡ", "Ꝡ"); ("ꝣ", "Ꝣ"); ("ꝥ", "Ꝥ");
   ("ꝧ", "Ꝧ"); ("ꝩ", "Ꝩ"); ("ꝫ", "Ꝫ"); ("ꝭ", "Ꝭ"); ("ꝯ", "Ꝯ"); ("ꝺ", "Ꝺ");
   ("ꝼ", "Ꝼ"); ("ꝿ", "Ꝿ"); ("ꞁ", "Ꞁ"); ("ꞃ", "Ꞃ"); ("ꞅ", "Ꞅ"); ("ꞇ", "Ꞇ");
   ("ꞌ", "Ꞌ"); ("ꞑ", "Ꞑ"); ("ꞓ", "Ꞓ"); ("ꞔ", "Ꞔ"); ("ꞗ", "Ꞗ"); ("ꞙ", "Ꞙ");
   ("ꞛ", "Ꞛ"); ("ꞝ", "Ꞝ"); ("ꞟ", "Ꞟ"); ("ꞡ", "Ꞡ"); ("ꞣ", "Ꞣ"); ("ꞥ", "Ꞥ");
   ("ꞧ", "Ꞧ"); ("ꞩ", "Ꞩ"); ("ꞵ", "Ꞵ"); ("ꞷ", "Ꞷ"); ("ꞹ", "Ꞹ"); ("ꞻ", "Ꞻ");
   ("ꞽ", "Ꞽ"); ("ꞿ", "Ꞿ"); ("ꟁ", "Ꟁ"); ("ꟃ", "Ꟃ"); ("ꟈ", "Ꟈ"); ("ꟊ", "Ꟊ");
   ("ꟑ", "Ꟑ"); ("ꟗ", "Ꟗ"); ("ꟙ", "Ꟙ"); ("ꟶ", "Ꟶ"); ("ꭓ", "Ꭓ"); ("ꭰ", "Ꭰ");
   ("ꭱ", "Ꭱ"); ("ꭲ", "Ꭲ"); ("ꭳ", "Ꭳ"); ("ꭴ", "Ꭴ"); ("ꭵ", "Ꭵ"); ("ꭶ", "Ꭶ");
   ("ꭷ", "Ꭷ"); ("ꭸ", "Ꭸ"); ("ꭹ", "Ꭹ"); ("ꭺ", "Ꭺ"); ("ꭻ", "Ꭻ"); ("ꭼ", "Ꭼ");
   ("ꭽ", "Ꭽ"); ("ꭾ", "Ꭾ"); ("ꭿ", "Ꭿ"); ("ꮀ", "Ꮀ"); ("ꮁ", "Ꮁ"); ("ꮂ", "Ꮂ");
   ("ꮃ", "Ꮃ"); ("ꮄ", "Ꮄ"); ("ꮅ", "Ꮅ"); ("ꮆ", "Ꮆ"); ("ꮇ", "Ꮇ"); ("ꮈ", "Ꮈ");
   ("ꮉ", "Ꮉ"); ("ꮊ", "Ꮊ"); ("ꮋ", "Ꮋ"); ("ꮌ", "Ꮌ"); ("ꮍ", "Ꮍ"); ("ꮎ", "Ꮎ");
   ("ꮏ", "Ꮏ"); ("ꮐ", "Ꮐ"); ("ꮑ", "Ꮑ"); ("ꮒ", "Ꮒ"); ("ꮓ", "Ꮓ"); ("ꮔ", "Ꮔ");
   ("ꮕ", "Ꮕ"); ("ꮖ", "Ꮖ"); ("ꮗ", "Ꮗ"); ("ꮘ", "Ꮘ"); ("ꮙ", "Ꮙ"); ("ꮚ", "Ꮚ");
   ("ꮛ", "Ꮛ"); ("ꮜ", "Ꮜ"); ("ꮝ", "Ꮝ"); ("ꮞ", "Ꮞ"); ("ꮟ", "Ꮟ"); ("ꮠ", "Ꮠ");
   ("ꮡ", "Ꮡ"); ("ꮢ", "Ꮢ"); ("ꮣ", "Ꮣ"); ("ꮤ", "Ꮤ"); ("ꮥ", "Ꮥ"); ("ꮦ", "Ꮦ");
   ("ꮧ", "Ꮧ"); ("ꮨ", "Ꮨ"); ("ꮩ", "Ꮩ"); ("ꮪ", "Ꮪ"); ("ꮫ", "Ꮫ"); ("ꮬ", "Ꮬ");
   ("ꮭ", "Ꮭ"); ("ꮮ", "Ꮮ"); ("ꮯ", "Ꮯ"); ("ꮰ", "Ꮰ"); ("ꮱ", "Ꮱ"); ("ꮲ", "Ꮲ");
   ("ꮳ", "Ꮳ"); ("ꮴ", "Ꮴ"); ("ꮵ", "Ꮵ"); ("ꮶ", "Ꮶ"); ("ꮷ", "Ꮷ"); ("ꮸ", "Ꮸ");
   ("ꮹ", "Ꮹ"); ("ꮺ", "Ꮺ"); ("ꮻ", "Ꮻ"); ("ꮼ", "Ꮼ"); ("ꮽ", "Ꮽ"); ("ꮾ", "Ꮾ");
   ("ꮿ", "Ꮿ"); ("ﬀ", "FF"); ("ﬁ", "FI"); ("ﬂ", "FL"); ("ﬃ", "FFI"); ("ﬄ", "FFL");
   ("ﬅ", "ST"); ("ﬆ", "ST"); ("ﬓ", "ՄՆ"); ("ﬔ", "ՄԵ"); ("ﬕ", "ՄԻ"); ("ﬖ", "ՎՆ");
   ("ﬗ", "ՄԽ"); ("ａ", "Ａ"); ("ｂ", "Ｂ"); ("ｃ", "Ｃ"); ("ｄ", "Ｄ"); ("ｅ", "Ｅ");
   ("ｆ", "Ｆ"); ("ｇ", "Ｇ"); ("ｈ", "Ｈ"); ("ｉ", "Ｉ"); ("ｊ", "Ｊ"); ("ｋ", "Ｋ");
   ("ｌ", "Ｌ"); ("ｍ", "Ｍ"); ("ｎ", "Ｎ"); ("ｏ", "Ｏ"); ("ｐ", "Ｐ"); ("ｑ", "Ｑ");
   ("ｒ", "Ｒ"); ("ｓ", "Ｓ"); ("ｔ", "Ｔ"); ("ｕ", "Ｕ"); ("ｖ", "Ｖ"); ("ｗ", "Ｗ");
   ("ｘ", "Ｘ"); ("ｙ", "Ｙ"); ("ｚ", "Ｚ"); ("𐐨", "𐐀"); ("𐐩", "𐐁"); ("𐐪", "𐐂");
   ("𐐫", "𐐃"); ("𐐬", "𐐄"); ("𐐭", "𐐅"); ("𐐮", "𐐆"); ("𐐯", "𐐇"); ("𐐰", "𐐈");
   ("𐐱", "𐐉"); ("𐐲", "𐐊"); ("𐐳", "𐐋"); ("𐐴", "𐐌"); ("𐐵", "𐐍"); ("𐐶", "𐐎");
   ("𐐷", "𐐏"); ("𐐸", "𐐐"); ("𐐹", "𐐑"); ("𐐺", "𐐒"); ("𐐻", "𐐓"); ("𐐼", "𐐔");
   ("𐐽", "𐐕"); ("𐐾", "𐐖"); ("𐐿", "𐐗"); ("𐑀", "𐐘"); ("𐑁", "𐐙"); ("𐑂", "𐐚");
   ("𐑃", "𐐛"); ("𐑄", "𐐜"); ("𐑅", "𐐝"); ("𐑆", "𐐞"); ("𐑇", "𐐟"); ("𐑈", "𐐠");
   ("𐑉", "𐐡"); ("𐑊", "𐐢"); ("𐑋", "𐐣"); ("𐑌", "𐐤"); ("𐑍", "𐐥"); ("𐑎", "𐐦");
   ("𐑏", "𐐧"); ("𐓘", "𐒰"); ("𐓙", "𐒱"); ("𐓚", "𐒲"); ("𐓛", "𐒳"); ("𐓜", "𐒴");
   ("𐓝", "𐒵"); ("𐓞", "𐒶"); ("𐓟", "𐒷"); ("𐓠", "𐒸"); ("𐓡", "𐒹"); ("𐓢", "𐒺");
   ("𐓣", "𐒻"); ("𐓤", "𐒼"); ("𐓥", "𐒽"); ("𐓦", "𐒾"); ("𐓧", "𐒿"); ("𐓨", "𐓀");
   ("𐓩", "𐓁"); ("𐓪", "𐓂"); ("𐓫", "𐓃"); ("𐓬", "𐓄"); ("𐓭", "𐓅"); ("𐓮", "𐓆");
   ("𐓯", "𐓇"); ("𐓰", "𐓈"); ("𐓱", "𐓉"); ("𐓲", "𐓊"); ("𐓳", "𐓋"); ("𐓴", "𐓌");
   ("𐓵", "𐓍"); ("𐓶", "𐓎"); ("𐓷", "𐓏"); ("𐓸", "𐓐"); ("𐓹", "𐓑"); ("𐓺", "𐓒");
   ("𐓻", "𐓓"); ("𐖗", "𐕰"); ("𐖘", "𐕱"); ("𐖙", "𐕲"); ("𐖚", "𐕳"); ("𐖛", "𐕴");
   ("𐖜", "𐕵"); ("𐖝", "𐕶"); ("𐖞", "𐕷"); ("𐖟", "𐕸"); ("𐖠", "𐕹"); ("𐖡", "𐕺");
   ("𐖣", "𐕼"); ("𐖤", "𐕽"); ("𐖥", "𐕾"); ("𐖦", "𐕿"); ("𐖧", "𐖀"); ("𐖨", "𐖁");
   ("𐖩", "𐖂"); ("𐖪", "𐖃"); ("𐖫", "𐖄"); ("𐖬", "𐖅"); ("𐖭", "𐖆"); ("𐖮", "𐖇");
   ("𐖯", "𐖈"); ("𐖰", "𐖉"); ("𐖱", "𐖊"); ("𐖳", "𐖌"); ("𐖴", "𐖍"); ("𐖵", "𐖎");
   ("𐖶", "𐖏"); ("𐖷", "𐖐"); ("𐖸", "𐖑"); ("𐖹", "𐖒"); ("𐖻", "𐖔"); ("𐖼", "𐖕");
   ("𐳀", "𐲀"); ("𐳁", "𐲁"); ("𐳂", "𐲂"); ("𐳃", "𐲃"); ("𐳄", "𐲄"); ("𐳅", "𐲅");
   ("𐳆", "𐲆"); ("𐳇", "𐲇"); ("𐳈", "𐲈"); ("𐳉", "𐲉"); ("𐳊", "𐲊"); ("𐳋", "𐲋");
   ("𐳌", "𐲌"); ("𐳍", "𐲍"); ("𐳎", "𐲎"); ("𐳏", "𐲏"); ("𐳐", "𐲐"); ("𐳑", "𐲑");
   ("𐳒", "𐲒"); ("𐳓", "𐲓"); ("𐳔", "𐲔"); ("𐳕", "𐲕"); ("𐳖", "𐲖"); ("𐳗", "𐲗");
   ("𐳘", "𐲘"); ("𐳙", "𐲙"); ("𐳚", "𐲚"); ("𐳛", "𐲛"); ("𐳜", "𐲜"); ("𐳝", "𐲝");
   ("𐳞", "𐲞"); ("𐳟", "𐲟"); ("𐳠", "𐲠"); ("𐳡", "𐲡"); ("𐳢", "𐲢"); ("𐳣", "𐲣");
   ("𐳤", "𐲤"); ("𐳥", "𐲥"); ("𐳦", "𐲦"); ("𐳧", "𐲧"); ("𐳨", "𐲨"); ("𐳩", "𐲩");
   ("𐳪", "𐲪"); ("𐳫", "𐲫"); ("𐳬", "𐲬"); ("𐳭", "𐲭"); ("𐳮", "𐲮"); ("𐳯", "𐲯");
   ("𐳰", "𐲰"); ("𐳱", "𐲱"); ("𐳲", "𐲲"); ("𑣀", "𑢠"); ("𑣁", "𑢡"); ("𑣂", "𑢢");
   ("𑣃", "𑢣"); ("𑣄", "𑢤"); ("𑣅", "𑢥"); ("𑣆", "𑢦"); ("𑣇", "𑢧"); ("𑣈", "𑢨");
   ("𑣉", "𑢩"); ("𑣊", "𑢪"); ("𑣋", "𑢫"); ("𑣌", "𑢬"); ("𑣍", "𑢭"); ("𑣎", "𑢮");
   ("𑣏", "𑢯"); ("𑣐", "𑢰"); ("𑣑", "𑢱"); ("𑣒", "𑢲"); ("𑣓", "𑢳"); ("𑣔", "𑢴");
   ("𑣕", "𑢵"); ("𑣖", "𑢶"); ("𑣗", "𑢷"); ("𑣘", "𑢸"); ("𑣙", "𑢹"); ("𑣚", "𑢺");
   ("𑣛", "𑢻"); ("𑣜", "𑢼"); ("𑣝", "𑢽"); ("𑣞", "𑢾"); ("𑣟", "𑢿"); ("𖹠", "𖹀");
   ("𖹡", "𖹁"); ("𖹢", "𖹂"); ("𖹣", "𖹃"); ("𖹤", "𖹄"); ("𖹥", "𖹅"); ("𖹦", "𖹆");
   ("𖹧", "𖹇"); ("𖹨", "𖹈"); ("𖹩", "𖹉"); ("𖹪", "𖹊"); ("𖹫", "𖹋"); ("𖹬", "𖹌");
   ("𖹭", "𖹍"); ("𖹮", "𖹎"); ("𖹯", "𖹏"); ("𖹰", "𖹐"); ("𖹱", "𖹑"); ("𖹲", "𖹒");
   ("𖹳", "𖹓"); ("𖹴", "𖹔"); ("𖹵", "𖹕"); ("𖹶", "𖹖"); ("𖹷", "𖹗"); ("𖹸", "𖹘");
   ("𖹹", "𖹙"); ("𖹺", "𖹚"); ("𖹻", "𖹛"); ("𖹼", "𖹜"); ("𖹽", "𖹝"); ("𖹾", "𖹞");
   ("𖹿", "𖹟"); ("𞤢", "𞤀"); ("𞤣", "𞤁"); ("𞤤", "𞤂"); ("𞤥", "𞤃"); ("𞤦", "𞤄");
   ("𞤧", "𞤅"); ("𞤨", "𞤆"); ("𞤩", "𞤇"); ("𞤪", "𞤈"); ("𞤫", "𞤉"); ("𞤬", "𞤊");
   ("𞤭", "𞤋"); ("𞤮", "𞤌"); ("𞤯", "𞤍"); ("𞤰", "𞤎"); ("𞤱", "𞤏"); ("𞤲", "𞤐");
   ("𞤳", "𞤑"); ("𞤴", "𞤒"); ("𞤵", "𞤓"); ("𞤶", "𞤔"); ("𞤷", "𞤕"); ("𞤸", "𞤖");
   ("𞤹", "𞤗"); ("𞤺", "𞤘"); ("𞤻", "𞤙"); ("𞤼", "𞤚"); ("𞤽", "𞤛"); ("𞤾", "𞤜");
   ("𞤿", "𞤝"); ("𞥀", "𞤞"); ("𞥁", "𞤟"); ("𞥂", "𞤠"); ("𞥃", "𞤡")
  ]%string.

(** [s.upper()]. An ASCII character is mapped by [upper_char]; at any other
    byte the character that starts there is looked up in [upper_table], and
    [skip] counts the bytes of it still to pass over. *)
Fixpoint upper_from (skip : nat) (s : string) : string :=
  match s with
  | EmptyString => EmptyString
  | String a rest =>
      match skip with
      | S k => upper_from k rest
      | O =>
          if (nat_of_ascii a <? 128)%nat then String (upper_char a) (upper_from 0 rest)
          else
            match List.find (fun entry => starts_with (fst entry) s) upper_table with
            | Some (key, becomes) =>
                (becomes ++ upper_from (String.length key - 1) rest)%string
            | None => String a (upper_from 0 rest)
            end
      end
  end.

Definition upper (s : string) : string := upper_from 0 s.

(** Whether the XML library takes a text: it refuses the control characters
    below the space other than tab, line feed and carriage return, and the
    two characters U+FFFE and U+FFFF (the bytes 239 191 190 and
    239 191 191). *)
Definition xml_char (a : ascii) : bool :=
  let n := nat_of_ascii a in
  (32 <=? n)%nat || (n =? 9)%nat || (n =? 10)%nat || (n =? 13)%nat.

Definition refused_sequence (s : string) : bool :=
  starts_with (of_codes [239; 191; 190]%nat) s
  || starts_with (of_codes [239; 191; 191]%nat) s.

Fixpoint xml_compatible (s : string) : bool :=
  match s with
  | EmptyString => true
  | String a rest =>
      (if (nat_of_ascii a <? 128)%nat then xml_char a else negb (refused_sequence s))
      && xml_compatible rest
  end.

(** [s.replace(old, new)] for one-character [old] and [new]. *)
Fixpoint replace_char (old new : ascii) (s : string) : string :=
  match s with
  | EmptyString => EmptyString
  | String a rest =>
      String (if Ascii.eqb a old then new else a) (replace_char old new rest)
  end.

Definition hex_digit (n : nat) : ascii :=
  if (n <? 10)%nat then ascii_of_nat (48 + n) else ascii_of_nat (87 + n).

(** The escape [repr] gives one character inside the quote [q]. *)
Definition repr_char (q c : ascii) : string :=
  let n := nat_of_ascii c in
  if Ascii.eqb c q || Ascii.eqb c backslash then String backslash (String c EmptyString)
  else if Ascii.eqb c tab then String backslash "t"
  else if Ascii.eqb c newline then String backslash "n"
  else if Ascii.eqb c carriage_return then String backslash "r"
  else if (n <? 32)%nat || (n =? 127)%nat then
    String backslash
      (String "x" (String (hex_digit (n / 16)) (String (hex_digit (n mod 16)) EmptyString)))
  else String c EmptyString.

Fixpoint repr_body (q : ascii) (s : string) : string :=
  match s with
  | EmptyString => EmptyString
  | String a rest => (repr_char q a ++ repr_body q rest)%string
  end.

(** [repr(s)]: single quotes, unless [s] has a single quote and no double
    quote. *)
Definition repr_str (s : string) : string :=
  let q := if contains_char single_quote s && negb (contains_char double_quote s)
           then double_quote else single_quote in
  String q (repr_body q s ++ String q EmptyString)%string.

(** [", ".join(items)]. *)
Fixpoint join_comma (items : list string) : string :=
  match items with
  | [] => EmptyString
  | [x] => x
  | x :: rest => (x ++ ", " ++ join_comma rest)%string
  end.

(** [repr] of a list whose items have the given [repr]s. *)
Definition repr_list (items : list string) : string :=
  ("[" ++ join_comma items ++ "]")%string.

End PyText.

(* ===================================================================== *)
(** ** Profile records                                                     *)
(* ===================================================================== *)

(** A field value: scalar text, or the list of rows that [main] collects
    for the education field. *)
Inductive value : Type :=
| VStr (s : string)
| VList (rows : list (list string)).

Definition record : Type := list (string * value).

(** [personal_info.get(key, default)]. *)
Fixpoint get (personal_info : record) (key : string) (default : value) : value :=
  match personal_info with
  | [] => default
  | (k, v) :: rest => if String.eqb k key then v else get rest key default
  end.

(** [str(content)] and [f"{val}"]. *)
Definition py_str (v : value) : string :=
  match v with
  | VStr s => s
  | VList rows =>
      PyText.repr_list (map (fun row => PyText.repr_list (map PyText.repr_str row)) rows)
  end.

(** [content == "NA"]: a list never equals a string. *)
Definition eq_NA (v : value) : bool :=
  match v with
  | VStr s => String.eqb s "NA"
  | VList _ => false
  end.

(** Python truthiness: the empty string and the empty list are falsy. *)
Definition truthy (v : value) : bool :=
  match v with
  | VStr EmptyString => false
  | VStr _ => true
  | VList [] => false
  | VList _ => true
  end.

(** [isinstance(content, list)]. *)
Definition is_list (v : value) : bool :=
  match v with
  | VStr _ => false
  | VList _ => true
  end.

(** [key in keys] for a list of strings. *)
Definition mem_str (key : string) (keys : list string) : bool :=
  existsb (String.eqb key) keys.

(* ===================================================================== *)
(** ** Images, documents and files                                         *)
(* ===================================================================== *)

(** One pixel of the array [cv2.imread] returns: blue, green, red. *)
Record pixel : Type := BGR { blue : Z; green : Z; red : Z }.

(** An image is its rows of pixels, the first row on top. *)
Abbreviation image := (list (list pixel)).

(** [img.shape[0]] and [img.shape[1]]. *)
Definition height (img : image) : Z := Z.of_nat (length img).
Definition width (img : image) : Z := Z.of_nat (length (hd [] img)).

(** What a decoder produces: at least one pixel, all rows equally long. *)
Definition rectangular (img : image) : Prop :=
  Forall (fun row => length row = length (hd [] img)) img.

Definition decoded (img : image) : Prop :=
  0 < height img /\ 0 < width img /\ rectangular img.

(** The pixel at a row and a column, when there is one. *)
Definition pixel_at (img : image) (r c : nat) : option pixel :=
  match img !! r with
  | Some row => row !! c
  | None => None
  end.

Inductive style : Type := Normal | ListBullet.

(** A table cell: its text and whether its run is bold. *)
Record cell : Type := Cell { cell_text : string; cell_bold : bool }.

(** The run of the header's right column. *)
Inductive photo_run : Type :=
| Picture (img : image) (width_in_tenths_of_inch : Z)
| Text (s : string).

(** The blocks [generate_resume] appends to the document. The header is the
    one-row, two-column table: the bold 24pt name run and the contact
    paragraphs on the left, the photo run on the right. *)
Inductive block : Type :=
| Header (name : string) (contacts : list string) (photo : photo_run)
| Paragraph (text : string) (st : style)
| Heading (text : string) (level : nat) (bottom_border : bool)
| Table (rows : list (list cell)).

Definition document : Type := list block.

(** A file: an image [cv2.imread] decodes, a saved document, or anything
    else (which [cv2.imread] answers with [None]). *)
Inductive file : Type :=
| ImageFile (img : image)
| DocxFile (doc : document)
| OtherFile.

Abbreviation filesystem := (gmap string file).

(** The exceptions the program can raise. *)
Inductive exn : Type :=
| Cv2Error          (* cv2.resize on an empty array *)
| PictureError      (* run.add_picture on a path without an image *)
| IndexError        (* edu_row[i] out of range *)
| TypeError         (* add_run on a value that is not text *)
| AttributeError    (* .replace on a value that is not text *)
| ValueError        (* a text the XML library refuses *)
| OSError.          (* doc.save on a file that cannot be created *)

Inductive result (A : Type) : Type :=
| Ok (a : A)
| Err (e : exn).
Arguments Ok {A} a.
Arguments Err {A} e.

(** Code that may raise (no file access). *)
Definition bind_result {A B : Type} (r : result A) (k : A -> result B) : result B :=
  match r with
  | Ok a => k a
  | Err e => Err e
  end.

(** Code that reads and writes files and may raise: the file system is
    threaded through, and a raise keeps the file system of that moment. *)
Definition io (A : Type) : Type := filesystem -> result A * filesystem.

Definition ret {A : Type} (a : A) : io A := fun fs => (Ok a, fs).
Definition raise {A : Type} (e : exn) : io A := fun fs => (Err e, fs).
Definition bind {A B : Type} (m : io A) (k : A -> io B) : io B :=
  fun fs =>
    match m fs with
    | (Ok a, fs') => k a fs'
    | (Err e, fs') => (Err e, fs')
    end.
Definition lift {A : Type} (r : result A) : io A := fun fs => (r, fs).

Declare Scope io_scope.
Delimit Scope io_scope with io.
Notation "'let*' x ':=' m 'in' k" := (bind m (fun x => k))
  (at level 10, x name, m at level 100, k at level 200) : io_scope.
Notation "'run' m 'in' k" := (bind m (fun _ => k))
  (at level 10, m at level 100, k at level 200) : io_scope.

(** [os.path.exists], [os.remove], [cv2.imread], [cv2.imwrite]. *)
Definition path_exists (path : string) : io bool :=
  fun fs => (Ok (bool_decide (is_Some (fs !! path))), fs).

Definition remove (path : string) : io unit :=
  fun fs => (Ok tt, delete path fs).

Definition imread (path : string) : io (option image) :=
  fun fs =>
    match fs !! path with
    | Some (ImageFile img) => (Ok (Some img), fs)
    | _ => (Ok None, fs)
    end.

Definition imwrite (path : string) (img : image) : io unit :=
  fun fs => (Ok tt, <[path := ImageFile img]> fs).

(** A face box [(x, y, w, h)] in pixel coordinates. *)
Definition box : Type := (Z * Z * Z * Z)%type.

(** The black boxes of the program. [interpolate src dw dh r c] is the pixel
    [cv2.resize] computes at row [r], column [c] of the [dw] by [dh] result;
    [can_create path] is whether the operating system lets [doc.save] create
    or replace the file of that name (its directory exists, the name is not
    too long, and so on). *)
Record capabilities : Type := {
  cvtColor_gray : image -> list (list Z);
  detectMultiScale : list (list Z) -> Z * Z -> Z -> list box;
  interpolate : image -> nat -> nat -> nat -> nat -> pixel;
  can_create : string -> bool
}.

(** [doc.save(path)]: the document is written, or the file cannot be opened
    for writing, which raises a subclass of [OSError] ([FileNotFoundError]
    for a missing directory) and leaves the disk as it was. *)
Definition save (caps : capabilities) (path : string) (doc : document) : io unit :=
  fun fs =>
    if can_create caps path then (Ok tt, <[path := DocxFile doc]> fs)
    else (Err OSError, fs).

(* ===================================================================== *)
(** ** Slices                                                              *)
(* ===================================================================== *)

(** The bound of a slice clipped to a sequence of length [len]: negative
    bounds count from the end. *)
Definition slice_bound (len i : Z) : Z :=
  if i <? 0 then Z.max 0 (i + len) else Z.min i len.

(** [l[start:stop]]. *)
Definition py_slice {A : Type} (l : list A) (start stop : Z) : list A :=
  let len := Z.of_nat (length l) in
  let a := slice_bound len start in
  let b := slice_bound len stop in
  take (Z.to_nat (b - a)) (drop (Z.to_nat a) l).

(** [img[y1:y2, x1:x2]]. *)
Definition crop (img : image) (y1 y2 x1 x2 : Z) : image :=
  map (fun row => py_slice row x1 x2) (py_slice img y1 y2).

(** [int(n * 0.5)], [int(n * 0.3)], [int(n * 0.25)], [int(n * 0.75)] for an
    integer [n] of magnitude below 2^31. The products by 0.5, 0.25 and 0.75
    are exact. The double nearest to 0.3 lies below 3/10 by a relative
    3.7e-17, less than half a unit in the last place: a product that is an
    integer in exact arithmetic rounds to that integer, and any other is at
    least a tenth away from the next integer. So each float product
    truncates to the integer quotient; [int] truncates toward zero, as
    [Z.quot] does. *)
Definition int_mul_0_5 (n : Z) : Z := Z.quot n 2.
Definition int_mul_0_3 (n : Z) : Z := Z.quot (3 * n) 10.
Definition int_mul_0_25 (n : Z) : Z := Z.quot n 4.
Definition int_mul_0_75 (n : Z) : Z := Z.quot (3 * n) 4.

(** The 32-bit signed integer a sum wraps around to. *)
Definition wrap32 (z : Z) : Z := (z + 2147483648) mod 4294967296 - 2147483648.

(* ===================================================================== *)
(** ** The photo normaliser                                                *)
(* ===================================================================== *)

Definition target_width : nat := 413.
Definition target_height : nat := 531.

Section Normalizer.

Variable caps : capabilities.

(** [cv2.resize(src, (dw, dh))]: an error on an empty source, else the
    [dh] rows of [dw] interpolated pixels. *)
Definition resize (src : image) (dw dh : nat) : result image :=
  if (height src =? 0) || (width src =? 0) then Err Cv2Error
  else Ok (map (fun r => map (fun c => interpolate caps src dw dh r c) (seq 0 dw))
               (seq 0 dh)).

(** The padded box around a face, clipped to the image: [(y1, y2, x1, x2)].
    The box holds NumPy [int32] scalars, and a sum or difference with one
    of them is an [int32] again, wrapping around when it leaves the range
    (NumPy 2; an older NumPy widens some of these sums, and agrees whenever
    none of them leaves the range). The paddings are Python integers. *)
Definition face_rectangle (img : image) (face : box) : Z * Z * Z * Z :=
  let '(x, y, w, h) := face in
  let pad_top := int_mul_0_5 h in
  let pad_bottom := int_mul_0_5 h in
  let pad_left := int_mul_0_3 w in
  let pad_right := int_mul_0_3 w in
  let y1 := Z.max 0 (wrap32 (y - pad_top)) in
  let y2 := Z.min (height img) (wrap32 (wrap32 (y + h) + pad_bottom)) in
  let x1 := Z.max 0 (wrap32 (x - pad_left)) in
  let x2 := Z.min (width img) (wrap32 (wrap32 (x + w) + pad_right)) in
  (y1, y2, x1, x2).

(** The two branches on [len(faces) > 0]. *)
Definition crop_for (img : image) (faces : list box) : image :=
  match faces with
  | face :: _ =>
      let '(y1, y2, x1, x2) := face_rectangle img face in
      crop img y1 y2 x1 x2
  | [] =>
      let h := height img in
      let w := width img in
      crop img 0 h (int_mul_0_25 w) (int_mul_0_75 w)
  end.

Definition faces_of (img : image) : list box :=
  detectMultiScale caps (cvtColor_gray caps img) (13, 10) 5.

(** The routine itself; what it prints is left out. *)
Definition process_passport_photo (input_path output_path : string) : io bool :=
  (let* found := path_exists input_path in
   if negb found then ret false
   else
     let* img := imread input_path in
     match img with
     | None => ret false
     | Some img =>
         let faces := faces_of img in
         let crop_img := crop_for img faces in
         let* final_img := lift (resize crop_img target_width target_height) in
         run imwrite output_path final_img in
         ret true
     end)%io.

End Normalizer.

(* ===================================================================== *)
(** ** The document assembler                                              *)
(* ===================================================================== *)

Definition contact_keys : list string :=
  ["Email"; "Phone"; "Address"; "LinkedIn"]%string.

Definition ignore_keys : list string :=
  ["Full Name"; "Email"; "Phone"; "Address"; "LinkedIn"; "Photo Path"]%string.

Definition headers : list string :=
  ["Degree/Course"; "Institution"; "Year"; "Grade/CGPA"]%string.

Definition processed_photo : string := "temp_passport_photo.jpg".

Definition no_photo_text : string := "[No Photo]".

(** [doc.add_paragraph()]: the empty paragraph that serves as a spacer. *)
Definition spacer : block := Paragraph "" Normal.

(** What the document library does with a text it is handed, in a run, a
    paragraph, a heading or a cell: it keeps the text, or raises the
    [ValueError] of the XML library. *)
Definition set_text (text : string) : result string :=
  if PyText.xml_compatible text then Ok text else Err ValueError.

(** [name_para.add_run(text)]: text becomes the run; the empty list is falsy
    and leaves the run empty; any other list is refused, its items not being
    characters. *)
Definition add_run (text : value) : result string :=
  match text with
  | VStr s => set_text s
  | VList [] => Ok EmptyString
  | VList (_ :: _) => Err TypeError
  end.

(** [add_paragraph(f"{val}")] and [add_paragraph(str(content))]. The text
    form of a list is a [repr], which escapes every character the XML
    library refuses, so it is always taken. *)
Definition add_paragraph (content : value) : result string :=
  match content with
  | VStr s => set_text s
  | VList _ => Ok (py_str content)
  end.

(** The contact lines of a record: one per contact key whose value is not
    the string "NA". *)
Fixpoint contact_lines (personal_info : record) (keys : list string) : list string :=
  match keys with
  | [] => []
  | key :: rest =>
      let val := get personal_info key (VStr "NA") in
      if negb (eq_NA val) then py_str val :: contact_lines personal_info rest
      else contact_lines personal_info rest
  end.

(** The loop over [contact_keys]: it adds the contact lines one by one, each
    as a paragraph of the header. *)
Fixpoint add_contacts (personal_info : record) (keys : list string)
  : result (list string) :=
  match keys with
  | [] => Ok []
  | key :: rest =>
      let val := get personal_info key (VStr "NA") in
      if negb (eq_NA val) then
        bind_result (add_paragraph val) (fun line =>
        bind_result (add_contacts personal_info rest) (fun lines => Ok (line :: lines)))
      else add_contacts personal_info rest
  end.

(** The guard of the dynamic-section loop: [continue] when it holds. *)
Definition skipped (section : string) (content : value) : bool :=
  mem_str section ignore_keys || eq_NA content || negb (truthy content).

(** The header row of the education table: four bold cells. *)
Definition header_row : list cell := map (fun h_text => Cell h_text true) headers.

(** The blocks of the sections, as the loop lays them out when the document
    library takes every text it is handed: [data_row], [data_rows],
    [render_section] and [dynamic_sections]. The loop itself, with the
    library's refusals, follows as [add_row], [add_rows], [add_section] and
    [add_sections]. *)

(** One data row: the four cells take [edu_row[0]] to [edu_row[3]]. *)
Definition data_row (edu_row : list string) : result (list cell) :=
  match edu_row !! 0%nat, edu_row !! 1%nat, edu_row !! 2%nat, edu_row !! 3%nat with
  | Some c0, Some c1, Some c2, Some c3 =>
      Ok [Cell c0 false; Cell c1 false; Cell c2 false; Cell c3 false]
  | _, _, _, _ => Err IndexError
  end.

(** The loop over [content]: one table row per education row. *)
Fixpoint data_rows (content : list (list string)) : result (list (list cell)) :=
  match content with
  | [] => Ok []
  | edu_row :: rest =>
      bind_result (data_row edu_row) (fun r =>
      bind_result (data_rows rest) (fun rs => Ok (r :: rs)))
  end.

(** [doc.add_paragraph(str(content))] with its style: a bullet paragraph
    when the text has a line break. *)
Definition paragraph_of (content : value) : block :=
  Paragraph (py_str content)
    (if PyText.contains_char PyText.newline (py_str content) then ListBullet else Normal).

(** What one field that is not skipped adds to the document: the heading,
    then the table when [section == "Education" and isinstance(content, list)],
    else the paragraph. *)
Definition render_section (section : string) (content : value) : result (list block) :=
  let heading := Heading (PyText.upper section) 1 true in
  match String.eqb section "Education", content with
  | true, VList rows =>
      bind_result (data_rows rows) (fun rs =>
      Ok [heading; Table (header_row :: rs); spacer])
  | _, _ => Ok [heading; paragraph_of content]
  end.

(** The loop over [personal_info.items()]. *)
Fixpoint dynamic_sections (items : record) : result (list block) :=
  match items with
  | [] => Ok []
  | (section, content) :: rest =>
      if skipped section content then dynamic_sections rest
      else
        bind_result (render_section section content) (fun blocks =>
        bind_result (dynamic_sections rest) (fun more => Ok (blocks ++ more)))
  end.

(** [row_cells[i].text = edu_row[i]]: the index is looked up first, then
    the cell takes the text. *)
Definition set_cell (edu_row : list string) (i : nat) : result cell :=
  match edu_row !! i with
  | None => Err IndexError
  | Some text => bind_result (set_text text) (fun taken => Ok (Cell taken false))
  end.

(** The four assignments of one pass of the loop over [content]. *)
Definition add_row (edu_row : list string) : result (list cell) :=
  bind_result (set_cell edu_row 0) (fun c0 =>
  bind_result (set_cell edu_row 1) (fun c1 =>
  bind_result (set_cell edu_row 2) (fun c2 =>
  bind_result (set_cell edu_row 3) (fun c3 => Ok [c0; c1; c2; c3])))).

Fixpoint add_rows (content : list (list string)) : result (list (list cell)) :=
  match content with
  | [] => Ok []
  | edu_row :: rest =>
      bind_result (add_row edu_row) (fun r =>
      bind_result (add_rows rest) (fun rs => Ok (r :: rs)))
  end.

(** One pass of the loop over the fields, for a field that is not skipped:
    [doc.add_heading(section.upper())], then the table or the paragraph. *)
Definition add_section (section : string) (content : value) : result (list block) :=
  bind_result (set_text (PyText.upper section)) (fun text =>
  let heading := Heading text 1 true in
  match String.eqb section "Education", content with
  | true, VList rows =>
      bind_result (add_rows rows) (fun rs =>
      Ok [heading; Table (header_row :: rs); spacer])
  | _, _ =>
      bind_result (add_paragraph content) (fun _ =>
      Ok [heading; paragraph_of content])
  end).

(** The loop over [personal_info.items()]. *)
Fixpoint add_sections (items : record) : result (list block) :=
  match items with
  | [] => Ok []
  | (section, content) :: rest =>
      if skipped section content then add_sections rest
      else
        bind_result (add_section section content) (fun blocks =>
        bind_result (add_sections rest) (fun more => Ok (blocks ++ more)))
  end.

(** The name of the saved document. *)
Definition output_filename (personal_info : record) : result string :=
  match get personal_info "Full Name" (VStr "Resume") with
  | VStr s => Ok (PyText.replace_char " " "_" s ++ "_Resume.docx")%string
  | VList _ => Err AttributeError
  end.

Section Assembler.

Variable caps : capabilities.

(** [run.add_picture(path, width=Inches(1.2))]: the picture of the image
    file at the path; an error when the path holds no image. *)
Definition add_picture (path : string) : io photo_run :=
  fun fs =>
    match fs !! path with
    | Some (ImageFile img) => ret (Picture img 12) fs
    | _ => raise PictureError fs
    end.

(** The photo cell: the branch on
    [photo_path and process_passport_photo(photo_path, processed_photo)]. *)
Definition photo_cell (photo_path : option string) : io photo_run :=
  (let* produced :=
     match photo_path with
     | None => ret false
     | Some EmptyString => ret false
     | Some path => process_passport_photo caps path processed_photo
     end in
   if produced then
     let* picture := add_picture processed_photo in
     let* still_there := path_exists processed_photo in
     run (if still_there then remove processed_photo else ret tt) in
     ret picture
   else ret (Text no_photo_text))%io.

(** The assembler. The Python function returns nothing; the model returns
    the document it saved, so that the properties can speak of its blocks. *)
Definition generate_resume (personal_info : record) (photo_path : option string)
  : io document :=
  (let* name := lift (add_run (get personal_info "Full Name" (VStr ""))) in
   let* contacts := lift (add_contacts personal_info contact_keys) in
   let* photo := photo_cell photo_path in
   let* sections := lift (add_sections personal_info) in
   let doc := Header name contacts photo :: spacer :: sections in
   let* output := lift (output_filename personal_info) in
   run save caps output doc in
   ret doc)%io.

End Assembler.

(* ===================================================================== *)
(** ** Vocabulary of the specification                                     *)
(* ===================================================================== *)

(** The presence test: not empty and not the "NA" marker. *)
Definition present (v : value) : bool := truthy v && negb (eq_NA v).

(** The fields of the dynamic part: outside the header set and present. *)
Definition rendered (field : string * value) : bool :=
  negb (mem_str (fst field) ignore_keys) && present (snd field).




(** The texts of the section headings of a document, in order. *)
Fixpoint headings (doc : list block) : list string :=
  match doc with
  | [] => []
  | Heading text _ _ :: rest => text :: headings rest
  | _ :: rest => headings rest
  end.

(** Rows that [data_row] can index: at least four cells. *)
Definition rows_wide (rows : list (list string)) : bool :=
  forallb (fun row => (4 <=? length row)%nat) rows.

(** Rows of exactly four cells. *)
Definition rows_of_four (rows : list (list string)) : bool :=
  forallb (fun row => (length row =? 4)%nat) rows.

Definition is_text (v : value) : bool := negb (is_list v).

Definition education_wide (field : string * value) : bool :=
  match field with
  | (section, VList rows) => negb (String.eqb section "Education") || rows_wide rows
  | (_, VStr _) => true
  end.

(** A record the assembler accepts: the name is text, and an education
    list has rows of at least four cells. *)
Definition well_formed (personal_info : record) : bool :=
  is_text (get personal_info "Full Name" (VStr "")) && forallb education_wide personal_info.

(** A value whose text form the document library takes. *)
Definition value_ok (v : value) : bool :=
  match v with
  | VStr s => PyText.xml_compatible s
  | VList _ => true
  end.

(** Rows whose first four cells the library takes. *)
Definition rows_ok (rows : list (list string)) : bool :=
  forallb (fun row => forallb PyText.xml_compatible (take 4 row)) rows.

(** A field whose heading and whose cells or paragraph the library takes. *)
Definition field_ok (field : string * value) : bool :=
  PyText.xml_compatible (PyText.upper (fst field))
  && match String.eqb (fst field) "Education", snd field with
     | true, VList rows => rows_ok rows
     | _, content => value_ok content
     end.

(** The texts of the header: the name and the contact values. *)
Definition header_ok (personal_info : record) : bool :=
  value_ok (get personal_info "Full Name" (VStr ""))
  && forallb (fun key => value_ok (get personal_info key (VStr "NA"))) contact_keys.

(** The texts of the sections: those of the rendered fields. *)
Definition sections_ok (personal_info : record) : bool :=
  forallb field_ok (List.filter rendered personal_info).

(** A record all of whose texts the document library takes: it holds none
    of the characters XML refuses where the assembler writes text. *)
Definition texts_ok (personal_info : record) : bool :=
  header_ok personal_info && sections_ok personal_info.

(** A decoded image, as a test. *)
Definition decodedb (img : image) : bool :=
  (0 <? height img) && (0 <? width img)
  && forallb (fun row => (length row =? length (hd [] img))%nat) img.

(** A face box that meets the image: the detector's boxes may lie partly
    outside it. *)
Definition meets (img : image) (face : box) : bool :=
  let '(x, y, w, h) := face in
  (0 <? w) && (0 <? h) && (x <? width img) && (0 <? x + w)
  && (y <? height img) && (0 <? y + h).

(** The range of a 32-bit signed integer. *)
Definition int32 (z : Z) : bool := (-2147483648 <=? z) && (z <=? 2147483647).

(** A face box whose padded sums and differences all stay in that range. *)
Definition sums_fit (face : box) : bool :=
  let '(x, y, w, h) := face in
  int32 (y - int_mul_0_5 h) && int32 (y + h) && int32 (y + h + int_mul_0_5 h)
  && int32 (x - int_mul_0_3 w) && int32 (x + w) && int32 (x + w + int_mul_0_3 w).

(** Whether a path holds a file that decodes to an image. *)
Definition holds_image (fs : gmap string file) (path : string) : bool :=
  match fs !! path with
  | Some (ImageFile _) => true
  | _ => false
  end.

(** The last character of a text. *)
Fixpoint last_char (s : string) : option ascii :=
  match s with
  | EmptyString => None
  | String a EmptyString => Some a
  | String _ rest => last_char rest
  end.

(** A data cell: text that is not bold. *)
Definition plain (text : string) : cell := Cell text false.

(* ===================================================================== *)
(** ** Stand-ins for the black boxes, for the examples                     *)
(* ===================================================================== *)

(** Nearest-neighbour sampling. *)
Definition nearest (src : image) (dw dh r c : nat) : pixel :=
  let sr := (r * length src / dh)%nat in
  let sc := (c * length (hd [] src) / dw)%nat in
  default (BGR 0 0 0) (pixel_at src sr sc).

Definition luminance (p : pixel) : Z :=
  (299 * red p + 587 * green p + 114 * blue p) / 1000.

(** A detector that answers [faces] whatever the image, on a disk that lets
    every file be created, or none. *)
Definition stub (faces : list box) (disk_writable : bool) : capabilities :=
  {| cvtColor_gray := map (map luminance);
     detectMultiScale := fun _ _ _ => faces;
     interpolate := nearest;
     can_create := fun _ => disk_writable |}.

Definition grey (n : Z) : pixel := BGR n n n.

(** A 1 by 1, a 2 by 2 and a 4 by 4 image. *)
Definition one_pixel : image := [[grey 7]].

Definition two_by_two : image := [[grey 1; grey 2]; [grey 3; grey 4]].

Definition four_by_four : image :=
  [[grey 0; grey 1; grey 2; grey 3];
   [grey 10; grey 11; grey 12; grey 13];
   [grey 20; grey 21; grey 22; grey 23];
   [grey 30; grey 31; grey 32; grey 33]].

(** The record of the specification's end-to-end scenario. *)
Definition jane : record :=
  [("Full Name", VStr "Jane Doe");
   ("Email", VStr "jane@x.com");
   ("Education", VList [["B.Tech"; "State U"; "2020"; "8.5"]]);
   ("Skills", VStr (String.append "Python" (String PyText.newline "Go")))]%string.

(** Two one-field records. *)
Definition name_only : record := [("Full Name", VStr "Jane Doe")]%string.
Definition skills_only : record := [("Skills", VStr "Go")]%string.

(** A file system whose only file is an image. *)
Definition disk_with (path : string) (img : image) : gmap string file :=
  {[ path := ImageFile img ]}.

(* ===================================================================== *)
(** ** The border under a heading                                          *)
(* ===================================================================== *)

(** An element of the document's XML: its tag, attributes and children.
    Names are kept in their prefixed form ("w:val"), which [qn] expands to
    the namespace. *)
#[local] Unset Elimination Schemes.
Inductive xml : Type :=
| Element (tag : string) (attributes : list (string * string)) (children : list xml).
#[local] Set Elimination Schemes.

Definition xml_tag (e : xml) : string := let '(Element tag _ _) := e in tag.
Definition xml_attributes (e : xml) : list (string * string) :=
  let '(Element _ attributes _) := e in attributes.
Definition xml_children (e : xml) : list xml :=
  let '(Element _ _ children) := e in children.

(** [OxmlElement(tag)]: a new element without attributes or children. *)
Definition OxmlElement (tag : string) : xml := Element tag [] [].

(** [e.set(name, value)]: an attribute set again keeps its place. *)
Fixpoint attribute_set (attributes : list (string * string)) (name value : string)
  : list (string * string) :=
  match attributes with
  | [] => [(name, value)]
  | (n, old) :: rest =>
      if String.eqb n name then (n, value) :: rest
      else (n, old) :: attribute_set rest name value
  end.

Definition xml_set (e : xml) (name value : string) : xml :=
  let '(Element tag attributes children) := e in
  Element tag (attribute_set attributes name value) children.

(** [e.append(child)]. *)
Definition xml_append (e child : xml) : xml :=
  let '(Element tag attributes children) := e in
  Element tag attributes (children ++ [child]).

Definition is_pPr (e : xml) : bool := String.eqb (xml_tag e) "w:pPr".
Definition is_pBdr (e : xml) : bool := String.eqb (xml_tag e) "w:pBdr".

(** [p.get_or_add_pPr()]: the paragraph keeps its properties element, or
    gets an empty one as its first child. *)
Definition get_or_add_pPr (children : list xml) : list xml :=
  if existsb is_pPr children then children else OxmlElement "w:pPr" :: children.

(** [pPr.append(child)] on the properties element of the paragraph, the
    first of that tag. *)
Fixpoint append_to_pPr (children : list xml) (child : xml) : list xml :=
  match children with
  | [] => []
  | c :: rest =>
      if is_pPr c then xml_append c child :: rest
      else c :: append_to_pPr rest child
  end.

(** The [w:bottom] element with its four attributes. *)
Definition bottom_border : xml :=
  let bottom := OxmlElement "w:bottom" in
  let bottom := xml_set bottom "w:val" "single" in
  let bottom := xml_set bottom "w:sz" "6" in
  let bottom := xml_set bottom "w:space" "1" in
  let bottom := xml_set bottom "w:color" "auto" in
  bottom.

(** [add_bottom_border] on the element [paragraph._p]. *)
Definition add_bottom_border (p : xml) : xml :=
  let '(Element tag attributes children) := p in
  let with_pPr := get_or_add_pPr children in
  let pBdr := OxmlElement "w:pBdr" in
  let pBdr := xml_append pBdr bottom_border in
  Element tag attributes (append_to_pPr with_pPr pBdr).

(** The number of border elements in the properties of a paragraph. *)
Definition count_borders (p : xml) : nat :=
  list_sum
    (map (fun c => if is_pPr c then length (List.filter is_pBdr (xml_children c)) else 0%nat)
       (xml_children p)).

(** The children of a paragraph other than its properties. *)
Definition content_of (p : xml) : list xml :=
  List.filter (fun c => negb (is_pPr c)) (xml_children p).

(** The properties of a paragraph: the children of its first [w:pPr]. *)
Fixpoint properties_in (children : list xml) : list xml :=
  match children with
  | [] => []
  | c :: rest => if is_pPr c then xml_children c else properties_in rest
  end.

Definition properties_of (p : xml) : list xml := properties_in (xml_children p).

(* ===================================================================== *)
(** ** The console front end                                               *)
(* ===================================================================== *)

(** The characters [str.strip] removes, each by the bytes of its encoding:
    tab to carriage return, the four separators 28 to 31 and the space;
    then U+0085 and U+00A0; U+1680; U+2000 to U+200A, U+2028, U+2029,
    U+202F and U+205F; and U+3000. *)
Definition whitespace : list string :=
  map PyText.of_codes
    [[9]; [10]; [11]; [12]; [13]; [28]; [29]; [30]; [31]; [32];
     [194; 133]; [194; 160];
     [225; 154; 128];
     [226; 128; 128]; [226; 128; 129]; [226; 128; 130]; [226; 128; 131];
     [226; 128; 132]; [226; 128; 133]; [226; 128; 134]; [226; 128; 135];
     [226; 128; 136]; [226; 128; 137]; [226; 128; 138];
     [226; 128; 168]; [226; 128; 169]; [226; 128; 175];
     [226; 129; 159];
     [227; 128; 128]]%nat.

(** Whether a text starts with one of the given characters. *)
Definition starts_with_any (marks : list string) (s : string) : bool :=
  existsb (fun mark => PyText.starts_with mark s) marks.

(** The text without the characters of [marks] it starts with; [skip]
    counts the bytes still to pass over of a character being removed. *)
Fixpoint drop_leading (marks : list string) (skip : nat) (s : string) : string :=
  match s with
  | EmptyString => EmptyString
  | String a rest =>
      match skip with
      | S k => drop_leading marks k rest
      | O =>
          match List.find (fun mark => PyText.starts_with mark s) marks with
          | Some mark => drop_leading marks (String.length mark - 1) rest
          | None => s
          end
      end
  end.

(** [s.lstrip()], and [s.rstrip()], which works from the end: the text and
    the characters are turned around. *)
Definition lstrip (s : string) : string := drop_leading whitespace 0 s.

Definition rstrip (s : string) : string :=
  PyText.reverse (drop_leading (map PyText.reverse whitespace) 0 (PyText.reverse s)).

(** [s.strip()]. *)
Definition strip (s : string) : string := rstrip (lstrip s).

(** [str.lower] on ASCII letters. Beyond ASCII [str.lower] changes other
    letters too, but none into the letters n or a (the only ones it turns
    into ASCII letters are U+0130, into an i, and U+212A, into a k), so the
    comparison of [photo_path_of] with "na" is the same. *)
Definition lower_char (c : ascii) : ascii :=
  let n := nat_of_ascii c in
  if (65 <=? n)%nat && (n <=? 90)%nat then ascii_of_nat (n + 32) else c.

Fixpoint lower (s : string) : string :=
  match s with
  | EmptyString => EmptyString
  | String a rest => String (lower_char a) (lower rest)
  end.

(** [not s] for a string. *)
Definition is_empty (s : string) : bool :=
  match s with
  | EmptyString => true
  | String _ _ => false
  end.

(** [data[key] = v]: an existing key keeps its place, a new one goes last. *)
Fixpoint dict_set (data : record) (key : string) (v : value) : record :=
  match data with
  | [] => [(key, v)]
  | (k, old) :: rest =>
      if String.eqb k key then (k, v) :: rest else (k, old) :: dict_set rest key v
  end.

(** Code that reads the console: the lines still to be typed are threaded
    through, and [None] is the [EOFError] of [input] at the end of input.
    What is printed is left out. *)
Definition console (A : Type) : Type := list string -> option (A * list string).

Definition console_ret {A : Type} (a : A) : console A := fun stdin => Some (a, stdin).

Definition console_bind {A B : Type} (m : console A) (k : A -> console B) : console B :=
  fun stdin =>
    match m stdin with
    | Some (a, rest) => k a rest
    | None => None
    end.

Declare Scope console_scope.
Delimit Scope console_scope with console.
Notation "'ask' x ':=' m 'in' k" := (console_bind m (fun x => k))
  (at level 10, x name, m at level 100, k at level 200) : console_scope.

(** [input(prompt)]: the next line, without its line end. *)
Definition input : console string :=
  fun stdin =>
    match stdin with
    | [] => None
    | line :: rest => Some (line, rest)
    end.

Definition standard_fields : list string :=
  ["Full Name"; "Email"; "Phone"; "Address"; "LinkedIn"; "Objective"]%string.

Definition text_fields : list string := ["Experience"; "Skills"; "Projects"]%string.

(** [user_input if user_input else "NA"]. *)
Definition or_NA (user_input : string) : value :=
  if is_empty user_input then VStr "NA" else VStr user_input.

(** The loops over [standard_fields] and over [text_fields]. *)
Fixpoint ask_fields (fields : list string) (data : record) : console record :=
  match fields with
  | [] => console_ret data
  | field :: rest =>
      (ask line := input in
       let user_input := strip line in
       ask_fields rest (dict_set data field (or_NA user_input)))%console
  end.

(** The [while True] loop of the education details: a blank degree ends it,
    any other degree is followed by three more answers. *)
Fixpoint ask_education (education_list : list (list string)) (stdin : list string)
  : option (list (list string) * list string) :=
  match stdin with
  | [] => None
  | line :: rest =>
      let degree := strip line in
      if is_empty degree then Some (education_list, rest)
      else
        match rest with
        | school :: year :: grade :: rest' =>
            ask_education
              (education_list ++ [[degree; strip school; strip year; strip grade]])
              rest'
        | _ => None
        end
  end.

(** [education_list if education_list else "NA"]. *)
Definition education_or_NA (education_list : list (list string)) : value :=
  match education_list with
  | [] => VStr "NA"
  | _ :: _ => VList education_list
  end.

(** [photo_input if photo_input.lower() != "na" else None]. *)
Definition photo_path_of (photo_input : string) : option string :=
  if String.eqb (lower photo_input) "na" then None else Some photo_input.

(** The questions of [main]: the record and the photo path it hands to
    [generate_resume]. *)
Definition collect : console (record * option string) :=
  (ask data := ask_fields standard_fields [] in
   ask education_list := ask_education [] in
   let data := dict_set data "Education" (education_or_NA education_list) in
   ask data := ask_fields text_fields data in
   ask line := input in
   let photo_input := strip line in
   let photo_path := photo_path_of photo_input in
   console_ret (data, photo_path))%console.

(** How [main] ends: with the [EOFError] of an [input], or with whatever
    [generate_resume] did. *)
Inductive main_outcome : Type :=
| EOFError
| Returned (r : result document).

Definition main (caps : capabilities) (stdin : list string) : filesystem -> main_outcome * filesystem :=
  fun fs =>
    match collect stdin with
    | None => (EOFError, fs)
    | Some ((data, photo_path), _) =>
        let '(r, fs') := generate_resume caps data photo_path fs in
        (Returned r, fs')
    end.

(** The keys of a record, in order. *)
Definition keys (data : record) : list string := map fst data.

(** The keys [main] fills, in the order it fills them. *)
Definition main_keys : list string :=
  ["Full Name"; "Email"; "Phone"; "Address"; "LinkedIn"; "Objective";
   "Education"; "Experience"; "Skills"; "Projects"]%string.

(** One round of the education questions: the four lines typed, and the
    row they become. *)
Definition round_lines (round : string * string * string * string) : list string :=
  let '(degree, school, year, grade) := round in [degree; school; year; grade].

Definition round_row (round : string * string * string * string) : list string :=
  let '(degree, school, year, grade) := round in
  [strip degree; strip school; strip year; strip grade].

Definition round_degree (round : string * string * string * string) : string :=
  let '(degree, _, _, _) := round in degree.

(** The field an answer fills: the line without the spaces around it, or
    "NA" when nothing is left. *)
Definition answered (field_line : string * string) : string * value :=
  (fst field_line, or_NA (strip (snd field_line))).

(** The lines of a whole console session, and the record they become. *)
Definition session (standard : list string)
    (rounds : list (string * string * string * string)) (blank : string)
    (texts : list string) (photo_line : string) : list string :=
  standard ++ concat (map round_lines rounds) ++ blank :: texts ++ [photo_line].

Definition session_record (standard : list string)
    (rounds : list (string * string * string * string)) (texts : list string) : record :=
  map answered (combine standard_fields standard)
  ++ ("Education"%string, education_or_NA (map round_row rounds))
  :: map answered (combine text_fields texts).

(** An answer left blank: nothing is left of it without the white space
    around it. *)
Definition blank (line : string) : bool := is_empty (strip line).

(** Keys that are pairwise different, as those of a [dict] are. *)
Fixpoint distinct (names : list string) : bool :=
  match names with
  | [] => true
  | name :: rest => negb (mem_str name rest) && distinct rest
  end.

(** A value that is neither empty nor missing, or else the "NA" marker. *)
Definition filled_or_NA (v : value) : bool := present v || eq_NA v.

(** A text that neither starts nor ends with a white-space character. *)
Definition trimmed (s : string) : bool :=
  negb (starts_with_any whitespace s)
  && negb (starts_with_any (map PyText.reverse whitespace) (PyText.reverse s)).

(** A field whose texts have no white space at either end. *)
Definition field_trimmed (field : string * value) : bool :=
  match snd field with
  | VStr s => trimmed s
  | VList rows => forallb (forallb trimmed) rows
  end.

(* ===================================================================== *)
(** * Properties                                                           *)
(* ===================================================================== *)

(** ** Slices and crops *)

Lemma lookup_map {A B : Type} (f : A -> B) (l : list A) (i : nat) :
  map f l !! i = f <$> (l !! i).
Proof. exact (list_lookup_fmap f l i). Qed.

Section SliceFacts.

Context {A : Type}.
Implicit Types l : list A.

Lemma slice_bound_inside (len i : Z) : 0 <= i <= len -> slice_bound len i = i.
Proof.
  intros Hi. unfold slice_bound.
  destruct (Z.ltb_spec i 0); lia.
Qed.

Lemma py_slice_inside l (a b : Z) :
  0 <= a <= b -> b <= Z.of_nat (length l) ->
  py_slice l a b = take (Z.to_nat (b - a)) (drop (Z.to_nat a) l).
Proof.
  intros Hab Hb. unfold py_slice.
  rewrite !slice_bound_inside by lia. reflexivity.
Qed.

Lemma py_slice_length l (a b : Z) :
  0 <= a <= b -> b <= Z.of_nat (length l) ->
  length (py_slice l a b) = Z.to_nat (b - a).
Proof.
  intros Hab Hb. rewrite py_slice_inside by assumption.
  rewrite length_take, length_drop. lia.
Qed.

Lemma py_slice_lookup l (a b : Z) (i : nat) :
  0 <= a <= b -> b <= Z.of_nat (length l) ->
  (i < Z.to_nat (b - a))%nat ->
  py_slice l a b !! i = l !! (Z.to_nat a + i)%nat.
Proof.
  intros Hab Hb Hi. rewrite py_slice_inside by assumption.
  rewrite lookup_take_lt by assumption. apply lookup_drop.
Qed.

Lemma py_slice_same l (a : Z) : py_slice l a a = [].
Proof. unfold py_slice. now rewrite Z.sub_diag. Qed.

Lemma py_slice_Forall (P : A -> Prop) l (a b : Z) :
  Forall P l -> Forall P (py_slice l a b).
Proof.
  intros Hl. unfold py_slice. apply Forall_take, Forall_drop, Hl.
Qed.

End SliceFacts.

Lemma rectangular_rows (img : image) :
  rectangular img -> Forall (fun row => Z.of_nat (length row) = width img) img.
Proof.
  unfold rectangular, width. intros Hrows.
  eapply Forall_impl; [exact Hrows|]. intros row Hrow. cbn beta in *. now rewrite Hrow.
Qed.

Lemma decodedb_decoded (img : image) : decodedb img = true -> decoded img.
Proof.
  unfold decodedb, decoded. rewrite !andb_true_iff, !Z.ltb_lt, forallb_forall.
  intros [[Hh Hw] Hrows]. repeat split; try assumption.
  apply List.Forall_forall. intros row Hin. apply Nat.eqb_eq. auto.
Qed.

Section CropFacts.

Variables (img : image) (y1 y2 x1 x2 : Z).
Hypothesis Hrect : rectangular img.
Hypothesis Hy : 0 <= y1 <= y2 /\ y2 <= height img.
Hypothesis Hx : 0 <= x1 <= x2 /\ x2 <= width img.

Lemma crop_height : height (crop img y1 y2 x1 x2) = y2 - y1.
Proof.
  unfold height, crop in *. rewrite length_map, py_slice_length; lia.
Qed.

Lemma crop_rows :
  Forall (fun row => Z.of_nat (length row) = x2 - x1) (crop img y1 y2 x1 x2).
Proof.
  unfold crop. apply List.Forall_map.
  apply py_slice_Forall.
  eapply Forall_impl; [apply rectangular_rows, Hrect|].
  intros row Hrow. cbn beta in *. rewrite py_slice_length; lia.
Qed.

Lemma crop_width : y1 < y2 -> width (crop img y1 y2 x1 x2) = x2 - x1.
Proof.
  intros Hlt. pose proof crop_rows as Hrows. pose proof crop_height as Hh.
  unfold width, height in *.
  destruct (crop img y1 y2 x1 x2) as [|row rest]; cbn in *; [lia|].
  now inversion Hrows.
Qed.

Lemma crop_rectangular : rectangular (crop img y1 y2 x1 x2).
Proof.
  pose proof crop_rows as Hrows. unfold rectangular.
  destruct (crop img y1 y2 x1 x2) as [|row rest]; [constructor|].
  cbn [hd]. inversion Hrows as [|? ? Hrow Hrest]; subst.
  constructor; [reflexivity|].
  eapply Forall_impl; [exact Hrest|]. intros r Hr. cbn beta in *. lia.
Qed.

Lemma crop_pixel (r c : nat) :
  Z.of_nat r < y2 - y1 -> Z.of_nat c < x2 - x1 ->
  pixel_at (crop img y1 y2 x1 x2) r c
  = pixel_at img (Z.to_nat y1 + r) (Z.to_nat x1 + c).
Proof.
  intros Hr Hc. unfold pixel_at, crop, height in *.
  rewrite lookup_map, py_slice_lookup by lia.
  destruct (img !! (Z.to_nat y1 + r)%nat) as [row|] eqn:Hrow; cbn; [|reflexivity].
  assert (Z.of_nat (length row) = width img) as Hlen.
  { pose proof (rectangular_rows img Hrect) as Hall.
    rewrite List.Forall_forall in Hall. apply Hall.
    apply list_elem_of_In. eapply list_elem_of_lookup_2, Hrow. }
  apply py_slice_lookup; lia.
Qed.

End CropFacts.

(** ** The photo normaliser: what a run does *)

Section NormalizerFacts.

Variable caps : capabilities.

Lemma resize_ok (src : image) (dw dh : nat) :
  0 < height src -> 0 < width src ->
  exists final_img,
    resize caps src dw dh = Ok final_img
    /\ length final_img = dh
    /\ Forall (fun row => length row = dw) final_img.
Proof.
  intros Hh Hw. unfold resize.
  destruct (Z.eqb_spec (height src) 0); [lia|].
  destruct (Z.eqb_spec (width src) 0); [lia|]. cbn [orb].
  eexists. split; [reflexivity|]. split.
  - now rewrite length_map, length_seq.
  - apply List.Forall_map, List.Forall_forall. intros r _.
    now rewrite length_map, length_seq.
Qed.

Lemma resize_empty (src : image) (dw dh : nat) :
  width src = 0 -> resize caps src dw dh = Err Cv2Error.
Proof.
  intros Hw. unfold resize. rewrite Hw. now rewrite orb_true_r.
Qed.

(** On a path that holds an image the run is the resize of the crop. *)
Lemma process_on_image (input_path output_path : string)
    (fs : gmap string file) (img : image) :
  fs !! input_path = Some (ImageFile img) ->
  process_passport_photo caps input_path output_path fs
  = match resize caps (crop_for img (faces_of caps img)) target_width target_height with
    | Ok final_img => (Ok true, <[output_path := ImageFile final_img]> fs)
    | Err e => (Err e, fs)
    end.
Proof.
  intros Hfile.
  unfold process_passport_photo, bind, path_exists, imread, lift, imwrite, ret.
  rewrite Hfile. rewrite bool_decide_eq_true_2 by (eexists; reflexivity).
  cbn [negb]. rewrite Hfile.
  now destruct (resize caps _ _ _).
Qed.

(** On a path that holds no image the run answers [False] and writes
    nothing. *)
Lemma process_unreadable (input_path output_path : string) (fs : gmap string file) :
  (forall img, fs !! input_path <> Some (ImageFile img)) ->
  process_passport_photo caps input_path output_path fs = (Ok false, fs).
Proof.
  intros Hno.
  unfold process_passport_photo, bind, path_exists, imread, ret.
  destruct (fs !! input_path) as [f|] eqn:Hfile.
  - rewrite bool_decide_eq_true_2 by (eexists; reflexivity).
    cbn [negb]. rewrite Hfile.
    destruct f; try reflexivity. now destruct (Hno img).
  - rewrite bool_decide_eq_false_2 by (intros [? ?]; discriminate).
    reflexivity.
Qed.

(** The fallback crop of an image one pixel wide has no column. *)
Lemma fallback_crop_of_width_one (img : image) :
  width img = 1 -> width (crop_for img []) = 0.
Proof.
  intros Hw. unfold crop_for, crop. rewrite Hw.
  unfold width at 1.
  destruct (py_slice img 0 (height img)) as [|row rest]; [reflexivity|].
  cbn [map hd].
  change (int_mul_0_25 1) with 0. change (int_mul_0_75 1) with 0.
  now rewrite py_slice_same.
Qed.

Lemma width_one_raises (input_path output_path : string)
    (fs : gmap string file) (img : image) :
  fs !! input_path = Some (ImageFile img) ->
  faces_of caps img = [] ->
  width img = 1 ->
  process_passport_photo caps input_path output_path fs = (Err Cv2Error, fs).
Proof.
  intros Hfile Hfaces Hw.
  rewrite (process_on_image _ _ _ _ Hfile), Hfaces.
  now rewrite resize_empty by (apply fallback_crop_of_width_one, Hw).
Qed.

(** The band the fallback keeps. *)
Lemma fallback_band_bounds (w : Z) :
  0 <= w ->
  int_mul_0_25 w = w / 4 /\ int_mul_0_75 w = 3 * w / 4
  /\ 0 <= w / 4 <= 3 * w / 4 /\ 3 * w / 4 <= w.
Proof.
  intros Hw. unfold int_mul_0_25, int_mul_0_75.
  rewrite !Z.quot_div_nonneg by lia.
  repeat split; try reflexivity.
  - apply Z.div_pos; lia.
  - apply Z.div_le_mono; lia.
  - apply Z.div_le_upper_bound; lia.
Qed.

(** A sum that stays in the 32-bit range is not changed by the wrap. *)
Lemma wrap32_fits (z : Z) : int32 z = true -> wrap32 z = z.
Proof.
  unfold int32, wrap32. rewrite andb_true_iff, !Z.leb_le. intros [Hlow Hhigh].
  rewrite Z.mod_small by lia. lia.
Qed.

(** The result of a wrap is in the 32-bit range. *)
Lemma wrap32_range (z : Z) : -2147483648 <= wrap32 z <= 2147483647.
Proof.
  unfold wrap32.
  pose proof (Z.mod_pos_bound (z + 2147483648) 4294967296 ltac:(lia)). lia.
Qed.

(** The padded rectangle around a face that meets the image, when no sum
    leaves the 32-bit range. *)
Lemma face_rectangle_bounds (img : image) (x y w h : Z) :
  decoded img ->
  meets img (x, y, w, h) = true ->
  sums_fit (x, y, w, h) = true ->
  let y1 := Z.max 0 (y - h / 2) in
  let y2 := Z.min (height img) (y + h + h / 2) in
  let x1 := Z.max 0 (x - 3 * w / 10) in
  let x2 := Z.min (width img) (x + w + 3 * w / 10) in
  face_rectangle img (x, y, w, h) = (y1, y2, x1, x2)
  /\ (0 <= y1 < y2 /\ y2 <= height img)
  /\ (0 <= x1 < x2 /\ x2 <= width img).
Proof.
  intros (Hheight & Hwidth & _).
  unfold meets. rewrite !andb_true_iff, !Z.ltb_lt.
  intros [[[[[Hw Hh] Hx] Hxw] Hy] Hyh].
  unfold sums_fit. rewrite !andb_true_iff.
  intros [[[[[Hf1 Hf2] Hf3] Hf4] Hf5] Hf6]. cbv zeta.
  assert (0 <= h / 2) by (apply Z.div_pos; lia).
  assert (0 <= 3 * w / 10) by (apply Z.div_pos; lia).
  split; [|lia].
  unfold face_rectangle.
  rewrite (wrap32_fits _ Hf2), (wrap32_fits _ Hf5).
  rewrite (wrap32_fits _ Hf1), (wrap32_fits _ Hf3), (wrap32_fits _ Hf4), (wrap32_fits _ Hf6).
  unfold int_mul_0_5, int_mul_0_3.
  rewrite !Z.quot_div_nonneg by lia. reflexivity.
Qed.

(** From two pixels of width on, the fallback crop is never empty and the
    run succeeds. *)
Lemma fallback_succeeds (input_path output_path : string)
    (fs : gmap string file) (img : image) :
  fs !! input_path = Some (ImageFile img) ->
  decoded img ->
  faces_of caps img = [] ->
  2 <= width img ->
  exists final_img,
    process_passport_photo caps input_path output_path fs
    = (Ok true, <[output_path := ImageFile final_img]> fs).
Proof.
  intros Hfile (Hh & Hw & Hrows) Hfaces Hwide.
  destruct (fallback_band_bounds (width img)) as (Hleft & Hright & Hband & Hmax); [lia|].
  assert (width img / 4 < 3 * width img / 4) as Hlt
    by (clear -Hwide; Z.to_euclidean_division_equations; lia).
  destruct (resize_ok (crop_for img []) target_width target_height)
    as (final_img & Hresize & _).
  { cbn [crop_for]. rewrite Hleft, Hright, crop_height; [lia|lia]. }
  { cbn [crop_for]. rewrite Hleft, Hright, crop_width; [lia|assumption|lia..]. }
  exists final_img.
  now rewrite (process_on_image _ _ _ _ Hfile), Hfaces, Hresize.
Qed.

End NormalizerFacts.

(** ** The photo normaliser: the claims *)

(** C3 (the code departs from the claim). The claim: once the image is read,
    normalisation never raises, widths of one pixel included. The code: on a
    decoded image one pixel wide in which no face is detected, the fallback
    band runs from column [int(0.25)] = 0 to column [int(0.75)] = 0, the crop
    is empty, and [cv2.resize] raises; nothing is written. *)
Theorem C3_one_pixel_wide_image_raises :
  let fs := disk_with "me.jpg" one_pixel in
  decodedb one_pixel = true
  /\ faces_of (stub [] true) one_pixel = []
  /\ crop_for one_pixel [] = [[]]
  /\ process_passport_photo (stub [] true) "me.jpg" processed_photo fs
     = (Err Cv2Error, fs).
Proof.
  cbv zeta. do 3 (split; [reflexivity|]).
  apply (width_one_raises _ _ _ _ one_pixel);
    [apply lookup_singleton_eq | reflexivity | reflexivity].
Qed.

(** The pixels of a resized image are those the interpolation computes. *)
Lemma resize_pixel (caps : capabilities) (src final_img : image) (dw dh r c : nat) :
  resize caps src dw dh = Ok final_img ->
  (r < dh)%nat -> (c < dw)%nat ->
  pixel_at final_img r c = Some (interpolate caps src dw dh r c).
Proof.
  unfold resize. destruct ((height src =? 0) || (width src =? 0)); [discriminate|].
  intros [= <-] Hr Hc. unfold pixel_at.
  rewrite lookup_map, (lookup_seq_lt _ _ _ Hr). cbn [fmap option_fmap option_map].
  rewrite lookup_map, (lookup_seq_lt _ _ _ Hc). reflexivity.
Qed.

(** The shape of an image of 531 rows of 413 pixels. *)
Lemma target_shape (final_img : image) :
  length final_img = target_height ->
  Forall (fun row => length row = target_width) final_img ->
  height final_img = 531 /\ width final_img = 413 /\ rectangular final_img.
Proof.
  intros Hlen Hcols. split; [unfold height; now rewrite Hlen|].
  destruct final_img as [|row rest]; [discriminate Hlen|].
  inversion Hcols as [|? ? Hrow Hrest]; subst.
  split; [unfold width; cbn [hd]; now rewrite Hrow|].
  unfold rectangular. cbn [hd]. constructor; [reflexivity|].
  eapply Forall_impl; [exact Hrest|]. intros r Hr. cbn beta in *. congruence.
Qed.

(** C6. When the detector answers at least one box (one that meets the
    image, with sums that stay in the 32-bit range of its coordinates), the
    rectangle padded by half the box height above and below and by three
    tenths of the box width left and right is clipped to the image:
    [0 <= y1 < y2 <= height] and [0 <= x1 < x2 <= width]; the crop is that
    rectangle of the image; and what the run writes to the output path is
    the resize of that crop: 531 rows of 413 pixels, each the pixel the
    interpolation computes from the crop. *)
Theorem C6_face_crop_clamped_output_sized
    (caps : capabilities) (img : image) (x y w h : Z) (others : list box)
    (input_path output_path : string) (fs : gmap string file) :
  decodedb img = true ->
  fs !! input_path = Some (ImageFile img) ->
  faces_of caps img = (x, y, w, h) :: others ->
  meets img (x, y, w, h) = true ->
  sums_fit (x, y, w, h) = true ->
  let y1 := Z.max 0 (y - h / 2) in
  let y2 := Z.min (height img) (y + h + h / 2) in
  let x1 := Z.max 0 (x - 3 * w / 10) in
  let x2 := Z.min (width img) (x + w + 3 * w / 10) in
  let crop_img := crop_for img (faces_of caps img) in
  face_rectangle img (x, y, w, h) = (y1, y2, x1, x2)
  /\ (0 <= y1 < y2 /\ y2 <= height img)
  /\ (0 <= x1 < x2 /\ x2 <= width img)
  /\ crop_img = crop img y1 y2 x1 x2
  /\ height crop_img = y2 - y1
  /\ width crop_img = x2 - x1
  /\ (forall r c : nat,
        Z.of_nat r < y2 - y1 -> Z.of_nat c < x2 - x1 ->
        pixel_at crop_img r c = pixel_at img (Z.to_nat y1 + r) (Z.to_nat x1 + c))
  /\ exists final_img,
       resize caps crop_img target_width target_height = Ok final_img
       /\ process_passport_photo caps input_path output_path fs
          = (Ok true, <[output_path := ImageFile final_img]> fs)
       /\ (forall r c : nat,
             (r < 531)%nat -> (c < 413)%nat ->
             pixel_at final_img r c = Some (interpolate caps crop_img 413 531 r c))
       /\ height final_img = 531
       /\ width final_img = 413
       /\ rectangular final_img.
Proof.
  intros Hdec Hfile Hfaces Hmeets Hfit.
  apply decodedb_decoded in Hdec.
  destruct (face_rectangle_bounds img x y w h Hdec Hmeets Hfit) as (Hrect & Hy & Hx).
  cbv zeta in *. destruct Hdec as (_ & _ & Hrows).
  rewrite Hfaces. cbn [crop_for]. rewrite Hrect.
  split; [reflexivity|]. split; [exact Hy|]. split; [exact Hx|].
  split; [reflexivity|].
  split; [apply crop_height; lia|].
  split; [apply crop_width; [assumption|lia..]|].
  split; [intros r c Hr Hc; apply crop_pixel; [assumption|lia..]|].
  destruct (resize_ok caps
              (crop img (Z.max 0 (y - h / 2)) (Z.min (height img) (y + h + h / 2))
                 (Z.max 0 (x - 3 * w / 10)) (Z.min (width img) (x + w + 3 * w / 10)))
              target_width target_height) as (final_img & Hresize & Hlen & Hcols).
  { rewrite crop_height; [lia|lia]. }
  { rewrite crop_width; [lia|assumption|lia..]. }
  exists final_img. split; [exact Hresize|].
  rewrite (process_on_image caps _ _ _ _ Hfile), Hfaces. cbn [crop_for].
  rewrite Hrect, Hresize. split; [reflexivity|].
  split; [intros r c Hr Hc; exact (resize_pixel _ _ _ _ _ _ _ Hresize Hr Hc)|].
  exact (target_shape _ Hlen Hcols).
Qed.

Lemma C6_face_crop_clamped_output_sized_witness :
  let img := four_by_four in
  let caps := stub [(1, 1, 2, 2)] true in
  let fs := disk_with "me.jpg" img in
  let y1 := Z.max 0 (1 - 2 / 2) in
  let y2 := Z.min (height img) (1 + 2 + 2 / 2) in
  let x1 := Z.max 0 (1 - 3 * 2 / 10) in
  let x2 := Z.min (width img) (1 + 2 + 3 * 2 / 10) in
  let crop_img := crop_for img (faces_of caps img) in
  face_rectangle img (1, 1, 2, 2) = (y1, y2, x1, x2)
  /\ (0 <= y1 < y2 /\ y2 <= height img)
  /\ (0 <= x1 < x2 /\ x2 <= width img)
  /\ crop_img = crop img y1 y2 x1 x2
  /\ height crop_img = y2 - y1
  /\ width crop_img = x2 - x1
  /\ (forall r c : nat,
        Z.of_nat r < y2 - y1 -> Z.of_nat c < x2 - x1 ->
        pixel_at crop_img r c = pixel_at img (Z.to_nat y1 + r) (Z.to_nat x1 + c))
  /\ exists final_img,
       resize caps crop_img target_width target_height = Ok final_img
       /\ process_passport_photo caps "me.jpg" processed_photo fs
          = (Ok true, <[processed_photo := ImageFile final_img]> fs)
       /\ (forall r c : nat,
             (r < 531)%nat -> (c < 413)%nat ->
             pixel_at final_img r c = Some (interpolate caps crop_img 413 531 r c))
       /\ height final_img = 531
       /\ width final_img = 413
       /\ rectangular final_img.
Proof.
  exact (C6_face_crop_clamped_output_sized
           (stub [(1, 1, 2, 2)] true) four_by_four 1 1 2 2 [] "me.jpg" processed_photo
           (disk_with "me.jpg" four_by_four)
           eq_refl (lookup_singleton_eq _ _) eq_refl eq_refl eq_refl).
Defined.

(** C7. When the detector answers no box, the crop keeps every row of the
    image and, of each row, the columns from a quarter of the width up to
    (not including) three quarters of it; that crop is what the run resizes. *)
Theorem C7_fallback_selects_middle_band (caps : capabilities) (img : image) :
  decodedb img = true ->
  faces_of caps img = [] ->
  let band := crop_for img (faces_of caps img) in
  let left := width img / 4 in
  let right := 3 * width img / 4 in
  height band = height img
  /\ Forall (fun row => Z.of_nat (length row) = right - left) band
  /\ (forall r c : nat,
        Z.of_nat r < height img -> Z.of_nat c < right - left ->
        pixel_at band r c = pixel_at img r (Z.to_nat left + c))
  /\ (forall (input_path output_path : string) (fs : gmap string file),
        fs !! input_path = Some (ImageFile img) ->
        process_passport_photo caps input_path output_path fs
        = match resize caps band target_width target_height with
          | Ok final_img => (Ok true, <[output_path := ImageFile final_img]> fs)
          | Err e => (Err e, fs)
          end).
Proof.
  intros Hdec Hfaces. apply decodedb_decoded in Hdec.
  destruct Hdec as (Hh & Hw & Hrows).
  destruct (fallback_band_bounds (width img)) as (Hleft & Hright & Hband & Hmax); [lia|].
  cbv zeta. rewrite Hfaces. cbn [crop_for]. rewrite Hleft, Hright.
  split; [rewrite crop_height; lia|].
  split; [apply crop_rows; [assumption|lia]|].
  split.
  - intros r c Hr Hc.
    rewrite crop_pixel by (assumption || lia). reflexivity.
  - intros input_path output_path fs Hfile.
    rewrite (process_on_image caps _ _ _ _ Hfile), Hfaces. cbn [crop_for].
    now rewrite Hleft, Hright.
Qed.

Lemma C7_fallback_selects_middle_band_witness :
  let img := four_by_four in
  let caps := stub [] true in
  let band := crop_for img (faces_of caps img) in
  let left := width img / 4 in
  let right := 3 * width img / 4 in
  height band = height img
  /\ Forall (fun row => Z.of_nat (length row) = right - left) band
  /\ (forall r c : nat,
        Z.of_nat r < height img -> Z.of_nat c < right - left ->
        pixel_at band r c = pixel_at img r (Z.to_nat left + c))
  /\ (forall (input_path output_path : string) (fs : gmap string file),
        fs !! input_path = Some (ImageFile img) ->
        process_passport_photo caps input_path output_path fs
        = match resize caps band target_width target_height with
          | Ok final_img => (Ok true, <[output_path := ImageFile final_img]> fs)
          | Err e => (Err e, fs)
          end).
Proof.
  exact (C7_fallback_selects_middle_band (stub [] true) four_by_four eq_refl eq_refl).
Defined.

(** ** The document assembler: the layout of the sections *)

Lemma skipped_rendered (section : string) (content : value) :
  skipped section content = negb (rendered (section, content)).
Proof.
  unfold skipped, rendered, present. cbn [fst snd].
  now destruct (mem_str section ignore_keys), (eq_NA content), (truthy content).
Qed.

Lemma headings_app (a b : list block) : headings (a ++ b) = headings a ++ headings b.
Proof.
  induction a as [|blk a IH]; [reflexivity|].
  destruct blk; cbn; now rewrite ?IH.
Qed.


Lemma data_row_wide (edu_row : list string) :
  (4 <= length edu_row)%nat -> data_row edu_row = Ok (map plain (take 4 edu_row)).
Proof.
  destruct edu_row as [|c0 [|c1 [|c2 [|c3 rest]]]]; cbn; try lia.
  reflexivity.
Qed.

Lemma data_row_short (edu_row : list string) :
  (length edu_row < 4)%nat -> data_row edu_row = Err IndexError.
Proof.
  destruct edu_row as [|c0 [|c1 [|c2 [|c3 rest]]]]; cbn; try reflexivity. lia.
Qed.

Lemma data_rows_wide (rows : list (list string)) :
  rows_wide rows = true ->
  data_rows rows = Ok (map (fun row => map plain (take 4 row)) rows).
Proof.
  induction rows as [|row rows IH]; [reflexivity|].
  cbn [rows_wide forallb]. rewrite andb_true_iff, Nat.leb_le. intros [Hrow Hrows].
  cbn [data_rows map]. rewrite (data_row_wide _ Hrow). cbn [bind_result].
  unfold rows_wide in IH. now rewrite (IH Hrows).
Qed.

Lemma data_rows_short (rows : list (list string)) :
  rows_wide rows = false -> data_rows rows = Err IndexError.
Proof.
  induction rows as [|row rows IH]; [discriminate|].
  cbn [rows_wide forallb data_rows].
  destruct (Nat.leb_spec 4 (length row)) as [Hwide|Hshort].
  - cbn [andb]. intros Hrest. rewrite (data_row_wide _ Hwide). cbn [bind_result].
    unfold rows_wide in IH. now rewrite (IH Hrest).
  - intros _. now rewrite (data_row_short _ Hshort).
Qed.

Lemma rows_of_four_wide (rows : list (list string)) :
  rows_of_four rows = true -> rows_wide rows = true.
Proof.
  unfold rows_of_four, rows_wide. rewrite !forallb_forall.
  intros Hfour row Hin. specialize (Hfour row Hin).
  apply Nat.eqb_eq in Hfour. apply Nat.leb_le. lia.
Qed.


(** Every field that is rendered brings exactly one heading, its name in
    upper case. *)
Lemma render_section_headings (section : string) (content : value) (blocks : list block) :
  render_section section content = Ok blocks ->
  headings blocks = [PyText.upper section].
Proof.
  unfold render_section.
  destruct (String.eqb section "Education"), content as [s|rows];
    try (intros [= <-]; reflexivity).
  destruct (data_rows rows); cbn [bind_result]; [|discriminate].
  intros [= <-]. reflexivity.
Qed.

Lemma render_section_total (section : string) (content : value) :
  education_wide (section, content) = true ->
  exists blocks, render_section section content = Ok blocks.
Proof.
  unfold render_section, education_wide.
  destruct content as [s|rows], (String.eqb section "Education");
    cbn [negb orb]; intros Hwide; eauto.
  rewrite (data_rows_wide _ Hwide). cbn [bind_result]. eauto.
Qed.

(** A field that is not an education list with a short row never fails;
    one that is fails with [IndexError]. *)
Lemma render_section_short (section : string) (content : value) :
  education_wide (section, content) = false ->
  render_section section content = Err IndexError.
Proof.
  unfold render_section, education_wide.
  destruct content as [s|rows]; [discriminate|].
  destruct (String.eqb section "Education"); cbn [negb orb]; [|discriminate].
  intros Hshort. now rewrite (data_rows_short _ Hshort).
Qed.

(** The loop is compositional: the blocks of a record are the blocks of its
    fields, in order. *)
Lemma dynamic_sections_app (before after : record) :
  dynamic_sections (before ++ after)
  = bind_result (dynamic_sections before) (fun blocks =>
    bind_result (dynamic_sections after) (fun more => Ok (blocks ++ more))).
Proof.
  induction before as [|[section content] before IH].
  - cbn. now destruct (dynamic_sections after).
  - cbn [app dynamic_sections].
    destruct (skipped section content); [exact IH|].
    destruct (render_section section content) as [blocks|e]; cbn [bind_result]; [|reflexivity].
    rewrite IH.
    destruct (dynamic_sections before) as [b1|e]; cbn [bind_result]; [|reflexivity].
    destruct (dynamic_sections after) as [b2|e]; cbn [bind_result]; [|reflexivity].
    now rewrite app_assoc.
Qed.

Lemma dynamic_sections_headings (items : record) (blocks : list block) :
  dynamic_sections items = Ok blocks ->
  headings blocks
  = map (fun field => PyText.upper (fst field)) (List.filter rendered items).
Proof.
  revert blocks. induction items as [|[section content] items IH]; intros blocks.
  - intros [= <-]. reflexivity.
  - cbn [dynamic_sections List.filter]. rewrite skipped_rendered.
    destruct (rendered (section, content)); cbn [negb]; [|exact (IH blocks)].
    destruct (render_section section content) as [first|e] eqn:Hfirst;
      cbn [bind_result]; [|discriminate].
    destruct (dynamic_sections items) as [more|e]; cbn [bind_result]; [|discriminate].
    intros [= <-].
    rewrite headings_app, (render_section_headings _ _ _ Hfirst), (IH more eq_refl).
    reflexivity.
Qed.

Lemma dynamic_sections_total (items : record) :
  forallb education_wide items = true ->
  exists blocks, dynamic_sections items = Ok blocks.
Proof.
  induction items as [|[section content] items IH]; intros Hwide.
  - exists []. reflexivity.
  - cbn [forallb] in Hwide. apply andb_true_iff in Hwide as [Hfield Hrest].
    destruct (IH Hrest) as (more & Hmore).
    cbn [dynamic_sections]. destruct (skipped section content); [eauto|].
    destruct (render_section_total _ _ Hfield) as (first & Hfirst).
    rewrite Hfirst, Hmore. cbn [bind_result]. eauto.
Qed.

Lemma dynamic_sections_short (items : record) :
  forallb education_wide items = false -> dynamic_sections items = Err IndexError.
Proof.
  induction items as [|[section content] items IH]; [discriminate|].
  cbn [forallb dynamic_sections].
  destruct (education_wide (section, content)) eqn:Hfield; cbn [andb].
  - intros Hrest. rewrite (IH Hrest).
    destruct (skipped section content); [reflexivity|].
    destruct (render_section_total _ _ Hfield) as (blocks & ->). reflexivity.
  - intros _. rewrite (render_section_short _ _ Hfield).
    unfold education_wide in Hfield.
    destruct content as [s|rows]; [discriminate|].
    destruct (String.eqb_spec section "Education") as [->|]; [|discriminate].
    cbn [negb orb] in Hfield.
    assert (skipped "Education" (VList rows) = false) as ->
      by (destruct rows; [discriminate Hfield|reflexivity]).
    reflexivity.
Qed.

Lemma nothing_rendered_no_sections (items : record) :
  List.filter rendered items = [] -> dynamic_sections items = Ok [].
Proof.
  induction items as [|[section content] items IH]; [reflexivity|].
  cbn [List.filter dynamic_sections]. rewrite skipped_rendered.
  destruct (rendered (section, content)); [discriminate|exact IH].
Qed.

Lemma get_text_any_default (personal_info : record) (key d1 d2 : string) :
  is_text (get personal_info key (VStr d1)) = true ->
  is_text (get personal_info key (VStr d2)) = true.
Proof.
  induction personal_info as [|[k v] rest IH]; [reflexivity|].
  cbn [get]. now destruct (String.eqb k key).
Qed.

(** ** The document assembler: the texts the library refuses *)

(** A step that hands the library the text form of a value raises exactly
    when the value is a text the library refuses. *)
Lemma add_paragraph_cases (content : value) :
  add_paragraph content
  = if value_ok content then Ok (py_str content) else Err ValueError.
Proof. destruct content as [s|rows]; reflexivity. Qed.

Lemma NA_value_ok (v : value) : eq_NA v = true -> value_ok v = true.
Proof.
  destruct v as [s|rows]; [|discriminate]. cbn [eq_NA value_ok].
  intros Heq. apply String.eqb_eq in Heq. now subst.
Qed.

(** The contact loop adds the contact lines, or raises [ValueError] at the
    first contact value the library refuses. *)
Lemma add_contacts_cases (personal_info : record) (keys : list string) :
  add_contacts personal_info keys
  = if forallb (fun key => value_ok (get personal_info key (VStr "NA"))) keys
    then Ok (contact_lines personal_info keys)
    else Err ValueError.
Proof.
  induction keys as [|key keys IH]; [reflexivity|].
  cbn [add_contacts contact_lines forallb].
  destruct (eq_NA (get personal_info key (VStr "NA"))) eqn:HNA; cbn [negb].
  - now rewrite (NA_value_ok _ HNA).
  - rewrite add_paragraph_cases, IH.
    destruct (value_ok (get personal_info key (VStr "NA"))); cbn [bind_result andb];
      [|reflexivity].
    now destruct (forallb _ keys).
Qed.

(** One row of the table: the library's refusal of one of the cells that
    are there comes before the missing cell. *)
Lemma add_row_cases (edu_row : list string) :
  add_row edu_row
  = if forallb PyText.xml_compatible (take 4 edu_row) then data_row edu_row
    else Err ValueError.
Proof.
  unfold add_row, set_cell, set_text, data_row.
  destruct edu_row as [|c0 [|c1 [|c2 [|c3 rest]]]]; cbn;
    repeat match goal with
           | |- context [PyText.xml_compatible ?c] =>
               destruct (PyText.xml_compatible c); cbn
           end; reflexivity.
Qed.

Lemma data_row_raises (edu_row : list string) (e : exn) :
  data_row edu_row = Err e -> e = IndexError.
Proof.
  unfold data_row.
  destruct (edu_row !! 0%nat), (edu_row !! 1%nat), (edu_row !! 2%nat), (edu_row !! 3%nat);
    try discriminate; now intros [= <-].
Qed.

Lemma add_rows_ok (rows : list (list string)) :
  rows_ok rows = true -> add_rows rows = data_rows rows.
Proof.
  induction rows as [|row rows IH]; [reflexivity|].
  unfold rows_ok. cbn [forallb]. rewrite andb_true_iff. intros [Hrow Hrows].
  cbn [add_rows data_rows]. rewrite add_row_cases, Hrow.
  unfold rows_ok in IH. now rewrite (IH Hrows).
Qed.

Lemma add_rows_inv (rows : list (list string)) (rs : list (list cell)) :
  add_rows rows = Ok rs -> data_rows rows = Ok rs /\ rows_ok rows = true.
Proof.
  revert rs. induction rows as [|row rows IH]; intros rs.
  - intros [= <-]. split; reflexivity.
  - unfold rows_ok. cbn [add_rows data_rows forallb]. rewrite add_row_cases.
    destruct (forallb PyText.xml_compatible (take 4 row)); [|discriminate].
    destruct (data_row row) as [r|e]; cbn [bind_result]; [|discriminate].
    destruct (add_rows rows) as [rs'|e]; cbn [bind_result]; [|discriminate].
    intros [= <-]. destruct (IH rs' eq_refl) as [-> Hok].
    split; [reflexivity|exact Hok].
Qed.

Lemma add_rows_raises (rows : list (list string)) (e : exn) :
  add_rows rows = Err e -> e = IndexError \/ e = ValueError.
Proof.
  induction rows as [|row rows IH]; [discriminate|].
  cbn [add_rows]. rewrite add_row_cases.
  destruct (forallb PyText.xml_compatible (take 4 row)).
  - destruct (data_row row) as [r|e'] eqn:Hrow; cbn [bind_result].
    + destruct (add_rows rows) as [rs|e']; cbn [bind_result]; [discriminate|].
      intros [= <-]. now apply IH.
    + intros [= <-]. left. exact (data_row_raises _ _ Hrow).
  - intros [= <-]. now right.
Qed.

Lemma add_rows_wide (rows : list (list string)) :
  rows_wide rows = true ->
  add_rows rows = if rows_ok rows then data_rows rows else Err ValueError.
Proof.
  induction rows as [|row rows IH]; [reflexivity|].
  unfold rows_ok. cbn [rows_wide forallb].
  rewrite andb_true_iff, Nat.leb_le. intros [Hrow Hrows].
  cbn [add_rows data_rows]. rewrite add_row_cases, (data_row_wide _ Hrow).
  destruct (forallb PyText.xml_compatible (take 4 row)); cbn [bind_result andb];
    [|reflexivity].
  unfold rows_wide, rows_ok in IH. rewrite (IH Hrows).
  destruct (forallb (fun r => forallb PyText.xml_compatible (take 4 r)) rows);
    reflexivity.
Qed.

(** One field: with texts the library takes, the loop lays out the blocks
    of [render_section]. *)
Lemma add_section_ok (section : string) (content : value) :
  field_ok (section, content) = true ->
  add_section section content = render_section section content.
Proof.
  unfold field_ok, add_section, render_section, set_text. cbn [fst snd].
  rewrite andb_true_iff. intros [-> Hcontent]. cbn [bind_result].
  destruct (String.eqb section "Education"), content as [s|rows];
    try (rewrite add_paragraph_cases, Hcontent; reflexivity).
  now rewrite (add_rows_ok _ Hcontent).
Qed.

Lemma add_section_inv (section : string) (content : value) (blocks : list block) :
  add_section section content = Ok blocks ->
  render_section section content = Ok blocks /\ field_ok (section, content) = true.
Proof.
  unfold field_ok, add_section, render_section, set_text. cbn [fst snd].
  destruct (PyText.xml_compatible (PyText.upper section)); cbn [bind_result andb];
    [|discriminate].
  destruct (String.eqb section "Education"), content as [s|rows];
    try (rewrite add_paragraph_cases;
         destruct (value_ok _); cbn [bind_result]; [|discriminate];
         intros [= <-]; split; reflexivity).
  destruct (add_rows rows) as [rs|e] eqn:Hrows; cbn [bind_result]; [|discriminate].
  intros [= <-]. destruct (add_rows_inv _ _ Hrows) as [-> Hok].
  split; [reflexivity|exact Hok].
Qed.

Lemma add_section_raises (section : string) (content : value) (e : exn) :
  add_section section content = Err e -> e = IndexError \/ e = ValueError.
Proof.
  unfold add_section, set_text.
  destruct (PyText.xml_compatible (PyText.upper section)); cbn [bind_result];
    [|intros [= <-]; now right].
  destruct (String.eqb section "Education"), content as [s|rows];
    try (rewrite add_paragraph_cases;
         destruct (value_ok _); cbn [bind_result]; [discriminate|];
         intros [= <-]; now right).
  destruct (add_rows rows) as [rs|e'] eqn:Hrows; cbn [bind_result]; [discriminate|].
  intros [= <-]. exact (add_rows_raises _ _ Hrows).
Qed.

Lemma add_section_wide (section : string) (content : value) :
  education_wide (section, content) = true ->
  add_section section content
  = if field_ok (section, content) then render_section section content
    else Err ValueError.
Proof.
  unfold field_ok, add_section, render_section, education_wide, set_text.
  cbn [fst snd].
  destruct (PyText.xml_compatible (PyText.upper section)); cbn [bind_result andb];
    [|reflexivity].
  destruct (String.eqb section "Education"), content as [s|rows]; cbn [negb orb];
    intros Hwide; rewrite ?add_paragraph_cases;
    try (destruct (value_ok _); reflexivity).
  rewrite (add_rows_wide _ Hwide). now destruct (rows_ok rows).
Qed.

(** The loop over the fields. *)
Lemma add_sections_ok (items : record) :
  sections_ok items = true -> add_sections items = dynamic_sections items.
Proof.
  unfold sections_ok.
  induction items as [|[section content] items IH]; [reflexivity|].
  cbn [List.filter add_sections dynamic_sections]. rewrite skipped_rendered.
  destruct (rendered (section, content)); cbn [negb forallb]; [|exact IH].
  rewrite andb_true_iff. intros [Hfield Hrest].
  now rewrite (add_section_ok _ _ Hfield), (IH Hrest).
Qed.

Lemma add_sections_inv (items : record) (blocks : list block) :
  add_sections items = Ok blocks ->
  dynamic_sections items = Ok blocks /\ sections_ok items = true.
Proof.
  unfold sections_ok. revert blocks.
  induction items as [|[section content] items IH]; intros blocks.
  - intros [= <-]. split; reflexivity.
  - cbn [List.filter add_sections dynamic_sections]. rewrite skipped_rendered.
    destruct (rendered (section, content)); cbn [negb forallb]; [|exact (IH blocks)].
    destruct (add_section section content) as [first|e] eqn:Hfirst;
      cbn [bind_result]; [|discriminate].
    destruct (add_sections items) as [more|e]; cbn [bind_result]; [|discriminate].
    intros [= <-]. apply add_section_inv in Hfirst as [-> ->].
    destruct (IH more eq_refl) as [-> ->]. split; reflexivity.
Qed.

Lemma add_sections_raises (items : record) (e : exn) :
  add_sections items = Err e -> e = IndexError \/ e = ValueError.
Proof.
  induction items as [|[section content] items IH]; [discriminate|].
  cbn [add_sections]. destruct (skipped section content); [exact IH|].
  destruct (add_section section content) as [first|e'] eqn:Hfirst; cbn [bind_result].
  - destruct (add_sections items) as [more|e']; cbn [bind_result]; [discriminate|].
    intros [= <-]. now apply IH.
  - intros [= <-]. exact (add_section_raises _ _ _ Hfirst).
Qed.

Lemma add_sections_wide (items : record) :
  forallb education_wide items = true ->
  add_sections items
  = if sections_ok items then dynamic_sections items else Err ValueError.
Proof.
  unfold sections_ok.
  induction items as [|[section content] items IH]; [reflexivity|].
  cbn [forallb List.filter add_sections dynamic_sections].
  rewrite andb_true_iff, skipped_rendered. intros [Hfield Hrest].
  destruct (rendered (section, content)); cbn [negb forallb]; [|exact (IH Hrest)].
  rewrite (add_section_wide _ _ Hfield), (IH Hrest).
  destruct (field_ok (section, content)); cbn [bind_result andb]; [|reflexivity].
  destruct (render_section_total _ _ Hfield) as (first & ->). cbn [bind_result].
  now destruct (forallb field_ok (List.filter rendered items)).
Qed.

Lemma add_sections_app (before after : record) :
  add_sections (before ++ after)
  = bind_result (add_sections before) (fun blocks =>
    bind_result (add_sections after) (fun more => Ok (blocks ++ more))).
Proof.
  induction before as [|[section content] before IH].
  - cbn. now destruct (add_sections after).
  - cbn [app add_sections].
    destruct (skipped section content); [exact IH|].
    destruct (add_section section content) as [blocks|e]; cbn [bind_result]; [|reflexivity].
    rewrite IH.
    destruct (add_sections before) as [b1|e]; cbn [bind_result]; [|reflexivity].
    destruct (add_sections after) as [b2|e]; cbn [bind_result]; [|reflexivity].
    now rewrite app_assoc.
Qed.

(** A field of another name does not change what [get] answers. *)
Lemma get_without (before after : record) (section key : string)
    (content default : value) :
  String.eqb section key = false ->
  get (before ++ (section, content) :: after) key default
  = get (before ++ after) key default.
Proof.
  intros Hother. induction before as [|[k v] before IH].
  - cbn [app get]. now rewrite Hother.
  - cbn [app get]. now rewrite IH.
Qed.

Lemma contact_lines_agree (r1 r2 : record) (keys : list string) :
  (forall key, In key keys -> get r1 key (VStr "NA") = get r2 key (VStr "NA")) ->
  contact_lines r1 keys = contact_lines r2 keys.
Proof.
  induction keys as [|key keys IH]; intros Hsame; [reflexivity|].
  cbn [contact_lines]. rewrite (Hsame key) by (left; reflexivity).
  rewrite IH by (intros k Hk; apply Hsame; right; exact Hk).
  reflexivity.
Qed.

Lemma add_contacts_agree (r1 r2 : record) (keys : list string) :
  (forall key, In key keys -> get r1 key (VStr "NA") = get r2 key (VStr "NA")) ->
  add_contacts r1 keys = add_contacts r2 keys.
Proof.
  induction keys as [|key keys IH]; intros Hsame; [reflexivity|].
  cbn [add_contacts]. rewrite (Hsame key) by (left; reflexivity).
  rewrite IH by (intros k Hk; apply Hsame; right; exact Hk).
  reflexivity.
Qed.

Lemma not_ignored_differs (section key : string) :
  mem_str section ignore_keys = false -> In key ignore_keys ->
  String.eqb section key = false.
Proof.
  unfold mem_str. intros Hmem Hin.
  destruct (String.eqb section key) eqn:Heq; [|reflexivity].
  rewrite <- Hmem. symmetry. apply existsb_exists. exists key. split; assumption.
Qed.

(** A contact line stands for every contact key whose value differs from
    "NA", in the order of the keys, whatever else the value is. *)
Lemma contact_lines_filter (personal_info : record) (keys : list string) :
  contact_lines personal_info keys
  = map (fun key => py_str (get personal_info key (VStr "NA")))
      (List.filter (fun key => negb (eq_NA (get personal_info key (VStr "NA")))) keys).
Proof.
  induction keys as [|key keys IH]; [reflexivity|].
  cbn [contact_lines List.filter].
  destruct (negb (eq_NA (get personal_info key (VStr "NA")))); cbn [map]; now rewrite IH.
Qed.

(** The name of the saved document never is the transient photo's. *)
Lemma last_char_app (s t : string) :
  t <> EmptyString -> last_char (s ++ t) = last_char t.
Proof.
  intros Ht. induction s as [|a s IH]; [reflexivity|].
  change (last_char (String a (s ++ t)) = last_char t).
  destruct (s ++ t)%string as [|b u] eqn:Happ.
  - destruct s; cbn in Happ; [contradiction|discriminate].
  - rewrite <- IH. reflexivity.
Qed.

Lemma output_filename_not_transient (personal_info : record) (output : string) :
  output_filename personal_info = Ok output -> output <> processed_photo.
Proof.
  unfold output_filename.
  destruct (get personal_info "Full Name" (VStr "Resume")) as [s|rows]; [|discriminate].
  intros [= <-] Heq. apply (f_equal last_char) in Heq.
  rewrite last_char_app in Heq by discriminate. discriminate Heq.
Qed.

(** ** The document assembler: what a run does *)

Lemma resize_shape (caps : capabilities) (src final_img : image) (dw dh : nat) :
  resize caps src dw dh = Ok final_img ->
  length final_img = dh /\ Forall (fun row => length row = dw) final_img.
Proof.
  unfold resize. destruct ((height src =? 0) || (width src =? 0)); [discriminate|].
  intros [= <-]. split.
  - now rewrite length_map, length_seq.
  - apply List.Forall_map, List.Forall_forall. intros r _.
    now rewrite length_map, length_seq.
Qed.

Lemma resize_raises_cv2 (caps : capabilities) (src : image) (dw dh : nat) (e : exn) :
  resize caps src dw dh = Err e -> e = Cv2Error.
Proof.
  unfold resize. destruct ((height src =? 0) || (width src =? 0)); [|discriminate].
  now intros [= <-].
Qed.

(** The three ways a run of the normaliser ends. *)
Lemma process_cases
    (caps : capabilities) (input_path output_path : string) (fs : gmap string file) :
  match process_passport_photo caps input_path output_path fs with
  | (Ok false, fs') => fs' = fs /\ holds_image fs input_path = false
  | (Ok true, fs') =>
      holds_image fs input_path = true
      /\ exists final_img,
           fs' = <[output_path := ImageFile final_img]> fs
           /\ height final_img = 531 /\ width final_img = 413
           /\ rectangular final_img
  | (Err e, fs') => e = Cv2Error /\ fs' = fs /\ holds_image fs input_path = true
  end.
Proof.
  destruct (holds_image fs input_path) eqn:Himage.
  - unfold holds_image in Himage.
    destruct (fs !! input_path) as [[img| |]|] eqn:Hfile; try discriminate.
    rewrite (process_on_image caps _ _ _ _ Hfile).
    destruct (resize caps _ _ _) as [final_img|e] eqn:Hresize.
    + split; [reflexivity|]. exists final_img. split; [reflexivity|].
      destruct (resize_shape _ _ _ _ _ Hresize) as [Hlen Hcols].
      exact (target_shape _ Hlen Hcols).
    + split; [exact (resize_raises_cv2 _ _ _ _ _ Hresize)|]. split; reflexivity.
  - rewrite process_unreadable; [split; reflexivity|].
    intros img Himg. unfold holds_image in Himage. now rewrite Himg in Himage.
Qed.

Section AssemblerFacts.

Variable caps : capabilities.

(** The ways the photo cell ends: the placeholder with no file touched; the
    picture, of 413 by 531 pixels at 1.2 inch, with the transient photo
    deleted; or the error of the resize with no file touched. *)
Lemma photo_cell_cases (photo_path : option string) (fs : gmap string file) :
  match photo_cell caps photo_path fs with
  | (Ok (Text s), fs') => s = no_photo_text /\ fs' = fs
  | (Ok (Picture final_img w), fs') =>
      w = 12 /\ fs' = delete processed_photo fs
      /\ height final_img = 531 /\ width final_img = 413 /\ rectangular final_img
  | (Err e, fs') => e = Cv2Error /\ fs' = fs
  end.
Proof.
  unfold photo_cell, bind.
  destruct photo_path as [[|a rest]|]; try (split; reflexivity).
  pose proof (process_cases caps (String a rest) processed_photo fs) as Hrun.
  destruct (process_passport_photo caps (String a rest) processed_photo fs)
    as [[[|]|e] fs1].
  - destruct Hrun as (_ & final_img & -> & Hshape).
    unfold add_picture, path_exists, remove, ret, raise.
    rewrite !lookup_insert_eq.
    rewrite bool_decide_eq_true_2 by (eexists; reflexivity).
    split; [reflexivity|]. split; [apply delete_insert_eq|exact Hshape].
  - destruct Hrun as [-> _]. split; reflexivity.
  - destruct Hrun as (-> & -> & _). split; reflexivity.
Qed.

(** After the photo cell, the transient photo's path holds no file, or no
    file was touched. *)
Lemma photo_cell_transient (photo_path : option string) (fs : gmap string file) :
  snd (photo_cell caps photo_path fs) = delete processed_photo fs
  \/ snd (photo_cell caps photo_path fs) = fs.
Proof.
  pose proof (photo_cell_cases photo_path fs) as Hcases.
  destruct (photo_cell caps photo_path fs) as [[[final_img w|s]|e] fs1]; cbn [snd].
  - left. now destruct Hcases as (_ & -> & _).
  - right. now destruct Hcases as (_ & ->).
  - right. now destruct Hcases as (_ & ->).
Qed.

(** Without a readable photo the photo cell is the placeholder and no file
    is touched. *)
Lemma photo_cell_unreadable (path : string) (fs : gmap string file) :
  holds_image fs path = false ->
  photo_cell caps (Some path) fs = (Ok (Text no_photo_text), fs).
Proof.
  intros Hno. unfold photo_cell, bind.
  destruct path as [|a rest]; [reflexivity|].
  rewrite process_unreadable; [reflexivity|].
  intros img Himg. unfold holds_image in Hno. now rewrite Himg in Hno.
Qed.

Lemma photo_cell_none (fs : gmap string file) :
  photo_cell caps None fs = (Ok (Text no_photo_text), fs).
Proof. reflexivity. Qed.

(** The run of [generate_resume], step by step. *)
Lemma generate_resume_steps (personal_info : record) (photo_path : option string)
    (fs : gmap string file) :
  generate_resume caps personal_info photo_path fs
  = match add_run (get personal_info "Full Name" (VStr "")) with
    | Err e => (Err e, fs)
    | Ok name =>
        match add_contacts personal_info contact_keys with
        | Err e => (Err e, fs)
        | Ok contacts =>
            match photo_cell caps photo_path fs with
            | (Err e, fs1) => (Err e, fs1)
            | (Ok photo, fs1) =>
                match add_sections personal_info with
                | Err e => (Err e, fs1)
                | Ok sections =>
                    match output_filename personal_info with
                    | Err e => (Err e, fs1)
                    | Ok output =>
                        let doc := Header name contacts photo :: spacer :: sections in
                        if can_create caps output
                        then (Ok doc, <[output := DocxFile doc]> fs1)
                        else (Err OSError, fs1)
                    end
                end
            end
        end
    end.
Proof.
  unfold generate_resume, bind, lift, save, ret.
  destruct (add_run _) as [name|e]; [|reflexivity].
  destruct (add_contacts _ _) as [contacts|e]; [|reflexivity].
  destruct (photo_cell caps photo_path fs) as [[photo|e] fs1]; [|reflexivity].
  destruct (add_sections personal_info) as [sections|e]; [|reflexivity].
  destruct (output_filename personal_info) as [output|e]; [|reflexivity].
  cbv zeta. now destruct (can_create caps output).
Qed.

(** Whatever the run does, it leaves the transient photo's path without a
    file or as it found it. *)
Lemma generate_resume_transient (personal_info : record) (photo_path : option string)
    (fs : gmap string file) :
  snd (generate_resume caps personal_info photo_path fs) !! processed_photo = None
  \/ snd (generate_resume caps personal_info photo_path fs) !! processed_photo
     = fs !! processed_photo.
Proof.
  rewrite generate_resume_steps.
  destruct (add_run _) as [name|e]; [|right; reflexivity].
  destruct (add_contacts _ _) as [contacts|e]; [|right; reflexivity].
  assert (forall fs1, fs1 = delete processed_photo fs \/ fs1 = fs ->
            fs1 !! processed_photo = None
            \/ fs1 !! processed_photo = fs !! processed_photo) as Hcell.
  { intros fs1 [-> | ->]; [left; apply lookup_delete_eq|right; reflexivity]. }
  pose proof (photo_cell_transient photo_path fs) as Hphoto.
  destruct (photo_cell caps photo_path fs) as [[photo|e] fs1]; cbn [snd] in *;
    [|exact (Hcell _ Hphoto)].
  destruct (add_sections personal_info) as [sections|e]; [|exact (Hcell _ Hphoto)].
  destruct (output_filename personal_info) as [output|e] eqn:Hout;
    [|exact (Hcell _ Hphoto)].
  cbv zeta. destruct (can_create caps output); cbn [snd]; [|exact (Hcell _ Hphoto)].
  rewrite lookup_insert_ne by exact (output_filename_not_transient _ _ Hout).
  exact (Hcell _ Hphoto).
Qed.

(** A document the run returns is the one it saved, under the name
    [output_filename] gives; its sections are those of [dynamic_sections],
    and every text of the record was taken. *)
Lemma generate_resume_returns (personal_info : record) (photo_path : option string)
    (fs fs2 : gmap string file) (doc : document) :
  generate_resume caps personal_info photo_path fs = (Ok doc, fs2) ->
  exists name photo sections output fs1,
    add_run (get personal_info "Full Name" (VStr "")) = Ok name
    /\ photo_cell caps photo_path fs = (Ok photo, fs1)
    /\ dynamic_sections personal_info = Ok sections
    /\ output_filename personal_info = Ok output
    /\ can_create caps output = true
    /\ sections_ok personal_info = true
    /\ doc = Header name (contact_lines personal_info contact_keys) photo
             :: spacer :: sections
    /\ fs2 = <[output := DocxFile doc]> fs1.
Proof.
  rewrite generate_resume_steps, add_contacts_cases.
  destruct (add_run _) as [name|e]; [|discriminate].
  destruct (forallb _ contact_keys); [|discriminate].
  destruct (photo_cell caps photo_path fs) as [[photo|e] fs1]; [|discriminate].
  destruct (add_sections personal_info) as [sections|e] eqn:Hsections; [|discriminate].
  destruct (output_filename personal_info) as [output|e]; [|discriminate].
  cbv zeta. destruct (can_create caps output) eqn:Hcreate; [|discriminate].
  intros [= <- <-]. apply add_sections_inv in Hsections as [Hlayout Hok].
  exists name, photo, sections, output, fs1. repeat split; assumption.
Qed.

(** The headings of a document that was produced. *)
Lemma generate_resume_headings (personal_info : record) (photo_path : option string)
    (fs fs2 : gmap string file) (doc : document) :
  generate_resume caps personal_info photo_path fs = (Ok doc, fs2) ->
  headings doc
  = map (fun field => PyText.upper (fst field)) (List.filter rendered personal_info).
Proof.
  intros Hrun. apply generate_resume_returns in Hrun
    as (name & photo & sections & output & fs1 & _ & _ & Hsections & _ & _ & _ & -> & _).
  cbn [headings spacer]. exact (dynamic_sections_headings _ _ Hsections).
Qed.

(** How the run on a well-formed record ends: with [ValueError] before any
    file is touched when the library refuses a text of the header; else as
    the photo cell ends, when that raises; else with [ValueError] when the
    library refuses a text of a section; else with [OSError] when the file
    cannot be created; else with the document saved. *)
Lemma well_formed_run (personal_info : record) :
  well_formed personal_info = true ->
  exists name sections output,
    get personal_info "Full Name" (VStr "") = VStr name
    /\ dynamic_sections personal_info = Ok sections
    /\ output_filename personal_info = Ok output
    /\ forall (photo_path : option string) (fs : gmap string file),
         generate_resume caps personal_info photo_path fs
         = if header_ok personal_info then
             match photo_cell caps photo_path fs with
             | (Err e, fs1) => (Err e, fs1)
             | (Ok photo, fs1) =>
                 if sections_ok personal_info then
                   let doc :=
                     Header name (contact_lines personal_info contact_keys) photo
                     :: spacer :: sections in
                   if can_create caps output
                   then (Ok doc, <[output := DocxFile doc]> fs1)
                   else (Err OSError, fs1)
                 else (Err ValueError, fs1)
             end
           else (Err ValueError, fs).
Proof.
  unfold well_formed. rewrite andb_true_iff. intros [Hname Hwide].
  destruct (dynamic_sections_total _ Hwide) as (sections & Hsections).
  pose proof (get_text_any_default personal_info "Full Name" "" "Resume" Hname) as Hfile.
  assert (exists output, output_filename personal_info = Ok output) as (output & Hout).
  { unfold output_filename.
    destruct (get personal_info "Full Name" (VStr "Resume")) as [s'|rows]; [|discriminate].
    eauto. }
  destruct (get personal_info "Full Name" (VStr "")) as [name|rows] eqn:Hget;
    [|discriminate].
  exists name, sections, output. repeat split; try assumption.
  intros photo_path fs.
  rewrite generate_resume_steps, add_contacts_cases, (add_sections_wide _ Hwide).
  rewrite Hget, Hsections, Hout. unfold header_ok. rewrite Hget.
  cbn [add_run value_ok]. unfold set_text.
  destruct (PyText.xml_compatible name); cbn [andb]; [|reflexivity].
  destruct (forallb _ contact_keys); [|reflexivity].
  destruct (photo_cell caps photo_path fs) as [[photo|e] fs1]; [|reflexivity].
  now destruct (sections_ok personal_info).
Qed.

End AssemblerFacts.

(** ** The document assembler: the claims *)




(** C2 (amended). When a run returns, normally or with an error, the
    transient photo's path holds no file or holds the file it held when the
    run started: the run never leaves behind a photo it wrote, since the
    photo cell deletes the file as soon as the picture is embedded. So a run
    started without a file at that path ends without one on every exit: its
    normal return, with or without a photo, normalisation answering [False]
    or raising, and any other step of the assembly raising. A file that is
    at that path at the start is removed only when a picture is embedded:
    on the path without a photo and when normalisation answers [False] or
    raises, it stays in place. *)
Theorem C2_transient_photo_removed_or_untouched
    (caps : capabilities) (personal_info : record) (photo_path : option string)
    (fs : gmap string file) :
  (fs !! processed_photo = None ->
   snd (generate_resume caps personal_info photo_path fs) !! processed_photo = None)
  /\ (snd (generate_resume caps personal_info photo_path fs) !! processed_photo = None
      \/ snd (generate_resume caps personal_info photo_path fs) !! processed_photo
         = fs !! processed_photo)
  /\ (forall (final_img : image) (w : Z) (fs1 : gmap string file),
        photo_cell caps photo_path fs = (Ok (Picture final_img w), fs1) ->
        fs1 = delete processed_photo fs)
  /\ ((forall (final_img : image) (w : Z) (fs1 : gmap string file),
         photo_cell caps photo_path fs <> (Ok (Picture final_img w), fs1)) ->
      snd (generate_resume caps personal_info photo_path fs) !! processed_photo
      = fs !! processed_photo).
Proof.
  pose proof (generate_resume_transient caps personal_info photo_path fs) as Hrun.
  split; [|split; [exact Hrun|split]].
  - intros Hfresh. destruct Hrun as [Hgone|Hsame]; [exact Hgone|].
    now rewrite Hsame.
  - intros final_img w fs1 Hcell.
    pose proof (photo_cell_cases caps photo_path fs) as Hcases.
    rewrite Hcell in Hcases. now destruct Hcases as (_ & -> & _).
  - intros Hnone. clear Hrun. rewrite generate_resume_steps.
    destruct (add_run _) as [name|e]; [|reflexivity].
    destruct (add_contacts _ _) as [contacts|e]; [|reflexivity].
    pose proof (photo_cell_cases caps photo_path fs) as Hcases.
    destruct (photo_cell caps photo_path fs) as [[[final_img w|s]|e] fs1].
    + now destruct (Hnone final_img w fs1).
    + destruct Hcases as (_ & ->).
      destruct (add_sections personal_info) as [sections|e]; [|reflexivity].
      destruct (output_filename personal_info) as [output|e] eqn:Hout;
        [|reflexivity].
      cbv zeta. destruct (can_create caps output); cbn [snd]; [|reflexivity].
      now rewrite lookup_insert_ne by exact (output_filename_not_transient _ _ Hout).
    + now destruct Hcases as (_ & ->).
Qed.

Lemma C2_transient_photo_removed_or_untouched_witness :
  snd (generate_resume (stub [] true) jane (Some "me.jpg"%string)
         (disk_with "me.jpg" two_by_two)) !! processed_photo = None.
Proof.
  exact (proj1 (C2_transient_photo_removed_or_untouched
                  (stub [] true) jane (Some "me.jpg"%string)
                  (disk_with "me.jpg" two_by_two))
           eq_refl).
Defined.

(** C2 fails as stated: a file that is at the transient photo's path when
    the run starts is still there when the run returns, on the path without
    a photo (the run returns its document) and when normalisation answers
    [False] for a photo that is missing. *)
Lemma C2_counterexample_stale_photo :
  let fs : gmap string file := {[ processed_photo := ImageFile two_by_two ]} in
  let no_photo := generate_resume (stub [] true) jane None fs in
  let missing := generate_resume (stub [] true) jane (Some "missing.jpg"%string) fs in
  (exists doc, fst no_photo = Ok doc)
  /\ snd no_photo !! processed_photo = Some (ImageFile two_by_two)
  /\ (exists doc, fst missing = Ok doc)
  /\ snd missing !! processed_photo = Some (ImageFile two_by_two).
Proof.
  cbv zeta. repeat split; try (eexists; vm_compute; reflexivity); vm_compute; reflexivity.
Qed.

(** C4 (the code departs from the claim). The claim: a contact line stands
    for a contact field exactly when its value passes the presence test, so
    none for the empty string. The code tests only [val != "NA"]: an "Email"
    field holding the empty string fails the presence test and still gets a
    (blank) contact line, while the loop over the sections skips the same
    value. *)
Theorem C4_empty_contact_value_emits_line :
  let personal_info := [("Full Name", VStr "Jane Doe"); ("Email", VStr "")]%string in
  present (get personal_info "Email" (VStr "NA")) = false
  /\ contact_lines personal_info contact_keys = [EmptyString]
  /\ fst (generate_resume (stub [] true) personal_info None ∅)
     = Ok [Header "Jane Doe" [EmptyString] (Text "[No Photo]"); Paragraph "" Normal]
  /\ skipped "Objective" (VStr "") = true.
Proof. cbv zeta. repeat split; vm_compute; reflexivity. Qed.

(** C5. When the photo path holds no decodable image, normalisation answers
    [False] and leaves the disk as it was; the photo cell is the text
    "[No Photo]"; and the run is the run without a photo. So the assembly
    completes whenever it would without a photo: on a well-formed record
    whose texts the document library takes, it saves the document, with
    that text in the header's right column and the document as the only
    file written, unless the file itself cannot be created. *)
Theorem C5_unreadable_photo_gives_placeholder
    (caps : capabilities) (personal_info : record) (path : string)
    (fs : gmap string file) :
  holds_image fs path = false ->
  process_passport_photo caps path processed_photo fs = (Ok false, fs)
  /\ photo_cell caps (Some path) fs = (Ok (Text "[No Photo]"), fs)
  /\ generate_resume caps personal_info (Some path) fs
     = generate_resume caps personal_info None fs
  /\ (well_formed personal_info = true ->
      texts_ok personal_info = true ->
      exists name sections output,
        let doc :=
          Header name (contact_lines personal_info contact_keys) (Text "[No Photo]")
          :: spacer :: sections in
        get personal_info "Full Name" (VStr "") = VStr name
        /\ dynamic_sections personal_info = Ok sections
        /\ output_filename personal_info = Ok output
        /\ generate_resume caps personal_info (Some path) fs
           = if can_create caps output
             then (Ok doc, <[output := DocxFile doc]> fs)
             else (Err OSError, fs)).
Proof.
  intros Hno.
  pose proof (photo_cell_unreadable caps _ _ Hno) as Hcell.
  split.
  { apply process_unreadable. intros img Himg.
    unfold holds_image in Hno. now rewrite Himg in Hno. }
  split; [exact Hcell|].
  split.
  { now rewrite !generate_resume_steps, Hcell, photo_cell_none. }
  intros Hwf Htexts. unfold texts_ok in Htexts.
  apply andb_true_iff in Htexts as [Hheader Hsections].
  destruct (well_formed_run caps personal_info Hwf)
    as (name & sections & output & Hname & Hlayout & Hout & Hrun).
  exists name, sections, output. cbv zeta.
  split; [exact Hname|]. split; [exact Hlayout|]. split; [exact Hout|].
  now rewrite Hrun, Hheader, Hcell, Hsections.
Qed.

Lemma C5_unreadable_photo_gives_placeholder_witness :
  process_passport_photo (stub [] true) "notes.txt" processed_photo
    {[ "notes.txt"%string := OtherFile ]}
  = (Ok false, {[ "notes.txt"%string := OtherFile ]})
  /\ exists name sections output,
       let doc :=
         Header name (contact_lines jane contact_keys) (Text "[No Photo]")
         :: spacer :: sections in
       get jane "Full Name" (VStr "") = VStr name
       /\ dynamic_sections jane = Ok sections
       /\ output_filename jane = Ok output
       /\ generate_resume (stub [] true) jane (Some "notes.txt"%string)
            {[ "notes.txt"%string := OtherFile ]}
          = if can_create (stub [] true) output
            then (Ok doc, <[output := DocxFile doc]> {[ "notes.txt"%string := OtherFile ]})
            else (Err OSError, {[ "notes.txt"%string := OtherFile ]}).
Proof.
  pose proof (C5_unreadable_photo_gives_placeholder (stub [] true) jane "notes.txt"
                {[ "notes.txt"%string := OtherFile ]}) as Hrun.
  destruct (Hrun eq_refl) as (Hfalse & _ & _ & Hdoc).
  exact (conj Hfalse (Hdoc eq_refl eq_refl)).
Defined.



(** C9. Whenever a run returns a document, that document is the file saved
    under the record's file name, and its section headings are the names, in
    upper case, of the fields that are outside the header set and pass the
    presence test, in the order the record lists them. And a run does return
    one on a well-formed record whose texts the document library takes, when
    the photo step does not raise and the file can be created. *)
Theorem C9_headings_follow_record_order
    (caps : capabilities) (personal_info : record) (photo_path : option string)
    (fs : gmap string file) :
  (forall (doc : document) (fs2 : gmap string file),
     generate_resume caps personal_info photo_path fs = (Ok doc, fs2) ->
     headings doc
     = map (fun field => PyText.upper (fst field)) (List.filter rendered personal_info)
     /\ exists output,
          output_filename personal_info = Ok output
          /\ fs2 !! output = Some (DocxFile doc))
  /\ (well_formed personal_info = true ->
      texts_ok personal_info = true ->
      forall (photo : photo_run) (fs1 : gmap string file) (output : string),
        photo_cell caps photo_path fs = (Ok photo, fs1) ->
        output_filename personal_info = Ok output ->
        can_create caps output = true ->
        exists doc,
          generate_resume caps personal_info photo_path fs
          = (Ok doc, <[output := DocxFile doc]> fs1)
          /\ headings doc
             = map (fun field => PyText.upper (fst field))
                 (List.filter rendered personal_info)).
Proof.
  split.
  - intros doc fs2 Hrun. split; [exact (generate_resume_headings caps _ _ _ _ _ Hrun)|].
    apply generate_resume_returns in Hrun
      as (name & photo & sections & output & fs1 & _ & _ & _ & Hout & _ & _ & _ & ->).
    exists output. split; [exact Hout|apply lookup_insert_eq].
  - intros Hwf Htexts photo fs1 output Hphoto Hout Hcreate.
    unfold texts_ok in Htexts. apply andb_true_iff in Htexts as [Hheader Hsections].
    destruct (well_formed_run caps personal_info Hwf)
      as (name & sections & output' & _ & _ & Hout' & Hrun).
    assert (output' = output) as -> by congruence.
    specialize (Hrun photo_path fs).
    rewrite Hheader, Hphoto, Hsections in Hrun. cbv zeta in Hrun.
    rewrite Hcreate in Hrun.
    eexists. split; [exact Hrun|].
    exact (generate_resume_headings caps _ _ _ _ _ Hrun).
Qed.

Lemma C9_headings_follow_record_order_witness :
  exists doc,
    generate_resume (stub [] true) jane None ∅
    = (Ok doc, <["Jane_Doe_Resume.docx"%string := DocxFile doc]> ∅)
    /\ headings doc
       = map (fun field => PyText.upper (fst field)) (List.filter rendered jane).
Proof.
  exact (proj2 (C9_headings_follow_record_order (stub [] true) jane None ∅)
           eq_refl eq_refl (Text no_photo_text) ∅ "Jane_Doe_Resume.docx"%string
           eq_refl eq_refl eq_refl).
Defined.

(** C10. The empty list fails the presence test; a field holding it adds
    nothing to the sections (no heading, no table), whatever its name and
    place in the record; and when its name is outside the header set (as
    "Education" is) the whole run is the run on the record without the
    field. *)
Theorem C10_empty_list_field_is_skipped
    (caps : capabilities) (before after : record) (section : string)
    (photo_path : option string) (fs : gmap string file) :
  present (VList []) = false
  /\ skipped section (VList []) = true
  /\ dynamic_sections (before ++ (section, VList []) :: after)
     = dynamic_sections (before ++ after)
  /\ (mem_str section ignore_keys = false ->
      generate_resume caps (before ++ (section, VList []) :: after) photo_path fs
      = generate_resume caps (before ++ after) photo_path fs)
  /\ add_sections (before ++ (section, VList []) :: after)
     = add_sections (before ++ after).
Proof.
  assert (skipped section (VList []) = true) as Hskip.
  { unfold skipped. cbn [truthy negb]. now rewrite !orb_true_r. }
  assert (dynamic_sections (before ++ (section, VList []) :: after)
          = dynamic_sections (before ++ after)) as Hsections.
  { rewrite !dynamic_sections_app. cbn [dynamic_sections]. now rewrite Hskip. }
  assert (add_sections (before ++ (section, VList []) :: after)
          = add_sections (before ++ after)) as Hadded.
  { rewrite !add_sections_app. cbn [add_sections]. now rewrite Hskip. }
  split; [reflexivity|]. split; [exact Hskip|]. split; [exact Hsections|].
  split; [|exact Hadded].
  intros Hname.
  assert (forall key default, In key ignore_keys ->
            get (before ++ (section, VList []) :: after) key default
            = get (before ++ after) key default) as Hget.
  { intros key default Hin. apply get_without.
    exact (not_ignored_differs _ _ Hname Hin). }
  rewrite !generate_resume_steps, Hadded. unfold output_filename.
  rewrite !(Hget "Full Name"%string) by (cbn; tauto).
  rewrite (add_contacts_agree (before ++ (section, VList []) :: after) (before ++ after)).
  - reflexivity.
  - intros key Hin. apply Hget. cbn in Hin |- *. tauto.
Qed.

Lemma C10_empty_list_field_is_skipped_witness :
  present (VList []) = false
  /\ skipped "Education" (VList []) = true
  /\ dynamic_sections (name_only ++ ("Education"%string, VList []) :: skills_only)
     = dynamic_sections (name_only ++ skills_only)
  /\ generate_resume (stub [] true)
       (name_only ++ ("Education"%string, VList []) :: skills_only) None ∅
     = generate_resume (stub [] true) (name_only ++ skills_only) None ∅.
Proof.
  destruct (C10_empty_list_field_is_skipped (stub [] true) name_only skills_only
              "Education" None ∅) as (Hpresent & Hskip & Hsections & Hrun & _).
  exact (conj Hpresent (conj Hskip (conj Hsections (Hrun eq_refl)))).
Defined.

(* ===================================================================== *)
(** * Further properties of the code                                       *)
(* ===================================================================== *)

(** ** The photo normaliser *)

(** X1. Whatever the detector answers, a run of the normaliser ends in one
    of three ways: [False] with no file touched, when the input path holds
    no decodable image; [True] with the output path holding an image of 413
    columns and 531 rows and every other path as before; or the error of
    [cv2.resize] with no file touched. It raises nothing else. *)
Theorem X1_normaliser_outcomes
    (caps : capabilities) (input_path output_path : string) (fs : gmap string file) :
  match process_passport_photo caps input_path output_path fs with
  | (Ok false, fs') => fs' = fs /\ holds_image fs input_path = false
  | (Ok true, fs') =>
      holds_image fs input_path = true
      /\ exists final_img,
           fs' = <[output_path := ImageFile final_img]> fs
           /\ height final_img = 531 /\ width final_img = 413
           /\ rectangular final_img
  | (Err e, fs') => e = Cv2Error /\ fs' = fs /\ holds_image fs input_path = true
  end.
Proof. apply process_cases. Qed.

(** A box whose sums leave the 32-bit range: the right edge wraps around to
    a negative column, the crop is empty and [cv2.resize] raises. *)
Lemma wrapped_box_raises :
  let face := (0, 0, 2147483647, 1) in
  meets four_by_four face = true
  /\ sums_fit face = false
  /\ face_rectangle four_by_four face = (0, 1, 0, -1503238555)
  /\ process_passport_photo (stub [face] true) "me.jpg" processed_photo
       (disk_with "me.jpg" four_by_four)
     = (Err Cv2Error, disk_with "me.jpg" four_by_four).
Proof. cbv zeta. repeat split; vm_compute; reflexivity. Qed.

(** ** The photo cell *)

(** X3. With a non-empty photo path on which normalisation answers [True]
    and a well-formed record whose texts the document library takes, the
    photo is embedded and cleaned up: the header's right column holds the
    413 by 531 picture at 1.2 inch, the transient photo is deleted, and the
    document is the only file added; when the document's file cannot be
    created the run raises [OSError], the transient photo deleted all the
    same. *)
Theorem X3_photo_embedded_and_cleaned_up
    (caps : capabilities) (personal_info : record) (path : string)
    (fs : gmap string file) :
  is_empty path = false ->
  fst (process_passport_photo caps path processed_photo fs) = Ok true ->
  well_formed personal_info = true ->
  texts_ok personal_info = true ->
  exists final_img name sections output,
    let doc :=
      Header name (contact_lines personal_info contact_keys) (Picture final_img 12)
      :: spacer :: sections in
    output_filename personal_info = Ok output
    /\ generate_resume caps personal_info (Some path) fs
       = (if can_create caps output
          then (Ok doc, <[output := DocxFile doc]> (delete processed_photo fs))
          else (Err OSError, delete processed_photo fs))
    /\ snd (process_passport_photo caps path processed_photo fs) !! processed_photo
       = Some (ImageFile final_img)
    /\ height final_img = 531 /\ width final_img = 413.
Proof.
  intros Hpath Hrun Hwf Htexts.
  unfold texts_ok in Htexts. apply andb_true_iff in Htexts as [Hheader Hsections].
  destruct (well_formed_run caps personal_info Hwf)
    as (name & sections & output & _ & _ & Hout & Hends).
  pose proof (process_cases caps path processed_photo fs) as Hcases.
  destruct (process_passport_photo caps path processed_photo fs) as [r fs1] eqn:Hproc.
  cbn [fst] in Hrun. subst r.
  destruct Hcases as (_ & final_img & -> & Hh & Hw & _).
  exists final_img, name, sections, output. cbv zeta.
  split; [exact Hout|].
  split; [|split; [cbn [snd]; apply lookup_insert_eq|split; assumption]].
  rewrite Hends, Hheader, Hsections.
  assert (photo_cell caps (Some path) fs
          = (Ok (Picture final_img 12), delete processed_photo fs)) as ->.
  { unfold photo_cell, bind. destruct path as [|a rest]; [discriminate Hpath|].
    rewrite Hproc. unfold add_picture, path_exists, remove, ret, raise.
    rewrite !lookup_insert_eq.
    rewrite bool_decide_eq_true_2 by (eexists; reflexivity).
    now rewrite delete_insert_eq. }
  reflexivity.
Qed.

Lemma X3_photo_embedded_and_cleaned_up_witness :
  exists final_img name sections output,
    let doc :=
      Header name (contact_lines jane contact_keys) (Picture final_img 12)
      :: spacer :: sections in
    output_filename jane = Ok output
    /\ generate_resume (stub [] true) jane (Some "me.jpg"%string)
         (disk_with "me.jpg" two_by_two)
       = (if can_create (stub [] true) output
          then (Ok doc, <[output := DocxFile doc]>
                          (delete processed_photo (disk_with "me.jpg" two_by_two)))
          else (Err OSError, delete processed_photo (disk_with "me.jpg" two_by_two)))
    /\ snd (process_passport_photo (stub [] true) "me.jpg" processed_photo
              (disk_with "me.jpg" two_by_two)) !! processed_photo
       = Some (ImageFile final_img)
    /\ height final_img = 531 /\ width final_img = 413.
Proof.
  pose proof (X3_photo_embedded_and_cleaned_up (stub [] true) jane "me.jpg"
                (disk_with "me.jpg" two_by_two)) as Hrun.
  apply Hrun; reflexivity.
Defined.

(** ** The sections *)

(** X4. When some row of an education list has fewer than four cells, the
    layout of the sections fails with [IndexError] and no run returns a
    document. Without a photo the run of a record whose name is text raises
    [IndexError] or [ValueError] and leaves the disk as it was; when the
    document library takes the texts of the record, the error is
    [IndexError], raised after the photo cell (unless the photo cell itself
    raises). *)
Theorem X4_short_education_row_raises
    (caps : capabilities) (personal_info : record) (fs : gmap string file) :
  forallb education_wide personal_info = false ->
  is_text (get personal_info "Full Name" (VStr "")) = true ->
  dynamic_sections personal_info = Err IndexError
  /\ (forall (photo_path : option string) (doc : document) (fs2 : gmap string file),
        generate_resume caps personal_info photo_path fs <> (Ok doc, fs2))
  /\ (exists e,
        generate_resume caps personal_info None fs = (Err e, fs)
        /\ (e = IndexError \/ e = ValueError))
  /\ (texts_ok personal_info = true ->
      generate_resume caps personal_info None fs = (Err IndexError, fs)
      /\ forall photo_path : option string,
           generate_resume caps personal_info photo_path fs
           = match photo_cell caps photo_path fs with
             | (Ok _, fs1) => (Err IndexError, fs1)
             | (Err e, fs1) => (Err e, fs1)
             end).
Proof.
  intros Hshort Hname.
  pose proof (dynamic_sections_short _ Hshort) as Hsections.
  split; [exact Hsections|]. split; [|split].
  - intros photo_path doc fs2 Hrun.
    apply generate_resume_returns in Hrun
      as (name & photo & sections & output & fs1 & _ & _ & Hlayout & _).
    congruence.
  - rewrite generate_resume_steps, add_contacts_cases, photo_cell_none.
    destruct (get personal_info "Full Name" (VStr "")) as [s|rows]; [|discriminate].
    cbn [add_run]. unfold set_text.
    destruct (PyText.xml_compatible s); [|exists ValueError; split; [reflexivity|now right]].
    destruct (forallb _ contact_keys);
      [|exists ValueError; split; [reflexivity|now right]].
    destruct (add_sections personal_info) as [sections|e] eqn:Hadded.
    + apply add_sections_inv in Hadded as [Hlayout _]. congruence.
    + exists e. split; [reflexivity|]. exact (add_sections_raises _ _ Hadded).
  - intros Htexts. unfold texts_ok, header_ok in Htexts.
    apply andb_true_iff in Htexts as [Hheader Hok].
    apply andb_true_iff in Hheader as [Hname_ok Hcontacts].
    assert (forall photo_path : option string,
              generate_resume caps personal_info photo_path fs
              = match photo_cell caps photo_path fs with
                | (Ok _, fs1) => (Err IndexError, fs1)
                | (Err e, fs1) => (Err e, fs1)
                end) as Hrun.
    { intros photo_path.
      rewrite generate_resume_steps, add_contacts_cases, Hcontacts.
      rewrite (add_sections_ok _ Hok), Hsections.
      destruct (get personal_info "Full Name" (VStr "")) as [s|rows]; [|discriminate].
      cbn [add_run value_ok] in *. unfold set_text. rewrite Hname_ok.
      now destruct (photo_cell caps photo_path fs) as [[photo|e] fs1]. }
    split; [|exact Hrun]. now rewrite Hrun, photo_cell_none.
Qed.

Lemma X4_short_education_row_raises_witness :
  dynamic_sections [("Education", VList [["B.Tech"; "State U"; "2020"]])]%string
  = Err IndexError
  /\ generate_resume (stub [] true)
       [("Education", VList [["B.Tech"; "State U"; "2020"]])]%string None ∅
     = (Err IndexError, ∅)
  /\ forall photo_path : option string,
       generate_resume (stub [] true)
         [("Education", VList [["B.Tech"; "State U"; "2020"]])]%string photo_path ∅
       = match photo_cell (stub [] true) photo_path ∅ with
         | (Ok _, fs1) => (Err IndexError, fs1)
         | (Err e, fs1) => (Err e, fs1)
         end.
Proof.
  destruct (X4_short_education_row_raises (stub [] true)
              [("Education", VList [["B.Tech"; "State U"; "2020"]])]%string ∅
              eq_refl eq_refl) as (Hlayout & _ & _ & Hrun).
  exact (conj Hlayout (Hrun eq_refl)).
Defined.

(** X5. Of an education row with more than four cells the table keeps the
    first four, in order, and drops the rest without an error; of the texts
    of such a row the document library sees those four only. *)
Theorem X5_wide_education_rows_truncated (rows : list (list string)) :
  rows_wide rows = true ->
  rows <> [] ->
  skipped "Education" (VList rows) = false
  /\ exists table,
       render_section "Education" (VList rows)
       = Ok [Heading "EDUCATION" 1 true; Table table; spacer]
       /\ map (map cell_text) table = headers :: map (take 4) rows
       /\ Forall (fun row => length row = 4%nat) table
       /\ add_section "Education" (VList rows)
          = if rows_ok rows then Ok [Heading "EDUCATION" 1 true; Table table; spacer]
            else Err ValueError.
Proof.
  intros Hwide Hrows.
  split; [destruct rows; [contradiction|reflexivity]|].
  exists (header_row :: map (fun row => map plain (take 4 row)) rows).
  assert (render_section "Education" (VList rows)
          = Ok [Heading "EDUCATION" 1 true;
                Table (header_row :: map (fun row => map plain (take 4 row)) rows);
                spacer]) as Hrender.
  { unfold render_section. cbn [String.eqb Ascii.eqb Bool.eqb].
    now rewrite (data_rows_wide _ Hwide). }
  split; [exact Hrender|].
  split.
  { cbn [map header_row headers cell_text]. f_equal.
    rewrite List.map_map. apply List.map_ext. intros row.
    rewrite List.map_map. apply List.map_id. }
  split.
  { constructor; [reflexivity|].
    apply List.Forall_map. unfold rows_wide in Hwide.
    rewrite forallb_forall in Hwide. apply List.Forall_forall.
    intros row Hin. specialize (Hwide row Hin). apply Nat.leb_le in Hwide.
    rewrite length_map, length_take. lia. }
  rewrite add_section_wide, Hrender.
  - unfold field_ok. cbn [fst snd String.eqb Ascii.eqb Bool.eqb]. reflexivity.
  - unfold education_wide. cbn [String.eqb Ascii.eqb Bool.eqb negb orb]. exact Hwide.
Qed.

Lemma X5_wide_education_rows_truncated_witness :
  skipped "Education" (VList [["B.Tech"; "State U"; "2020"; "8.5"; "with honours"]]%string)
  = false
  /\ exists table,
       render_section "Education"
         (VList [["B.Tech"; "State U"; "2020"; "8.5"; "with honours"]]%string)
       = Ok [Heading "EDUCATION" 1 true; Table table; spacer]
       /\ map (map cell_text) table
          = headers :: map (take 4) [["B.Tech"; "State U"; "2020"; "8.5"; "with honours"]]%string
       /\ Forall (fun row => length row = 4%nat) table
       /\ add_section "Education"
            (VList [["B.Tech"; "State U"; "2020"; "8.5"; "with honours"]]%string)
          = if rows_ok [["B.Tech"; "State U"; "2020"; "8.5"; "with honours"]]%string
            then Ok [Heading "EDUCATION" 1 true; Table table; spacer]
            else Err ValueError.
Proof.
  exact (X5_wide_education_rows_truncated
           [["B.Tech"; "State U"; "2020"; "8.5"; "with honours"]]%string
           eq_refl ltac:(discriminate)).
Defined.

(** X6. The loop over the sections adds no block exactly when no field of
    the record is rendered; the document then is the header and the spacer
    alone. *)
Theorem X6_no_sections_iff_nothing_rendered
    (caps : capabilities) (personal_info : record) (photo_path : option string)
    (fs : gmap string file) :
  (dynamic_sections personal_info = Ok [] <-> List.filter rendered personal_info = [])
  /\ (forall (doc : document) (fs2 : gmap string file),
        generate_resume caps personal_info photo_path fs = (Ok doc, fs2) ->
        (length doc = 2%nat <-> List.filter rendered personal_info = []))
  /\ (add_sections personal_info = Ok [] <-> List.filter rendered personal_info = []).
Proof.
  assert (dynamic_sections personal_info = Ok []
          <-> List.filter rendered personal_info = []) as Hiff.
  { split; [|apply nothing_rendered_no_sections].
    intros Hnone. apply dynamic_sections_headings in Hnone. cbn [headings] in Hnone.
    symmetry in Hnone. now apply List.map_eq_nil in Hnone. }
  split; [exact Hiff|]. split.
  - intros doc fs2 Hrun. apply generate_resume_returns in Hrun
      as (name & photo & sections & output & fs1 & _ & _ & Hlayout & _ & _ & _ & -> & _).
    cbn [length]. rewrite <- Hiff, Hlayout.
    destruct sections; split; try discriminate; reflexivity.
  - split.
    + intros Hnone. apply add_sections_inv in Hnone as [Hlayout _]. now apply Hiff.
    + intros Hnone. rewrite add_sections_ok; [now apply Hiff|].
      unfold sections_ok. now rewrite Hnone.
Qed.

Lemma X6_no_sections_iff_nothing_rendered_witness :
  length [Header "Jane Doe" [] (Text "[No Photo]"); spacer] = 2%nat
  <-> List.filter rendered name_only = [].
Proof.
  exact (proj1 (proj2 (X6_no_sections_iff_nothing_rendered (stub [] true) name_only None ∅))
           [Header "Jane Doe" [] (Text "[No Photo]"); spacer]
           (<["Jane_Doe_Resume.docx"%string :=
                DocxFile [Header "Jane Doe" [] (Text "[No Photo]"); spacer]]> ∅)
           eq_refl).
Defined.

(** ** Text forms *)

Lemma contains_char_app (c : ascii) (s t : string) :
  PyText.contains_char c (s ++ t)
  = PyText.contains_char c s || PyText.contains_char c t.
Proof.
  induction s as [|a s IH]; [reflexivity|].
  change (Ascii.eqb a c || PyText.contains_char c (s ++ t)
          = Ascii.eqb a c || PyText.contains_char c s || PyText.contains_char c t).
  now rewrite IH, orb_assoc.
Qed.

Lemma repr_char_one_line (q c : ascii) :
  q = PyText.single_quote \/ q = PyText.double_quote ->
  PyText.contains_char PyText.newline (PyText.repr_char q c) = false.
Proof.
  intros [-> | ->]; destruct c as [[] [] [] [] [] [] [] []]; reflexivity.
Qed.

Lemma repr_body_one_line (q : ascii) (s : string) :
  q = PyText.single_quote \/ q = PyText.double_quote ->
  PyText.contains_char PyText.newline (PyText.repr_body q s) = false.
Proof.
  intros Hq. induction s as [|a s IH]; [reflexivity|].
  change (PyText.repr_body q (String a s))
    with (PyText.repr_char q a ++ PyText.repr_body q s)%string.
  now rewrite contains_char_app, repr_char_one_line, IH.
Qed.

Lemma repr_str_one_line (s : string) :
  PyText.contains_char PyText.newline (PyText.repr_str s) = false.
Proof.
  unfold PyText.repr_str. cbv zeta.
  destruct (PyText.contains_char PyText.single_quote s
            && negb (PyText.contains_char PyText.double_quote s)).
  - change (false || PyText.contains_char PyText.newline
                       (PyText.repr_body PyText.double_quote s
                        ++ String PyText.double_quote EmptyString) = false).
    rewrite contains_char_app, repr_body_one_line by auto. reflexivity.
  - change (false || PyText.contains_char PyText.newline
                       (PyText.repr_body PyText.single_quote s
                        ++ String PyText.single_quote EmptyString) = false).
    rewrite contains_char_app, repr_body_one_line by auto. reflexivity.
Qed.

Lemma repr_list_one_line (items : list string) :
  Forall (fun item => PyText.contains_char PyText.newline item = false) items ->
  PyText.contains_char PyText.newline (PyText.repr_list items) = false.
Proof.
  intros Hitems. unfold PyText.repr_list.
  assert (PyText.contains_char PyText.newline (PyText.join_comma items) = false) as Hjoin.
  { induction Hitems as [|item rest Hitem Hrest IH]; [reflexivity|].
    destruct rest as [|next rest]; [exact Hitem|].
    change (PyText.join_comma (item :: next :: rest))
      with (item ++ ", " ++ PyText.join_comma (next :: rest))%string.
    rewrite !contains_char_app, Hitem, IH. reflexivity. }
  rewrite !contains_char_app, Hjoin. reflexivity.
Qed.

(** X7. The text form of a list value never holds a line break, whatever
    its cells hold ([repr] writes a line break as a backslash and an n): the
    paragraph of a list-valued field is never a bullet paragraph. *)
Theorem X7_list_paragraph_never_bullet (rows : list (list string)) :
  PyText.contains_char PyText.newline (py_str (VList rows)) = false
  /\ paragraph_of (VList rows) = Paragraph (py_str (VList rows)) Normal.
Proof.
  assert (PyText.contains_char PyText.newline (py_str (VList rows)) = false) as Hline.
  { cbn [py_str]. apply repr_list_one_line, List.Forall_map, List.Forall_forall.
    intros row _. apply repr_list_one_line, List.Forall_map, List.Forall_forall.
    intros cell_text _. apply repr_str_one_line. }
  split; [exact Hline|]. unfold paragraph_of. now rewrite Hline.
Qed.

(** ** The name of the document *)

Lemma replace_char_removes (old new : ascii) (s : string) :
  Ascii.eqb new old = false ->
  PyText.contains_char old (PyText.replace_char old new s) = false.
Proof.
  intros Hnew. induction s as [|a s IH]; [reflexivity|].
  cbn [PyText.replace_char PyText.contains_char]. rewrite IH, orb_false_r.
  destruct (Ascii.eqb a old) eqn:Ha; assumption.
Qed.

Lemma replace_char_length (old new : ascii) (s : string) :
  String.length (PyText.replace_char old new s) = String.length s.
Proof.
  induction s as [|a s IH]; [reflexivity|]. cbn. now rewrite IH.
Qed.

Lemma replace_char_absent (old new : ascii) (s : string) :
  PyText.contains_char old s = false -> PyText.replace_char old new s = s.
Proof.
  induction s as [|a s IH]; [reflexivity|].
  cbn [PyText.contains_char PyText.replace_char]. rewrite orb_false_iff.
  intros [Ha Hs]. now rewrite Ha, (IH Hs).
Qed.

(** X8. The document is saved under the name with every space replaced by
    an underscore, followed by "_Resume.docx": the file name holds no space,
    its stem is as long as the name, and a name without spaces is kept as it
    is. *)
Theorem X8_output_filename_has_no_space (personal_info : record) (name : string) :
  get personal_info "Full Name" (VStr "Resume") = VStr name ->
  exists stem,
    output_filename personal_info = Ok (stem ++ "_Resume.docx")%string
    /\ PyText.contains_char " " (stem ++ "_Resume.docx") = false
    /\ String.length stem = String.length name
    /\ (PyText.contains_char " " name = false -> stem = name).
Proof.
  intros Hname. exists (PyText.replace_char " " "_" name).
  unfold output_filename. rewrite Hname.
  split; [reflexivity|].
  split; [rewrite contains_char_app, replace_char_removes by reflexivity; reflexivity|].
  split; [apply replace_char_length|apply replace_char_absent].
Qed.

Lemma X8_output_filename_has_no_space_witness :
  exists stem,
    output_filename jane = Ok (stem ++ "_Resume.docx")%string
    /\ PyText.contains_char " " (stem ++ "_Resume.docx") = false
    /\ String.length stem = String.length "Jane Doe"
    /\ (PyText.contains_char " " "Jane Doe" = false -> stem = "Jane Doe"%string).
Proof.
  exact (X8_output_filename_has_no_space jane "Jane Doe" eq_refl).
Defined.

Lemma get_missing (personal_info : record) (key : string) (default : value) :
  mem_str key (keys personal_info) = false -> get personal_info key default = default.
Proof.
  induction personal_info as [|[k v] rest IH]; [reflexivity|].
  unfold mem_str, keys in *. cbn [map fst existsb get].
  rewrite orb_false_iff, String.eqb_sym. intros [-> Hrest]. exact (IH Hrest).
Qed.

(** X9. A record without the "Full Name" key still gives a document, when
    its education rows have four cells or more, the document library takes
    its texts and the file can be created: the name run of the header is
    empty, and the file is "Resume_Resume.docx". When that file cannot be
    created the run raises [OSError] and writes nothing. *)
Theorem X9_missing_name_defaults
    (caps : capabilities) (personal_info : record) (fs : gmap string file) :
  mem_str "Full Name" (keys personal_info) = false ->
  forallb education_wide personal_info = true ->
  texts_ok personal_info = true ->
  exists sections,
    dynamic_sections personal_info = Ok sections
    /\ let doc :=
         Header "" (contact_lines personal_info contact_keys) (Text "[No Photo]")
         :: spacer :: sections in
       generate_resume caps personal_info None fs
       = if can_create caps "Resume_Resume.docx"
         then (Ok doc, <["Resume_Resume.docx"%string := DocxFile doc]> fs)
         else (Err OSError, fs).
Proof.
  intros Hmissing Hwide Htexts.
  unfold texts_ok in Htexts. apply andb_true_iff in Htexts as [Hheader Hsections].
  assert (well_formed personal_info = true) as Hwf.
  { unfold well_formed. now rewrite (get_missing _ _ _ Hmissing), Hwide. }
  destruct (well_formed_run caps personal_info Hwf)
    as (name & sections & output & Hname & Hlayout & Hout & Hrun).
  rewrite (get_missing _ _ _ Hmissing) in Hname. injection Hname as <-.
  unfold output_filename in Hout. rewrite (get_missing _ _ _ Hmissing) in Hout.
  injection Hout as <-.
  exists sections. split; [exact Hlayout|]. cbv zeta.
  now rewrite Hrun, Hheader, Hsections, photo_cell_none.
Qed.

Lemma X9_missing_name_defaults_witness :
  exists sections,
    dynamic_sections skills_only = Ok sections
    /\ let doc :=
         Header "" (contact_lines skills_only contact_keys) (Text "[No Photo]")
         :: spacer :: sections in
       generate_resume (stub [] true) skills_only None ∅
       = if can_create (stub [] true) "Resume_Resume.docx"
         then (Ok doc, <["Resume_Resume.docx"%string := DocxFile doc]> ∅)
         else (Err OSError, ∅).
Proof.
  exact (X9_missing_name_defaults (stub [] true) skills_only ∅ eq_refl eq_refl eq_refl).
Defined.

(** ** Records as dictionaries *)

Lemma mem_str_In (key : string) (names : list string) :
  mem_str key names = true <-> In key names.
Proof.
  unfold mem_str. rewrite existsb_exists. split.
  - intros (name & Hin & Heq). apply String.eqb_eq in Heq. now subst.
  - intros Hin. exists key. split; [exact Hin|apply String.eqb_refl].
Qed.

Lemma In_keys (personal_info : record) (key : string) :
  In key (keys personal_info) -> exists v, In (key, v) personal_info.
Proof.
  unfold keys. rewrite in_map_iff. intros ([k v] & Hk & Hin). cbn in Hk. subst.
  now exists v.
Qed.

Lemma get_In (personal_info : record) (key : string) (v default : value) :
  distinct (keys personal_info) = true ->
  In (key, v) personal_info ->
  get personal_info key default = v.
Proof.
  induction personal_info as [|[k0 v0] rest IH]; [contradiction|].
  cbn [keys map fst distinct get]. rewrite andb_true_iff, negb_true_iff.
  intros [Hfresh Hrest] [[= -> ->]|Hin].
  - now rewrite String.eqb_refl.
  - destruct (String.eqb_spec k0 key) as [->|_]; [|exact (IH Hrest Hin)].
    assert (mem_str key (keys rest) = true) as Hmem.
    { apply mem_str_In. unfold keys. apply in_map_iff. now exists (key, v). }
    unfold keys in Hmem. congruence.
Qed.

Lemma get_permuted (r1 r2 : record) (key : string) (default : value) :
  Permutation r1 r2 ->
  distinct (keys r1) = true -> distinct (keys r2) = true ->
  get r1 key default = get r2 key default.
Proof.
  intros Hperm H1 H2.
  destruct (mem_str key (keys r1)) eqn:Hmem.
  - apply mem_str_In, In_keys in Hmem as [v Hin].
    rewrite (get_In r1 key v default H1 Hin).
    symmetry. apply get_In; [exact H2|].
    exact (Permutation_in _ Hperm Hin).
  - rewrite (get_missing _ _ _ Hmem). symmetry. apply get_missing.
    destruct (mem_str key (keys r2)) eqn:Hmem2; [|reflexivity].
    apply mem_str_In, In_keys in Hmem2 as [v Hin].
    apply (Permutation_in _ (Permutation_sym Hperm)) in Hin.
    assert (mem_str key (keys r1) = true) as Habs.
    { apply mem_str_In. unfold keys. apply in_map_iff. now exists (key, v). }
    congruence.
Qed.

(** X10. The header and the file name do not depend on the order of the
    fields: two records with the same fields (each key once) in different
    orders get the same name run, the same contact lines and the same file
    name. Only the sections follow the record's order. *)
Theorem X10_header_independent_of_field_order (r1 r2 : record) :
  Permutation r1 r2 ->
  distinct (keys r1) = true ->
  distinct (keys r2) = true ->
  (forall key default, get r1 key default = get r2 key default)
  /\ add_run (get r1 "Full Name" (VStr "")) = add_run (get r2 "Full Name" (VStr ""))
  /\ contact_lines r1 contact_keys = contact_lines r2 contact_keys
  /\ output_filename r1 = output_filename r2
  /\ add_contacts r1 contact_keys = add_contacts r2 contact_keys.
Proof.
  intros Hperm H1 H2.
  assert (forall key default, get r1 key default = get r2 key default) as Hget
    by (intros key default; now apply get_permuted).
  split; [exact Hget|]. split; [now rewrite Hget|].
  split; [apply contact_lines_agree; intros key _; apply Hget|].
  split; [unfold output_filename; now rewrite Hget|].
  apply add_contacts_agree. intros key _. apply Hget.
Qed.

Lemma X10_header_independent_of_field_order_witness :
  (forall key default,
     get (name_only ++ skills_only) key default
     = get (skills_only ++ name_only) key default)
  /\ add_run (get (name_only ++ skills_only) "Full Name" (VStr ""))
     = add_run (get (skills_only ++ name_only) "Full Name" (VStr ""))
  /\ contact_lines (name_only ++ skills_only) contact_keys
     = contact_lines (skills_only ++ name_only) contact_keys
  /\ output_filename (name_only ++ skills_only)
     = output_filename (skills_only ++ name_only)
  /\ add_contacts (name_only ++ skills_only) contact_keys
     = add_contacts (skills_only ++ name_only) contact_keys.
Proof.
  pose proof (X10_header_independent_of_field_order
                (name_only ++ skills_only) (skills_only ++ name_only)
                (Permutation_app_comm name_only skills_only) eq_refl eq_refl) as Hsame.
  exact Hsame.
Defined.

(** ** White space *)

Lemma append_cons (a : ascii) (s t : string) :
  (String a s ++ t)%string = String a (s ++ t).
Proof. reflexivity. Qed.

Lemma append_empty (s : string) : (s ++ "")%string = s.
Proof.
  induction s as [|a s IH]; [reflexivity|]. now rewrite append_cons, IH.
Qed.

Lemma append_assoc (s t u : string) : ((s ++ t) ++ u)%string = (s ++ (t ++ u))%string.
Proof.
  induction s as [|a s IH]; [reflexivity|]. now rewrite !append_cons, IH.
Qed.

Lemma reverse_onto_app (s acc : string) :
  PyText.reverse_onto s acc = (PyText.reverse s ++ acc)%string.
Proof.
  unfold PyText.reverse. revert acc.
  induction s as [|a s IH]; intros acc; [reflexivity|].
  cbn [PyText.reverse_onto]. rewrite (IH (String a acc)), (IH (String a EmptyString)).
  rewrite append_assoc. reflexivity.
Qed.

Lemma reverse_app (s t : string) :
  PyText.reverse (s ++ t) = (PyText.reverse t ++ PyText.reverse s)%string.
Proof.
  induction s as [|a s IH].
  - cbn. now rewrite append_empty.
  - change (PyText.reverse (String a s ++ t))
      with (PyText.reverse_onto (s ++ t) (String a EmptyString)).
    change (PyText.reverse (String a s))
      with (PyText.reverse_onto s (String a EmptyString)).
    rewrite !reverse_onto_app, IH, append_assoc. reflexivity.
Qed.

Lemma reverse_involutive (s : string) : PyText.reverse (PyText.reverse s) = s.
Proof.
  induction s as [|a s IH]; [reflexivity|].
  change (PyText.reverse (String a s))
    with (PyText.reverse_onto s (String a EmptyString)).
  rewrite reverse_onto_app, reverse_app, IH. reflexivity.
Qed.

Lemma starts_with_app (mark s t : string) :
  PyText.starts_with mark s = true -> PyText.starts_with mark (s ++ t) = true.
Proof.
  revert s. induction mark as [|k mark IH]; intros s; [reflexivity|].
  destruct s as [|a s]; [discriminate|].
  rewrite append_cons. cbn [PyText.starts_with]. rewrite !andb_true_iff.
  intros [Hk Hrest]. split; [exact Hk|exact (IH _ Hrest)].
Qed.

Lemma starts_with_any_app (marks : list string) (s t : string) :
  starts_with_any marks s = true -> starts_with_any marks (s ++ t) = true.
Proof.
  unfold starts_with_any. rewrite !existsb_exists.
  intros (mark & Hin & Hmark). exists mark. split; [exact Hin|].
  exact (starts_with_app _ _ _ Hmark).
Qed.

Lemma find_starts_with_any (marks : list string) (s : string) :
  List.find (fun mark => PyText.starts_with mark s) marks = None
  <-> starts_with_any marks s = false.
Proof.
  unfold starts_with_any. induction marks as [|mark marks IH]; [easy|].
  cbn [List.find existsb]. destruct (PyText.starts_with mark s); [easy|exact IH].
Qed.

(** What is left starts with none of the characters removed. *)
Lemma drop_leading_clean (marks : list string) (s : string) (skip : nat) :
  starts_with_any marks EmptyString = false ->
  starts_with_any marks (drop_leading marks skip s) = false.
Proof.
  intros Hempty. revert skip. induction s as [|a s IH]; intros skip; [exact Hempty|].
  cbn [drop_leading]. destruct skip as [|k]; [|apply IH].
  destruct (List.find _ marks) as [mark|] eqn:Hfind; [apply IH|].
  now apply find_starts_with_any.
Qed.

(** What is left is an end of the text. *)
Lemma drop_leading_suffix (marks : list string) (s : string) (skip : nat) :
  exists removed, s = (removed ++ drop_leading marks skip s)%string.
Proof.
  revert skip. induction s as [|a s IH]; intros skip; [now exists EmptyString|].
  cbn [drop_leading]. destruct skip as [|k].
  - destruct (List.find _ marks) as [mark|]; [|now exists EmptyString].
    destruct (IH (String.length mark - 1)%nat) as (removed & Hrest).
    exists (String a removed). rewrite append_cons. now rewrite <- Hrest.
  - destruct (IH k) as (removed & Hrest).
    exists (String a removed). rewrite append_cons. now rewrite <- Hrest.
Qed.

(** A text that starts with none of the characters is left as it is. *)
Lemma drop_leading_kept (marks : list string) (s : string) :
  starts_with_any marks s = false -> drop_leading marks 0 s = s.
Proof.
  intros Hclean. destruct s as [|a s]; [reflexivity|].
  cbn [drop_leading]. now rewrite (proj2 (find_starts_with_any _ _) Hclean).
Qed.

(** [rstrip] keeps a beginning of the text. *)
Lemma rstrip_prefix (s : string) : exists removed, s = (rstrip s ++ removed)%string.
Proof.
  unfold rstrip.
  destruct (drop_leading_suffix (map PyText.reverse whitespace) (PyText.reverse s) 0)
    as (removed & Hrest).
  exists (PyText.reverse removed).
  rewrite <- reverse_app, <- Hrest. symmetry. apply reverse_involutive.
Qed.

(** [strip] leaves no white space at either end, and leaves a text without
    white space at its ends as it is. *)
Lemma strip_trimmed (s : string) : trimmed (strip s) = true.
Proof.
  unfold trimmed, strip. apply andb_true_iff. split; apply negb_true_iff.
  - destruct (starts_with_any whitespace (rstrip (lstrip s))) eqn:Hstart; [|reflexivity].
    destruct (rstrip_prefix (lstrip s)) as (removed & Hprefix).
    apply (starts_with_any_app _ _ removed) in Hstart. rewrite <- Hprefix in Hstart.
    unfold lstrip in Hstart.
    now rewrite (drop_leading_clean whitespace s 0 eq_refl) in Hstart.
  - unfold rstrip. rewrite reverse_involutive.
    apply drop_leading_clean. reflexivity.
Qed.

Lemma strip_of_trimmed (s : string) : trimmed s = true -> strip s = s.
Proof.
  unfold trimmed, strip, lstrip, rstrip.
  rewrite andb_true_iff, !negb_true_iff. intros [Hstart Hend].
  rewrite (drop_leading_kept _ _ Hstart), (drop_leading_kept _ _ Hend).
  apply reverse_involutive.
Qed.

(** Python removes the no-break space and the ideographic space, too. *)
Lemma strip_beyond_ascii :
  strip (PyText.of_codes [194; 160]%nat ++ " Jane Doe" ++ PyText.of_codes [227; 128; 128]%nat)
  = "Jane Doe"%string
  /\ blank (PyText.of_codes [227; 128; 128; 194; 133; 9]%nat) = true.
Proof. split; vm_compute; reflexivity. Qed.

(** ** The answers typed at the console *)

(** What an answer becomes: "NA", or the answer without the white space
    around it. *)
Lemma or_NA_strip (line : string) :
  or_NA (strip line) = (if blank line then VStr "NA" else VStr (strip line))
  /\ filled_or_NA (or_NA (strip line)) = true.
Proof.
  unfold or_NA, blank.
  destruct (strip line) as [|a rest] eqn:Hstrip; cbn [is_empty]; split; try reflexivity.
  unfold filled_or_NA, present. cbn [truthy andb].
  now destruct (eq_NA (VStr (String a rest))).
Qed.

Lemma dict_set_fresh (data : record) (key : string) (v : value) :
  mem_str key (keys data) = false -> dict_set data key v = data ++ [(key, v)].
Proof.
  induction data as [|[k old] rest IH]; [reflexivity|].
  unfold mem_str, keys in *. cbn [map fst existsb dict_set app].
  rewrite orb_false_iff, String.eqb_sym. intros [-> Hrest]. now rewrite (IH Hrest).
Qed.

Lemma dict_set_present (data : record) (key : string) (v : value) :
  keys (dict_set data key v)
  = if mem_str key (keys data) then keys data else keys data ++ [key].
Proof.
  induction data as [|[k old] rest IH]; [reflexivity|].
  unfold mem_str, keys in *. cbn [map fst existsb dict_set].
  rewrite (String.eqb_sym key k).
  destruct (String.eqb_spec k key) as [->|_]; cbn [orb map fst]; [reflexivity|].
  rewrite IH. now destruct (existsb (String.eqb key) (map fst rest)).
Qed.

(** The loop over a list of fresh field names appends one answered field
    per name, if there are lines enough. *)
Lemma ask_fields_fresh (fields : list string) :
  forall (data : record) (stdin : list string),
    distinct fields = true ->
    forallb (fun field => negb (mem_str field (keys data))) fields = true ->
    ask_fields fields data stdin
    = if (length stdin <? length fields)%nat then None
      else Some (data ++ map answered (combine fields stdin),
                 drop (length fields) stdin).
Proof.
  induction fields as [|field fields IH]; intros data stdin Hdistinct Hfresh.
  - cbn. now rewrite app_nil_r, drop_0.
  - cbn [distinct forallb] in Hdistinct, Hfresh.
    apply andb_true_iff in Hdistinct as [Hfield Hdistinct].
    apply andb_true_iff in Hfresh as [Hnew Hfresh].
    apply negb_true_iff in Hfield, Hnew.
    destruct stdin as [|line stdin]; [reflexivity|].
    cbn [ask_fields console_bind input]. rewrite (dict_set_fresh _ _ _ Hnew).
    rewrite IH; [|exact Hdistinct|].
    + cbn [length combine map drop answered fst snd].
      change (S (length stdin) <? S (length fields))%nat
        with (length stdin <? length fields)%nat.
      destruct (length stdin <? length fields)%nat; [reflexivity|].
      now rewrite <- app_assoc.
    + rewrite forallb_forall in *. intros f Hin.
      apply negb_true_iff. specialize (Hfresh f Hin). apply negb_true_iff in Hfresh.
      assert (mem_str f fields = true) as Hmem by now apply mem_str_In.
      unfold mem_str, keys in *. rewrite map_app, existsb_app, Hfresh.
      cbn [map fst existsb orb]. rewrite orb_false_r.
      destruct (String.eqb_spec f field) as [->|]; [congruence|reflexivity].
Qed.

Lemma combine_same_length {A B : Type} (l : list A) (l1 l2 : list B) :
  length l = length l1 -> combine l (l1 ++ l2) = combine l l1.
Proof.
  revert l1. induction l as [|x l IH]; intros [|y l1]; try discriminate; [reflexivity|].
  cbn. intros [= Hlen]. now rewrite IH.
Qed.

Lemma combine_take {A B : Type} (l : list A) (lines : list B) :
  combine l lines = combine l (take (length l) lines).
Proof.
  revert lines. induction l as [|x l IH]; intros [|y lines]; try reflexivity.
  cbn. now rewrite <- IH.
Qed.

Lemma keys_answered (fields lines : list string) :
  length fields = length lines -> keys (map answered (combine fields lines)) = fields.
Proof.
  revert lines. induction fields as [|f fields IH]; intros [|line lines];
    try discriminate; [reflexivity|].
  cbn. intros [= Hlen]. unfold keys in IH. now rewrite IH.
Qed.

(** The education loop reads whole rounds up to the first blank degree. *)
Lemma ask_education_rounds (rounds : list (string * string * string * string)) :
  forall (acc : list (list string)) (blank_line : string) (rest : list string),
    forallb (fun round => negb (blank (round_degree round))) rounds = true ->
    blank blank_line = true ->
    ask_education acc (concat (map round_lines rounds) ++ blank_line :: rest)
    = Some (acc ++ map round_row rounds, rest).
Proof.
  induction rounds as [|[[[degree school] year] grade] rounds IH];
    intros acc blank_line rest Hrounds Hblank.
  - cbn [map concat app ask_education].
    change (is_empty (strip blank_line)) with (blank blank_line).
    rewrite Hblank. now rewrite app_nil_r.
  - cbn [forallb round_degree] in Hrounds.
    apply andb_true_iff in Hrounds as [Hdegree Hrounds].
    apply negb_true_iff in Hdegree.
    cbn [map concat round_lines app ask_education].
    change (is_empty (strip degree)) with (blank degree). rewrite Hdegree.
    rewrite (IH _ blank_line rest Hrounds Hblank). cbn [round_row].
    now rewrite <- app_assoc.
Qed.

Lemma ask_education_inv (n : nat) :
  forall (stdin : list string) (acc rows : list (list string)) (rest : list string),
    (length stdin <= n)%nat ->
    ask_education acc stdin = Some (rows, rest) ->
    exists rounds blank_line,
      stdin = concat (map round_lines rounds) ++ blank_line :: rest
      /\ rows = acc ++ map round_row rounds
      /\ forallb (fun round => negb (blank (round_degree round))) rounds = true
      /\ blank blank_line = true.
Proof.
  induction n as [|n IH]; intros stdin acc rows rest Hlen.
  - destruct stdin; [discriminate|cbn in Hlen; lia].
  - destruct stdin as [|line stdin]; [discriminate|].
    cbn [ask_education]. change (is_empty (strip line)) with (blank line).
    destruct (blank line) eqn:Hline.
    + intros [= <- <-]. exists [], line. cbn. now rewrite app_nil_r.
    + destruct stdin as [|school [|year [|grade stdin]]]; try discriminate.
      intros Hrun. apply IH in Hrun; [|cbn in Hlen |- *; lia].
      destruct Hrun as (rounds & blank_line & -> & -> & Hrounds & Hblank).
      exists ((line, school, year, grade) :: rounds), blank_line.
      cbn [map concat round_lines round_row round_degree forallb app].
      rewrite Hline, Hrounds, <- app_assoc. repeat split; try reflexivity. exact Hblank.
Qed.

(** [collect], step by step. *)
Lemma collect_steps (stdin : list string) :
  collect stdin
  = match ask_fields standard_fields [] stdin with
    | None => None
    | Some (data, s1) =>
        match ask_education [] s1 with
        | None => None
        | Some (education_list, s2) =>
            match ask_fields text_fields
                    (dict_set data "Education" (education_or_NA education_list)) s2 with
            | None => None
            | Some (data', s3) =>
                match s3 with
                | [] => None
                | line :: s4 => Some ((data', photo_path_of (strip line)), s4)
                end
            end
        end
    end.
Proof.
  unfold collect, console_bind, console_ret, input.
  destruct (ask_fields standard_fields [] stdin) as [[data s1]|]; [|reflexivity].
  destruct (ask_education [] s1) as [[education_list s2]|]; [|reflexivity].
  destruct (ask_fields text_fields _ s2) as [[data' s3]|]; [|reflexivity].
  now destruct s3.
Qed.

(** What [collect] does on any input: [EOFError] unless the input starts
    with a whole session, and then the record of that session. *)
Lemma collect_inv (stdin : list string) (data : record) (photo_path : option string)
    (rest : list string) :
  collect stdin = Some ((data, photo_path), rest) ->
  exists standard rounds blank_line texts photo_line,
    length standard = 6%nat /\ length texts = 3%nat
    /\ forallb (fun round => negb (blank (round_degree round))) rounds = true
    /\ blank blank_line = true
    /\ stdin = session standard rounds blank_line texts photo_line ++ rest
    /\ data = session_record standard rounds texts
    /\ photo_path = photo_path_of (strip photo_line).
Proof.
  rewrite collect_steps.
  rewrite (ask_fields_fresh standard_fields [] stdin eq_refl eq_refl).
  change (length standard_fields) with 6%nat.
  destruct (Nat.ltb_spec (length stdin) 6) as [|Hstd]; [discriminate|].
  cbn [app].
  destruct (ask_education [] (drop 6 stdin)) as [[education_list s2]|] eqn:Hedu;
    [|discriminate].
  apply (ask_education_inv _ _ _ _ _ (Nat.le_refl _)) in Hedu
    as (rounds & blank_line & Hs1 & -> & Hrounds & Hblank).
  cbn [app] in *.
  assert (length standard_fields = length (take 6 stdin)) as Hlen6.
  { rewrite length_take. change (length standard_fields) with 6%nat. lia. }
  rewrite (combine_take standard_fields stdin).
  change (length standard_fields) with 6%nat.
  set (standard := take 6 stdin) in *.
  rewrite dict_set_fresh
    by (rewrite (keys_answered _ _ Hlen6); reflexivity).
  rewrite ask_fields_fresh; [|reflexivity|].
  2:{ unfold keys. rewrite map_app.
      fold (keys (map answered (combine standard_fields standard))).
      rewrite (keys_answered _ _ Hlen6). reflexivity. }
  change (length text_fields) with 3%nat.
  destruct (Nat.ltb_spec (length s2) 3) as [|Htxt]; [discriminate|].
  destruct (drop 3 s2) as [|photo_line s4] eqn:Hs3; [discriminate|].
  set (c1 := combine standard_fields standard).
  set (c2 := combine text_fields s2).
  intros [= <- <- <-]. subst c1 c2.
  exists standard, rounds, blank_line, (take 3 s2), photo_line.
  split; [subst standard; rewrite length_take; lia|].
  split; [rewrite length_take; lia|].
  split; [exact Hrounds|]. split; [exact Hblank|].
  split.
  - unfold session. rewrite <- (take_drop 6 stdin) at 1.
    fold standard. rewrite Hs1. rewrite <- (take_drop 3 s2) at 1.
    rewrite Hs3. rewrite <- !app_assoc. cbn [app]. rewrite <- !app_assoc. reflexivity.
  - split; [|reflexivity]. unfold session_record.
    rewrite (combine_take text_fields s2). rewrite <- app_assoc. reflexivity.
Qed.

Lemma collect_session (standard : list string)
    (rounds : list (string * string * string * string)) (blank_line : string)
    (texts : list string) (photo_line : string) (rest : list string) :
  length standard = 6%nat ->
  length texts = 3%nat ->
  forallb (fun round => negb (blank (round_degree round))) rounds = true ->
  blank blank_line = true ->
  collect (session standard rounds blank_line texts photo_line ++ rest)
  = Some ((session_record standard rounds texts, photo_path_of (strip photo_line)), rest).
Proof.
  intros Hstd Htxt Hrounds Hblank.
  assert (length standard_fields = length standard) as Hlen6 by now rewrite Hstd.
  assert (length text_fields = length texts) as Hlen3 by now rewrite Htxt.
  rewrite collect_steps. unfold session.
  rewrite <- !app_assoc. cbn [app]. rewrite <- !app_assoc. cbn [app].
  rewrite (ask_fields_fresh standard_fields [] _ eq_refl eq_refl).
  rewrite length_app, (combine_same_length _ _ _ Hlen6), Hlen6, drop_app_length.
  destruct (Nat.ltb_spec (length standard + length
              (concat (map round_lines rounds) ++ blank_line :: texts ++ photo_line :: rest))
              (length standard)) as [Habs|_]; [lia|].
  cbn [app]. rewrite (ask_education_rounds rounds [] blank_line _ Hrounds Hblank).
  cbn [app].
  rewrite dict_set_fresh by (rewrite (keys_answered _ _ Hlen6); reflexivity).
  rewrite ask_fields_fresh; [|reflexivity|].
  2:{ unfold keys. rewrite map_app.
      fold (keys (map answered (combine standard_fields standard))).
      rewrite (keys_answered _ _ Hlen6). reflexivity. }
  rewrite length_app, (combine_same_length _ _ _ Hlen3), Hlen3, drop_app_length.
  destruct (Nat.ltb_spec (length texts + length (photo_line :: rest)) (length texts))
    as [Habs|_]; [lia|].
  unfold session_record. now rewrite <- app_assoc.
Qed.

(** X11. A console session that answers the six standard questions, any
    number of education rounds (four answers each, the degree not blank), a
    blank degree, the three text questions and the photo question is read
    into the record of those answers: each answer without the white space
    around it, "NA" for an answer left blank, the fields in the order asked,
    the education rows in the order typed; the lines after the session are
    left unread. An answer is blank when nothing is left of it once the
    white space around it is removed, the white space beyond ASCII
    included. *)
Theorem X11_session_becomes_record
    (standard : list string) (rounds : list (string * string * string * string))
    (blank_line : string) (texts : list string) (photo_line : string)
    (rest : list string) :
  length standard = 6%nat ->
  length texts = 3%nat ->
  forallb (fun round => negb (blank (round_degree round))) rounds = true ->
  blank blank_line = true ->
  collect (session standard rounds blank_line texts photo_line ++ rest)
  = Some ((map answered (combine standard_fields standard)
           ++ ("Education"%string, education_or_NA (map round_row rounds))
           :: map answered (combine text_fields texts),
           photo_path_of (strip photo_line)),
          rest).
Proof. apply collect_session. Qed.

Lemma X11_session_becomes_record_witness :
  collect (session ["Jane Doe"; " jane@x.com "; ""; ""; ""; "To build"]%string
             [("B.Tech", " State U", "2020", "8.5")]%string
             (PyText.of_codes [227; 128; 128]%nat)
             [""; "Go"; ""]%string "me.jpg" ++ ["unread"]%string)
  = Some ((map answered
             (combine standard_fields
                ["Jane Doe"; " jane@x.com "; ""; ""; ""; "To build"]%string)
           ++ ("Education"%string,
               education_or_NA (map round_row [("B.Tech", " State U", "2020", "8.5")]%string))
           :: map answered (combine text_fields [""; "Go"; ""]%string),
           photo_path_of (strip "me.jpg")),
          ["unread"]%string).
Proof.
  exact (X11_session_becomes_record
           ["Jane Doe"; " jane@x.com "; ""; ""; ""; "To build"]%string
           [("B.Tech", " State U", "2020", "8.5")]%string
           (PyText.of_codes [227; 128; 128]%nat)
           [""; "Go"; ""]%string "me.jpg" ["unread"]%string
           eq_refl eq_refl eq_refl eq_refl).
Defined.

Lemma or_NA_text (s : string) : exists t, or_NA s = VStr t.
Proof. unfold or_NA. destruct (is_empty s); eauto. Qed.

Lemma education_rows_of_four (rounds : list (string * string * string * string)) :
  rows_of_four (map round_row rounds) = true.
Proof.
  induction rounds as [|[[[degree school] year] grade] rounds IH]; [reflexivity|].
  exact IH.
Qed.

Lemma education_filled (rounds : list (string * string * string * string)) :
  filled_or_NA (education_or_NA (map round_row rounds)) = true.
Proof. now destruct rounds. Qed.

Lemma answered_filled (pairs : list (string * string)) :
  forallb (fun field => filled_or_NA (snd field)) (map answered pairs) = true.
Proof.
  induction pairs as [|[field line] pairs IH]; [reflexivity|].
  cbn [map forallb answered fst snd]. now rewrite (proj2 (or_NA_strip line)), IH.
Qed.

Lemma answered_wide (pairs : list (string * string)) :
  forallb education_wide (map answered pairs) = true.
Proof.
  induction pairs as [|[field line] pairs IH]; [reflexivity|].
  cbn [map forallb]. unfold answered at 1. cbn [fst snd].
  destruct (or_NA_text (strip line)) as [t ->]. exact IH.
Qed.

Lemma length_concat_rounds (rounds : list (string * string * string * string)) :
  length (concat (map round_lines rounds)) = (4 * length rounds)%nat.
Proof.
  induction rounds as [|[[[degree school] year] grade] rounds IH]; [reflexivity|].
  cbn [map concat round_lines app length]. rewrite IH. lia.
Qed.

(** What holds of every record [collect] returns. *)
Lemma collect_invariants (stdin : list string) (data : record)
    (photo_path : option string) (rest : list string) :
  collect stdin = Some ((data, photo_path), rest) ->
  keys data = main_keys
  /\ well_formed data = true
  /\ forallb (fun field => filled_or_NA (snd field)) data = true
  /\ exists rows,
       get data "Education" (VStr "") = education_or_NA rows
       /\ rows_of_four rows = true
       /\ length stdin = (11 + 4 * length rows + length rest)%nat.
Proof.
  intros Hrun. apply collect_inv in Hrun
    as (standard & rounds & blank_line & texts & photo_line
        & Hstd & Htxt & Hrounds & Hblank & -> & -> & ->).
  assert (length standard_fields = length standard) as Hlen6 by now rewrite Hstd.
  assert (length text_fields = length texts) as Hlen3 by now rewrite Htxt.
  unfold session_record.
  assert (keys (map answered (combine standard_fields standard)
                ++ ("Education"%string, education_or_NA (map round_row rounds))
                :: map answered (combine text_fields texts)) = main_keys) as Hkeys.
  { unfold keys. rewrite map_app. cbn [map fst].
    fold (keys (map answered (combine standard_fields standard))).
    fold (keys (map answered (combine text_fields texts))).
    now rewrite (keys_answered _ _ Hlen6), (keys_answered _ _ Hlen3). }
  split; [exact Hkeys|]. split; [|split].
  - unfold well_formed. rewrite forallb_app. cbn [forallb].
    rewrite !answered_wide. cbn [andb education_wide].
    assert (negb ("Education" =? "Education")%string
            || rows_wide match education_or_NA (map round_row rounds) with
                         | VList rows => rows | VStr _ => [] end = true) as Hedu.
    { destruct rounds; [reflexivity|]. cbn [education_or_NA map].
      apply rows_of_four_wide. exact (education_rows_of_four (_ :: _)). }
    destruct standard as [|name standard]; [discriminate Hstd|].
    cbn [combine standard_fields map answered fst snd app get].
    cbn [String.eqb Ascii.eqb Bool.eqb].
    destruct (or_NA_text (strip name)) as [t ->]. cbn [is_text is_list negb andb].
    destruct (education_or_NA (map round_row rounds)); [reflexivity|].
    cbn in Hedu |- *. now rewrite Hedu.
  - rewrite forallb_app. cbn [forallb snd].
    now rewrite !answered_filled, education_filled.
  - exists (map round_row rounds). split; [|split].
    + destruct standard as [|a1 [|a2 [|a3 [|a4 [|a5 [|a6 [|]]]]]]]; try discriminate Hstd.
      reflexivity.
    + apply education_rows_of_four.
    + unfold session. rewrite !length_app, length_concat_rounds. cbn [length].
      rewrite !length_app, length_map, Hstd, Htxt. cbn [length]. lia.
Qed.

(** X12. Every record [main] builds has the same ten keys in the same order;
    each value is the "NA" marker or is non-empty, so no field is ever empty;
    the name is text and the education value is "NA" or rows of exactly four
    cells: the record is one the assembler accepts. *)
Theorem X12_collected_record_is_well_formed (stdin : list string) :
  match collect stdin with
  | None => True
  | Some ((data, _), _) =>
      keys data = main_keys
      /\ well_formed data = true
      /\ forallb (fun field => filled_or_NA (snd field)) data = true
      /\ exists rows,
           get data "Education" (VStr "") = education_or_NA rows
           /\ rows_of_four rows = true
  end.
Proof.
  destruct (collect stdin) as [[[data photo_path] rest]|] eqn:Hrun; [|exact I].
  destruct (collect_invariants _ _ _ _ Hrun) as (Hkeys & Hwf & Hfilled & rows & Hedu & Hfour & _).
  repeat split; try assumption. exists rows. split; assumption.
Qed.

(** X13. [main] reads eleven lines and four more for each education row;
    an input that ends before the eleventh line makes it raise [EOFError]
    before any file is touched. *)
Theorem X13_short_input_raises_eof
    (caps : capabilities) (stdin : list string) (fs : gmap string file) :
  match collect stdin with
  | Some ((data, _), rest) =>
      exists rows,
        get data "Education" (VStr "") = education_or_NA rows
        /\ length stdin = (11 + 4 * length rows + length rest)%nat
  | None => main caps stdin fs = (EOFError, fs)
  end
  /\ ((length stdin <? 11)%nat = true -> main caps stdin fs = (EOFError, fs)).
Proof.
  assert (match collect stdin with
          | Some ((data, _), rest) =>
              exists rows,
                get data "Education" (VStr "") = education_or_NA rows
                /\ length stdin = (11 + 4 * length rows + length rest)%nat
          | None => main caps stdin fs = (EOFError, fs)
          end) as Hcount.
  { unfold main.
    destruct (collect stdin) as [[[data photo_path] rest]|] eqn:Hrun; [|reflexivity].
    destruct (collect_invariants _ _ _ _ Hrun) as (_ & _ & _ & rows & Hedu & _ & Hlen).
    exists rows. split; assumption. }
  split; [exact Hcount|].
  intros Hshort. apply Nat.ltb_lt in Hshort. unfold main in *.
  destruct (collect stdin) as [[[data photo_path] rest]|]; [|reflexivity].
  destruct Hcount as (rows & _ & Hlen). lia.
Qed.

Lemma X13_short_input_raises_eof_witness :
  main (stub [] true) ["Jane Doe"; "jane@x.com"]%string ∅ = (EOFError, ∅).
Proof.
  exact (proj2 (X13_short_input_raises_eof (stub [] true)
                  ["Jane Doe"; "jane@x.com"]%string ∅) eq_refl).
Defined.

(** ** The whole run *)

(** How the run on a well-formed record ends. *)
Lemma well_formed_outcomes (caps : capabilities) (personal_info : record)
    (photo_path : option string) (fs : gmap string file) :
  well_formed personal_info = true ->
  match generate_resume caps personal_info photo_path fs with
  | (Ok doc, fs') =>
      texts_ok personal_info = true
      /\ exists output,
           output_filename personal_info = Ok output
           /\ can_create caps output = true
           /\ fs' !! output = Some (DocxFile doc)
  | (Err e, fs') =>
      (e = ValueError /\ texts_ok personal_info = false
       /\ (fs' = fs \/ fs' = delete processed_photo fs))
      \/ (e = Cv2Error /\ fs' = fs)
      \/ (e = OSError /\ texts_ok personal_info = true
          /\ (fs' = fs \/ fs' = delete processed_photo fs)
          /\ exists output,
               output_filename personal_info = Ok output
               /\ can_create caps output = false)
  end.
Proof.
  intros Hwf.
  destruct (well_formed_run caps personal_info Hwf)
    as (name & sections & output & _ & _ & Hout & Hrun).
  rewrite Hrun. unfold texts_ok.
  destruct (header_ok personal_info); cbn [andb];
    [|left; split; [reflexivity|split; [reflexivity|now left]]].
  pose proof (photo_cell_cases caps photo_path fs) as Hcell.
  assert (snd (photo_cell caps photo_path fs) = fs
          \/ snd (photo_cell caps photo_path fs) = delete processed_photo fs) as Hfs
    by (destruct (photo_cell_transient caps photo_path fs); [now right|now left]).
  destruct (photo_cell caps photo_path fs) as [[photo|e] fs1]; cbn [snd] in Hfs.
  - destruct (sections_ok personal_info);
      [|left; split; [reflexivity|split; [reflexivity|exact Hfs]]].
    cbv zeta. destruct (can_create caps output) eqn:Hcreate.
    + split; [reflexivity|]. exists output.
      split; [exact Hout|]. split; [exact Hcreate|apply lookup_insert_eq].
    + right. right. split; [reflexivity|]. split; [reflexivity|].
      split; [exact Hfs|]. exists output. split; assumption.
  - destruct Hcell as (-> & ->). right. left. split; reflexivity.
Qed.



(** X15. [main] ends in one of five ways: [EOFError] before any file is
    touched; the document saved; [ValueError], when the document library
    refuses a text that was typed; the error of [cv2.resize] with the disk
    as before; or [OSError], when the file of the document cannot be
    created. The records it builds never make the assembler raise
    [IndexError], [TypeError] or [AttributeError]. *)
Theorem X15_main_outcomes
    (caps : capabilities) (stdin : list string) (fs : gmap string file) :
  match main caps stdin fs with
  | (EOFError, fs') => fs' = fs
  | (Returned (Ok doc), fs') =>
      exists output, can_create caps output = true /\ fs' !! output = Some (DocxFile doc)
  | (Returned (Err e), fs') =>
      (e = ValueError /\ (fs' = fs \/ fs' = delete processed_photo fs))
      \/ (e = Cv2Error /\ fs' = fs)
      \/ (e = OSError /\ (fs' = fs \/ fs' = delete processed_photo fs)
          /\ exists output, can_create caps output = false)
  end.
Proof.
  unfold main.
  destruct (collect stdin) as [[[data photo_path] rest]|] eqn:Hrun; [|reflexivity].
  destruct (collect_invariants _ _ _ _ Hrun) as (_ & Hwf & _).
  pose proof (well_formed_outcomes caps data photo_path fs Hwf) as Hends.
  destruct (generate_resume caps data photo_path fs) as [[doc|e] fs1].
  - destruct Hends as (_ & output & _ & Hcreate & Hsaved). now exists output.
  - destruct Hends as [(-> & _ & Hfs)|[(-> & ->)|(-> & _ & Hfs & output & _ & Hcreate)]].
    + left. now split.
    + right. left. now split.
    + right. right. split; [reflexivity|]. split; [exact Hfs|now exists output].
Qed.

Lemma photo_cell_blank (caps : capabilities) (photo_line : string) (fs : gmap string file) :
  String.eqb (lower (strip photo_line)) "na" || blank photo_line = true ->
  photo_cell caps (photo_path_of (strip photo_line)) fs = (Ok (Text no_photo_text), fs).
Proof.
  unfold photo_path_of, blank. intros Hline.
  destruct (String.eqb (lower (strip photo_line)) "na"); [reflexivity|].
  cbn [orb] in Hline. now destruct (strip photo_line).
Qed.

(** X16. When the photo question is answered with "NA" in any letter case,
    or left blank, a whole session whose answers the document library takes
    ends with the document saved: the header's right column holds the text
    "[No Photo]" and the document is the only file written. When the file
    of the document cannot be created, the session ends in [OSError] with
    the disk as it was. *)
Theorem X16_no_photo_session_completes
    (caps : capabilities) (standard : list string)
    (rounds : list (string * string * string * string)) (blank_line : string)
    (texts : list string) (photo_line : string) (rest : list string)
    (fs : gmap string file) :
  length standard = 6%nat ->
  length texts = 3%nat ->
  forallb (fun round => negb (blank (round_degree round))) rounds = true ->
  blank blank_line = true ->
  String.eqb (lower (strip photo_line)) "na" || blank photo_line = true ->
  texts_ok (session_record standard rounds texts) = true ->
  exists name sections output,
    let data := session_record standard rounds texts in
    let doc :=
      Header name (contact_lines data contact_keys) (Text "[No Photo]")
      :: spacer :: sections in
    output_filename data = Ok output
    /\ main caps (session standard rounds blank_line texts photo_line ++ rest) fs
       = if can_create caps output
         then (Returned (Ok doc), <[output := DocxFile doc]> fs)
         else (Returned (Err OSError), fs).
Proof.
  intros Hstd Htxt Hrounds Hblank Hphoto Htexts.
  unfold texts_ok in Htexts. apply andb_true_iff in Htexts as [Hheader Hsections].
  pose proof (collect_session standard rounds blank_line texts photo_line rest
                Hstd Htxt Hrounds Hblank) as Hrun.
  destruct (collect_invariants _ _ _ _ Hrun) as (_ & Hwf & _).
  destruct (well_formed_run caps _ Hwf)
    as (name & sections & output & _ & _ & Hout & Hends).
  exists name, sections, output. cbv zeta. split; [exact Hout|].
  unfold main. rewrite Hrun.
  rewrite Hends, Hheader, Hsections, (photo_cell_blank caps _ _ Hphoto).
  now destruct (can_create caps output).
Qed.

Lemma X16_no_photo_session_completes_witness :
  exists name sections output,
    let data :=
      session_record ["Jane Doe"; "jane@x.com"; ""; ""; ""; ""]%string []
        [""; "Go"; ""]%string in
    let doc :=
      Header name (contact_lines data contact_keys) (Text "[No Photo]")
      :: spacer :: sections in
    output_filename data = Ok output
    /\ main (stub [] true)
         (session ["Jane Doe"; "jane@x.com"; ""; ""; ""; ""]%string [] ""
            [""; "Go"; ""]%string " Na " ++ []) ∅
       = if can_create (stub [] true) output
         then (Returned (Ok doc), <[output := DocxFile doc]> ∅)
         else (Returned (Err OSError), ∅).
Proof.
  exact (X16_no_photo_session_completes (stub [] true)
           ["Jane Doe"; "jane@x.com"; ""; ""; ""; ""]%string [] ""
           [""; "Go"; ""]%string " Na " [] ∅
           eq_refl eq_refl eq_refl eq_refl eq_refl eq_refl).
Defined.

Lemma get_forallb (P : value -> bool) (data : record) (key : string) (default : value) :
  forallb (fun field => P (snd field)) data = true ->
  P default = true ->
  P (get data key default) = true.
Proof.
  intros Hdata Hdefault. induction data as [|[k v] rest IH]; [exact Hdefault|].
  cbn [forallb snd get] in *. apply andb_true_iff in Hdata as [Hv Hrest].
  destruct (String.eqb k key); [exact Hv|exact (IH Hrest)].
Qed.

Lemma filled_NA_test (v : value) :
  filled_or_NA v = true -> negb (eq_NA v) = present v.
Proof.
  unfold filled_or_NA, present.
  destruct (eq_NA v), (truthy v); cbn; congruence.
Qed.

(** X17. On the records [main] builds, the header holds a contact line
    exactly for the contact fields that pass the presence test, in the order
    Email, Phone, Address, LinkedIn, and no contact line is blank. *)
Theorem X17_collected_contacts_are_present (stdin : list string) :
  match collect stdin with
  | None => True
  | Some ((data, _), _) =>
      contact_lines data contact_keys
      = map (fun key => py_str (get data key (VStr "NA")))
          (List.filter (fun key => present (get data key (VStr "NA"))) contact_keys)
      /\ Forall (fun line => line <> EmptyString) (contact_lines data contact_keys)
  end.
Proof.
  destruct (collect stdin) as [[[data photo_path] rest]|] eqn:Hrun; [|exact I].
  destruct (collect_invariants _ _ _ _ Hrun) as (_ & _ & Hfilled & _).
  assert (forall key, negb (eq_NA (get data key (VStr "NA")))
                      = present (get data key (VStr "NA"))) as Htest.
  { intros key. apply filled_NA_test.
    exact (get_forallb filled_or_NA data key (VStr "NA") Hfilled eq_refl). }
  assert (contact_lines data contact_keys
          = map (fun key => py_str (get data key (VStr "NA")))
              (List.filter (fun key => present (get data key (VStr "NA"))) contact_keys))
    as Hlines.
  { rewrite contact_lines_filter. f_equal. apply List.filter_ext. exact Htest. }
  split; [exact Hlines|]. rewrite Hlines.
  apply List.Forall_map, List.Forall_forall. intros key Hin.
  apply List.filter_In in Hin as [_ Hpresent]. unfold present in Hpresent.
  apply andb_true_iff in Hpresent as [Htruthy _].
  destruct (get data key (VStr "NA")) as [s|rows]; cbn [py_str].
  - destruct s; [discriminate Htruthy|discriminate].
  - unfold PyText.repr_list. discriminate.
Qed.

(** ** The border under a heading *)

Lemma append_to_pPr_content (children : list xml) (child : xml) :
  List.filter (fun c => negb (is_pPr c)) (append_to_pPr children child)
  = List.filter (fun c => negb (is_pPr c)) children.
Proof.
  induction children as [|c rest IH]; [reflexivity|].
  cbn [append_to_pPr]. destruct (is_pPr c) eqn:Hc.
  - cbn [List.filter]. rewrite Hc.
    assert (is_pPr (xml_append c child) = true) as -> by (destruct c; exact Hc).
    reflexivity.
  - cbn [List.filter]. now rewrite Hc, IH.
Qed.

Lemma append_to_pPr_properties (children : list xml) (child : xml) :
  existsb is_pPr children = true ->
  properties_in (append_to_pPr children child) = properties_in children ++ [child].
Proof.
  induction children as [|c rest IH]; [discriminate|].
  cbn [existsb append_to_pPr properties_in]. destruct (is_pPr c) eqn:Hc.
  - intros _. cbn [properties_in].
    assert (is_pPr (xml_append c child) = true) as -> by (destruct c; exact Hc).
    now destruct c.
  - cbn [orb properties_in]. rewrite Hc. exact IH.
Qed.

Lemma append_to_pPr_borders (children : list xml) (child : xml) :
  existsb is_pPr children = true ->
  is_pBdr child = true ->
  count_borders (Element "" [] (append_to_pPr children child))
  = S (count_borders (Element "" [] children)).
Proof.
  unfold count_borders. cbn [xml_children].
  induction children as [|c rest IH]; [discriminate|].
  cbn [existsb append_to_pPr]. destruct (is_pPr c) eqn:Hc.
  - intros _ Hchild. cbn [map list_sum].
    assert (is_pPr (xml_append c child) = true) as -> by (destruct c; exact Hc).
    rewrite Hc. destruct c as [tag attributes children]. cbn [xml_append xml_children].
    rewrite List.filter_app.
    change (List.filter is_pBdr [child]) with (if is_pBdr child then [child] else []).
    rewrite Hchild, length_app. unfold list_sum. cbn [length fold_right]. lia.
  - cbn [orb]. intros Hrest Hchild. cbn [map]. rewrite Hc.
    specialize (IH Hrest Hchild). unfold list_sum in *. cbn [fold_right].
    now rewrite IH.
Qed.

Lemma get_or_add_pPr_has (children : list xml) :
  existsb is_pPr (get_or_add_pPr children) = true.
Proof.
  unfold get_or_add_pPr. destruct (existsb is_pPr children) eqn:Hhas; [exact Hhas|].
  reflexivity.
Qed.

(** X18. [add_bottom_border] leaves the paragraph's tag, attributes and
    content (every child other than its properties) as they are, keeps the
    properties it had and adds one border as the last of them: a [w:pBdr]
    holding a [w:bottom] with val "single", sz "6", space "1" and colour
    "auto". A paragraph without properties gets them. Each call adds one
    more border, so the function is not idempotent. *)
Theorem X18_bottom_border_added_once (p : xml) :
  xml_tag (add_bottom_border p) = xml_tag p
  /\ xml_attributes (add_bottom_border p) = xml_attributes p
  /\ content_of (add_bottom_border p) = content_of p
  /\ properties_of (add_bottom_border p)
     = properties_of p
       ++ [Element "w:pBdr" []
             [Element "w:bottom"
                [("w:val", "single"); ("w:sz", "6"); ("w:space", "1"); ("w:color", "auto")]%string
                []]]
  /\ count_borders (add_bottom_border p) = S (count_borders p)
  /\ count_borders (add_bottom_border (add_bottom_border p)) = S (S (count_borders p)).
Proof.
  assert (forall q, count_borders (add_bottom_border q) = S (count_borders q)) as Hcount.
  { intros [tag attributes children]. unfold add_bottom_border.
    change (count_borders (Element tag attributes ?c))
      with (count_borders (Element "" [] c)).
    rewrite append_to_pPr_borders by (apply get_or_add_pPr_has || reflexivity).
    unfold get_or_add_pPr, count_borders. cbn [xml_children].
    destruct (existsb is_pPr children); reflexivity. }
  split; [now destruct p|]. split; [now destruct p|].
  split; [|split; [|split; [apply Hcount|now rewrite !Hcount]]].
  - destruct p as [tag attributes children].
    unfold content_of, add_bottom_border. cbn [xml_children].
    rewrite append_to_pPr_content. unfold get_or_add_pPr.
    destruct (existsb is_pPr children); reflexivity.
  - destruct p as [tag attributes children].
    unfold properties_of, add_bottom_border. cbn [xml_children].
    rewrite append_to_pPr_properties by apply get_or_add_pPr_has.
    unfold get_or_add_pPr.
    destruct (existsb is_pPr children) eqn:Hhas; [reflexivity|].
    cbn [properties_in is_pPr xml_tag OxmlElement String.eqb Ascii.eqb Bool.eqb xml_children].
    clear -Hhas. induction children as [|c rest IH]; [reflexivity|].
    cbn [existsb] in Hhas. apply orb_false_iff in Hhas as [Hc Hrest].
    cbn [properties_in]. rewrite Hc. exact (IH Hrest).
Qed.

(** ** The crop, whatever the detector answers *)

Lemma py_slice_shorter {A : Type} (l : list A) (a b : Z) :
  (length (py_slice l a b) <= length l)%nat.
Proof.
  unfold py_slice. rewrite length_take, length_drop. lia.
Qed.

Lemma py_slice_In {A : Type} (l : list A) (a b : Z) (x : A) :
  In x (py_slice l a b) -> In x l.
Proof.
  unfold py_slice. rewrite <- !list_elem_of_In. intros Hin.
  apply (subseteq_drop (Z.to_nat (slice_bound (Z.of_nat (length l)) a))).
  exact (subseteq_take _ _ _ Hin).
Qed.

Lemma crop_inside (img : image) (y1 y2 x1 x2 : Z) :
  rectangular img ->
  height (crop img y1 y2 x1 x2) <= height img
  /\ Forall (fun row => Z.of_nat (length row) <= width img) (crop img y1 y2 x1 x2)
  /\ forall row p, In row (crop img y1 y2 x1 x2) -> In p row ->
       exists source, In source img /\ In p source.
Proof.
  intros Hrect. unfold crop. split; [|split].
  - unfold height. rewrite length_map. pose proof (py_slice_shorter img y1 y2). lia.
  - apply List.Forall_map, py_slice_Forall.
    eapply Forall_impl; [apply rectangular_rows, Hrect|].
    intros row Hrow. cbn beta in *. pose proof (py_slice_shorter row x1 x2). lia.
  - intros row p Hrow Hp. apply in_map_iff in Hrow as (source & <- & Hsource).
    exists source. split; [exact (py_slice_In _ _ _ _ Hsource)|exact (py_slice_In _ _ _ _ Hp)].
Qed.

(** X19. Whatever boxes the detector answers, inside the image or not, the
    crop is cut out of the image: it has no more rows than the image, no row
    of it is wider than the image, and each of its pixels is a pixel of the
    image. *)
Theorem X19_crop_is_cut_out_of_the_image (img : image) (faces : list box) :
  decodedb img = true ->
  height (crop_for img faces) <= height img
  /\ Forall (fun row => Z.of_nat (length row) <= width img) (crop_for img faces)
  /\ forall row p, In row (crop_for img faces) -> In p row ->
       exists source, In source img /\ In p source.
Proof.
  intros Hdec. apply decodedb_decoded in Hdec as (_ & _ & Hrect). unfold crop_for.
  destruct faces as [|face others]; [now apply crop_inside|].
  destruct (face_rectangle img face) as [[[y1 y2] x1] x2]. now apply crop_inside.
Qed.

Lemma X19_crop_is_cut_out_of_the_image_witness :
  height (crop_for four_by_four [(-3, 2, 100, 1)]) <= height four_by_four
  /\ Forall (fun row => Z.of_nat (length row) <= width four_by_four)
       (crop_for four_by_four [(-3, 2, 100, 1)])
  /\ forall row p, In row (crop_for four_by_four [(-3, 2, 100, 1)]) -> In p row ->
       exists source, In source four_by_four /\ In p source.
Proof.
  exact (X19_crop_is_cut_out_of_the_image four_by_four [(-3, 2, 100, 1)] eq_refl).
Defined.

(** ** The texts [main] stores *)

Lemma answered_trimmed (pairs : list (string * string)) :
  forallb field_trimmed (map answered pairs) = true.
Proof.
  induction pairs as [|[field line] pairs IH]; [reflexivity|].
  cbn [map forallb]. rewrite IH, andb_true_r.
  unfold answered, field_trimmed, or_NA. cbn [fst snd].
  destruct (is_empty (strip line)); [reflexivity|apply strip_trimmed].
Qed.

Lemma education_trimmed (rounds : list (string * string * string * string)) :
  forallb (forallb trimmed) (map round_row rounds) = true.
Proof.
  induction rounds as [|[[[degree school] year] grade] rounds IH]; [reflexivity|].
  cbn [map round_row forallb]. now rewrite !strip_trimmed, IH.
Qed.

(** X20. No text [main] stores, among the answers and the education cells,
    begins or ends with a white-space character, of ASCII or beyond; an
    answer of white space only is stored as "NA"; and an answer that has no
    white space around it and is not empty is stored as it was typed. *)
Theorem X20_stored_texts_are_trimmed (stdin : list string) (line : string) :
  match collect stdin with
  | None => True
  | Some ((data, _), _) => forallb field_trimmed data = true
  end
  /\ trimmed (strip line) = true
  /\ (blank line = true -> or_NA (strip line) = VStr "NA")
  /\ (trimmed line = true -> is_empty line = false -> or_NA (strip line) = VStr line).
Proof.
  split; [|split; [apply strip_trimmed|split]].
  - destruct (collect stdin) as [[[data photo_path] rest]|] eqn:Hrun; [|exact I].
    apply collect_inv in Hrun
      as (standard & rounds & blank_line & texts & photo_line
          & _ & _ & _ & _ & _ & -> & _).
    unfold session_record. rewrite forallb_app. cbn [forallb].
    rewrite !answered_trimmed. cbn [andb]. rewrite andb_true_r.
    unfold field_trimmed. cbn [snd].
    destruct rounds as [|round rounds]; [reflexivity|].
    exact (education_trimmed (round :: rounds)).
  - intros Hspace. rewrite (proj1 (or_NA_strip line)). now rewrite Hspace.
  - intros Htrim Hfull. rewrite (strip_of_trimmed _ Htrim). unfold or_NA. now rewrite Hfull.
Qed.

Lemma X20_stored_texts_are_trimmed_witness :
  or_NA (strip (PyText.of_codes [32; 194; 160; 227; 128; 128]%nat)) = VStr "NA"
  /\ or_NA (strip "Jane Doe") = VStr "Jane Doe".
Proof.
  destruct (X20_stored_texts_are_trimmed [] (PyText.of_codes [32; 194; 160; 227; 128; 128]%nat))
    as (_ & _ & Hblank & _).
  destruct (X20_stored_texts_are_trimmed [] "Jane Doe") as (_ & _ & _ & Hsame).
  exact (conj (Hblank eq_refl) (Hsame eq_refl eq_refl)).
Defined.
